(** * JobSee: the extraction, template and scoring pipeline

    A shallow embedding of [main.py] (job-posting extraction, LaTeX template
    filling, PDF compilation) and [testing.py] (resume analysis: skills,
    keywords, similarity), with the properties the specification states
    about them.

    Conventions of the embedding.
    - A Python [str] is a [string]; each [ascii] stands for one character,
      read as the code point of the same number (0..255), so [len] is
      [String.length].  The character classes below follow CPython on that
      range.  A text with a character beyond it is outside the embedding:
      there [str.lower] may change the length of a text and
      [str.capitalize] may leave the range.
    - A call that may raise returns an [option] or a [result]; a [try]
      block is the [match] on it.
    - Library calls whose code is not part of the repository (the Gemini
      client, [json.loads], [subprocess.run], NLTK, scikit-learn) are
      Section variables: every theorem holds for all their behaviours. *)

From Stdlib Require Import ZArith String Ascii List Lia Bool.
From Stdlib Require Import Sorting.Sorted Sorting.Permutation.
From Stdlib Require Import Floats.PrimFloat Floats.SpecFloat Floats.FloatOps.
From stdpp Require Import gmap strings.
Import ListNotations.

(** ** Python values and exceptions *)

Inductive exn : Type :=
  | NameError
  | TypeError
  | ValueError
  | AttributeError
  | FileNotFoundError
  | OSError
  | OtherError.

Inductive result (A : Type) : Type :=
  | Ok (a : A)
  | Raise (e : exn).
Arguments Ok {A} a.
Arguments Raise {A} e.

(** ** Characters and strings, as CPython treats them *)

Module PyStr.

Definition code (c : ascii) : N := N_of_ascii c.

Definition between (lo hi : N) (c : ascii) : bool :=
  ((lo <=? code c) && (code c <=? hi))%N.

Definition is_code (n : N) (c : ascii) : bool := (code c =? n)%N.

(** [str.isspace], which is also [\s] of a [str] pattern. *)
Definition isspace (c : ascii) : bool :=
  between 9 13 c || between 28 32 c || is_code 133 c || is_code 160 c.

(** [str.isalpha] of one character. *)
Definition isalpha_char (c : ascii) : bool :=
  between 65 90 c || between 97 122 c
  || is_code 170 c || is_code 181 c || is_code 186 c
  || between 192 214 c || between 216 246 c || between 248 255 c.

(** The digits and numerics: [isdecimal], [isdigit] or [isnumeric]. *)
Definition isnumeric_char (c : ascii) : bool :=
  between 48 57 c
  || is_code 178 c || is_code 179 c || is_code 185 c
  || between 188 190 c.

(** [\w] of a [str] pattern: alphanumeric or the underscore. *)
Definition isword (c : ascii) : bool :=
  isalpha_char c || isnumeric_char c || is_code 95 c.

Definition shift_code (c : ascii) (f : N -> N) : ascii := ascii_of_N (f (code c)).

(** [str.lower] of one character. *)
Definition lower_char (c : ascii) : ascii :=
  if between 65 90 c || (between 192 222 c && negb (is_code 215 c))
  then shift_code c (fun n => n + 32)%N
  else c.

(** [str.upper] of one character; the three letters of the range whose
    capital lies outside it (code points 181, 223 and 255) are left as
    they are. *)
Definition upper_char (c : ascii) : ascii :=
  if between 97 122 c || (between 224 254 c && negb (is_code 247 c))
  then shift_code c (fun n => n - 32)%N
  else c.

Fixpoint map_chars (f : ascii -> ascii) (s : string) : string :=
  match s with
  | EmptyString => EmptyString
  | String c s' => String (f c) (map_chars f s')
  end.

Definition lower (s : string) : string := map_chars lower_char s.

(** [str.capitalize]: the first character in upper case, the rest in
    lower case. *)
Definition capitalize (s : string) : string :=
  match s with
  | EmptyString => EmptyString
  | String c s' => String (upper_char c) (lower s')
  end.

(** [str.isalpha]: not empty and every character alphabetic. *)
Fixpoint all_chars (p : ascii -> bool) (s : string) : bool :=
  match s with
  | EmptyString => true
  | String c s' => p c && all_chars p s'
  end.

Definition isalpha (s : string) : bool :=
  match s with
  | EmptyString => false
  | _ => all_chars isalpha_char s
  end.

Definition head (s : string) : option ascii :=
  match s with
  | EmptyString => None
  | String c _ => Some c
  end.

Fixpoint last (s : string) : option ascii :=
  match s with
  | EmptyString => None
  | String c EmptyString => Some c
  | String _ s' => last s'
  end.

Fixpoint drop (n : nat) (s : string) : string :=
  match n, s with
  | O, _ => s
  | S _, EmptyString => EmptyString
  | S k, String _ s' => drop k s'
  end.

(** [s[:n]] *)
Fixpoint take (n : nat) (s : string) : string :=
  match n, s with
  | O, _ => EmptyString
  | S _, EmptyString => EmptyString
  | S k, String c s' => String c (take k s')
  end.

(** [s.startswith(p)] *)
Definition startswith (s p : string) : bool := String.prefix p s.

Fixpoint lstrip (s : string) : string :=
  match s with
  | EmptyString => EmptyString
  | String c s' => if isspace c then lstrip s' else s
  end.

Fixpoint rstrip (s : string) : string :=
  match s with
  | EmptyString => EmptyString
  | String c s' =>
      match rstrip s' with
      | EmptyString => if isspace c then EmptyString else String c EmptyString
      | t => String c t
      end
  end.

(** [s.strip()] *)
Definition strip (s : string) : string := rstrip (lstrip s).

(** [s.replace(old, new)] for a non-empty [old]: the scan goes left to
    right; at a match it emits [new] and jumps over the match.  [skip]
    counts the characters of the current match that are still to be
    jumped over. *)
Fixpoint replace_from (old new : string) (skip : nat) (s : string) : string :=
  match s with
  | EmptyString => EmptyString
  | String c s' =>
      match skip with
      | S k => replace_from old new k s'
      | O =>
          if startswith s old
          then new +:+ replace_from old new (String.length old - 1) s'
          else String c (replace_from old new 0 s')
      end
  end.

(** With an empty [old], Python puts [new] before every character and at
    the end. *)
Fixpoint intersperse (new s : string) : string :=
  match s with
  | EmptyString => new
  | String c s' => new +:+ String c (intersperse new s')
  end.

Definition replace (s old new : string) : string :=
  match old with
  | EmptyString => intersperse new s
  | _ => replace_from old new 0 s
  end.

(** [sep.join(items)] *)
Fixpoint join (sep : string) (items : list string) : string :=
  match items with
  | [] => EmptyString
  | [x] => x
  | x :: rest => x +:+ sep +:+ join sep rest
  end.

Definition newline : string := String (ascii_of_nat 10) EmptyString.

End PyStr.

(** ** The values [json.loads] produces, and the dictionary built from them *)

Module PyVal.

#[local] Unset Elimination Schemes.
Inductive pyval : Type :=
  | PNone
  | PBool (b : bool)
  | PInt (z : Z)
  | PFloat (f : float)
  | PStr (s : string)
  | PList (items : list pyval)
  | PDict (items : list (string * pyval)).
#[local] Set Elimination Schemes.

(** A dictionary whose keys are arbitrary hashable values, in insertion
    order.  ([PDict] above is a decoded JSON object: its keys are strings.) *)
Definition pydict : Type := list (pyval * pyval).

(** The integer a float is equal to, if it is integral. *)
Definition float_to_Z (f : float) : option Z :=
  match Prim2SF f with
  | S754_zero _ => Some 0%Z
  | S754_finite sign m e =>
      let v := if sign then Z.neg m else Z.pos m in
      if (0 <=? e)%Z then Some (v * 2 ^ e)%Z
      else if (Z.pos m mod 2 ^ (- e) =? 0)%Z then Some (v / 2 ^ (- e))%Z
      else None
  | _ => None
  end.

Definition Z_of_bool (b : bool) : Z := if b then 1%Z else 0%Z.

Definition Z_eq_float (z : Z) (f : float) : bool :=
  match float_to_Z f with
  | Some z' => (z =? z')%Z
  | None => false
  end.

(** [==] on the hashable values: [True == 1 == 1.0], and a string, a
    number and [None] are never equal to one another. *)
Definition key_eqb (a b : pyval) : bool :=
  match a, b with
  | PNone, PNone => true
  | PStr s, PStr t => String.eqb s t
  | PBool x, PBool y => Bool.eqb x y
  | PBool x, PInt z | PInt z, PBool x => (Z_of_bool x =? z)%Z
  | PBool x, PFloat f | PFloat f, PBool x => Z_eq_float (Z_of_bool x) f
  | PInt x, PInt y => (x =? y)%Z
  | PInt z, PFloat f | PFloat f, PInt z => Z_eq_float z f
  | PFloat f, PFloat g => PrimFloat.eqb f g
  | _, _ => false
  end.

Definition hashable (v : pyval) : bool :=
  match v with
  | PList _ | PDict _ => false
  | _ => true
  end.

(** [d.get(k)] *)
Fixpoint dict_get (k : pyval) (d : pydict) : option pyval :=
  match d with
  | [] => None
  | (k', v) :: rest => if key_eqb k' k then Some v else dict_get k rest
  end.

(** [d[k] = v]: an existing key keeps its place, a new one goes last. *)
Fixpoint dict_set (k v : pyval) (d : pydict) : pydict :=
  match d with
  | [] => [(k, v)]
  | (k', v') :: rest =>
      if key_eqb k' k then (k', v) :: rest else (k', v') :: dict_set k v rest
  end.

(** The keys of a decoded object, in order, each once. *)
Fixpoint object_keys (items : list (string * pyval)) (seen : list string) : list string :=
  match items with
  | [] => []
  | (k, _) :: rest =>
      if existsb (String.eqb k) seen then object_keys rest seen
      else k :: object_keys rest (k :: seen)
  end.

(** One element of the sequence given to [dict.update], read as a
    key/value pair: it is iterated, must yield exactly two items, and the
    first must be hashable.  Iterating a string yields its characters,
    iterating a dictionary its keys. *)
Definition as_pair (e : pyval) : result (pyval * pyval) :=
  match e with
  | PList [k; v] => if hashable k then Ok (k, v) else Raise TypeError
  | PList _ => Raise ValueError
  | PStr (String a (String b EmptyString)) =>
      Ok (PStr (String a EmptyString), PStr (String b EmptyString))
  | PStr _ => Raise ValueError
  | PDict items =>
      match object_keys items [] with
      | [k1; k2] => Ok (PStr k1, PStr k2)
      | _ => Raise ValueError
      end
  | PNone | PBool _ | PInt _ | PFloat _ => Raise TypeError
  end.

Fixpoint update_from_pairs (d : pydict) (elems : list pyval) : result pydict :=
  match elems with
  | [] => Ok d
  | e :: rest =>
      match as_pair e with
      | Ok (k, v) => update_from_pairs (dict_set k v d) rest
      | Raise err => Raise err
      end
  end.

Definition update_from_object (d : pydict) (items : list (string * pyval)) : pydict :=
  fold_left (fun acc kv => dict_set (PStr (fst kv)) (snd kv) acc) items d.

(** [d.update(other)]: a mapping is merged key by key; anything else is
    iterated as a sequence of pairs. *)
Definition dict_update (d : pydict) (other : pyval) : result pydict :=
  match other with
  | PDict items => Ok (update_from_object d items)
  | PList elems => update_from_pairs d elems
  | PStr EmptyString => Ok d
  | PStr _ => Raise ValueError
  | PNone | PBool _ | PInt _ | PFloat _ => Raise TypeError
  end.

(** [isinstance(x, list)], for the result of [d.get(k)]. *)
Definition isinstance_list (x : option pyval) : bool :=
  match x with
  | Some (PList _) => true
  | _ => false
  end.

End PyVal.

(** ** main.py *)

Module Main.
Import PyStr PyVal.

Definition LATEX_SUMMARY_PLACEHOLDER : string := "%<SUMMARY_PLACEHOLDER>%".
Definition LATEX_SKILLS_PLACEHOLDER : string := "%<SKILLS_LIST_PLACEHOLDER>%".

(** *** extract_data_with_gemini *)

Definition default_data : pydict :=
  [ (PStr "job_title", PStr "Unknown Role (Gemini)");
    (PStr "company_name", PStr "Unknown Company (Gemini)");
    (PStr "job_description", PStr "Could not extract Job Description via Gemini.");
    (PStr "required_skills", PList []);
    (PStr "emails", PList []) ].

Definition max_chars : nat := 15 * 1000.

Definition truncate_content (text_content : string) : string :=
  if (max_chars <? String.length text_content)%nat
  then take max_chars text_content +:+ newline +:+ "... [Content Truncated]"
  else text_content.

(** The prompt is elided in the source: the f-string holds no field. *)
Definition build_prompt (text_content : string) : string :=
  "... (same prompt as before) ...".

(** [re.search(r'```json\s*(\{.*?\})\s*```', text, re.DOTALL | re.IGNORECASE)],
    returning group 1.  Neither a brace nor a backquote is white space, so
    each [\s*] takes all the white space there is; [.*?] stops at the first
    closing brace that white space and a fence follow. *)
Definition fence : string := "```".

Fixpoint lazy_body (s : string) : option string :=
  match s with
  | EmptyString => None
  | String c s' =>
      if Ascii.eqb c "}" && startswith (lstrip s') fence
      then Some (String c EmptyString)
      else option_map (String c) (lazy_body s')
  end.

Definition match_fenced_json (s : string) : option string :=
  if startswith s fence && String.eqb (lower (take 4 (drop 3 s))) "json"
  then match lstrip (drop 7 s) with
       | String "{" rest => option_map (String "{") (lazy_body rest)
       | _ => None
       end
  else None.

Fixpoint search_fenced_json (s : string) : option string :=
  match match_fenced_json s with
  | Some g => Some g
  | None =>
      match s with
      | EmptyString => None
      | String _ s' => search_fenced_json s'
      end
  end.

(** The string handed to [json.loads]. *)
Definition json_source (response_text : string) : string :=
  match search_fenced_json response_text with
  | Some g => g
  | None => response_text
  end.

Definition reset_unless_list (key : string) (d : pydict) : pydict :=
  if isinstance_list (dict_get (PStr key) d) then d
  else dict_set (PStr key) (PList []) d.

Section StructuredExtractor.

(** [model.generate_content(prompt, ...).text]; [None] when the call or
    the access to [.text] raises. *)
Variable generate_content : string -> option string.

(** [json.loads]; [None] when it raises. *)
Variable json_loads : string -> option pyval.

Definition extract_data_with_gemini (text_content url : string) : pydict :=
  let text_content := truncate_content text_content in
  let prompt := build_prompt text_content in
  match generate_content prompt with
  | None => default_data
  | Some text =>
      let response_text := strip text in
      let json_str := json_source response_text in
      match json_loads json_str with
      | None => default_data
      | Some extracted_data =>
          match dict_update default_data extracted_data with
          | Raise _ => default_data
          | Ok final_data =>
              let final_data := reset_unless_list "required_skills" final_data in
              let final_data := reset_unless_list "emails" final_data in
              final_data
          end
      end
  end.

End StructuredExtractor.

(** *** The files and processes the script touches *)

(** Regular files with their text, and the directories. *)
Record world : Type := {
  files : gmap string string;
  dirs : gset string
}.

(** [os.path.exists] *)
Definition path_exists (w : world) (path : string) : bool :=
  bool_decide (path ∈ dom (files w)) || bool_decide (path ∈ dirs w).

(** What the operating system may refuse, by path. *)
Record os_faults : Type := {
  read_fails : string -> bool;
  makedirs_fails : string -> bool;
  open_for_write_fails : string -> bool;
  write_fails : string -> bool
}.

(** [open(path, 'r', encoding='utf-8').read()] *)
Definition read_text (faults : os_faults) (w : world) (path : string) : option string :=
  if read_fails faults path then None else files w !! path.

(** [os.makedirs(path, exist_ok=True)]; the parents it creates on the way
    are not tracked. *)
Definition makedirs (faults : os_faults) (w : world) (path : string) : option world :=
  if String.eqb path "" then None
  else if bool_decide (path ∈ dom (files w)) then None
  else if makedirs_fails faults path then None
  else Some {| files := files w; dirs := {[ path ]} ∪ dirs w |}.

(** [with open(path, 'w', encoding='utf-8') as f: f.write(content)]:
    opening truncates the file; the flag tells whether all went well. *)
Definition write_text (faults : os_faults) (w : world) (path content : string) : bool * world :=
  if open_for_write_fails faults path then (false, w)
  else if write_fails faults path
       then (false, {| files := <[ path := "" ]> (files w); dirs := dirs w |})
       else (true, {| files := <[ path := content ]> (files w); dirs := dirs w |}).

(** [os.path] on POSIX. *)
Fixpoint split_at_last_slash (p : string) : string * string :=
  match p with
  | EmptyString => (EmptyString, EmptyString)
  | String c p' =>
      let '(h, t) := split_at_last_slash p' in
      match h with
      | EmptyString =>
          if Ascii.eqb c "/" then (String c EmptyString, p') else (EmptyString, String c t)
      | _ => (String c h, t)
      end
  end.

Fixpoint rstrip_slashes (s : string) : string :=
  match s with
  | EmptyString => EmptyString
  | String c s' =>
      match rstrip_slashes s' with
      | EmptyString => if Ascii.eqb c "/" then EmptyString else String c EmptyString
      | t => String c t
      end
  end.

Definition basename (p : string) : string := snd (split_at_last_slash p).

Definition dirname (p : string) : string :=
  let h := fst (split_at_last_slash p) in
  if all_chars (Ascii.eqb "/") h then h else rstrip_slashes h.

Definition path_join (a b : string) : string :=
  if startswith b "/" then b
  else match last a with
       | None => b
       | Some c => if Ascii.eqb c "/" then a +:+ b else a +:+ "/" +:+ b
       end.

(** *** modify_latex_template *)

(** [extracted_data] with the value types of ExtractedListing; [None] is
    an absent key. *)
Record listing : Type := {
  job_title : option string;
  company_name : option string;
  job_description : option string;
  required_skills : option (list string);
  emails : option (list string)
}.

(** [s.replace('%', '\\%').replace('&', '\\&').replace('_', '\\_')] *)
Definition latex_escape (s : string) : string :=
  replace (replace (replace s "%" "\%") "&" "\&") "_" "\_".

(** Lines 122-126: the summary before it is escaped. *)
Definition summary_text (extracted_data : listing) : string :=
  let summary_text := default "" (job_description extracted_data) in
  if String.eqb summary_text ""
     || (String.length summary_text <? 30)%nat
     || startswith summary_text "Could not extract"
  then "Highly motivated professional seeking the "
       +:+ default "challenging" (job_title extracted_data)
       +:+ " position at "
       +:+ default "your esteemed company" (company_name extracted_data)
       +:+ "."
  else "Summary based on job description: " +:+ summary_text
       +:+ " My background aligns with the requirements of the "
       +:+ default "role" (job_title extracted_data)
       +:+ " position.".

(** Lines 131-135. *)
Definition skills_latex_items (extracted_data : listing) : string :=
  match default [] (required_skills extracted_data) with
  | [] => "    \item No specific skills extracted."
  | skills_list =>
      join newline (map (fun skill => "    \item " +:+ latex_escape skill) skills_list)
  end.

(** Lines 119-136: the template after both substitutions. *)
Definition modified_content (template_content : string) (extracted_data : listing) : string :=
  let modified_content := template_content in
  let modified_content :=
    replace modified_content LATEX_SUMMARY_PLACEHOLDER
            (latex_escape (summary_text extracted_data)) in
  replace modified_content LATEX_SKILLS_PLACEHOLDER (skills_latex_items extracted_data).

Definition modify_latex_template (faults : os_faults) (w : world)
    (template_path output_path : string) (extracted_data : listing) : bool * world :=
  match read_text faults w template_path with
  | None => (false, w)
  | Some template_content =>
      let content := modified_content template_content extracted_data in
      match makedirs faults w (dirname output_path) with
      | None => (false, w)
      | Some w' => write_text faults w' output_path content
      end
  end.

(** *** compile_latex_to_pdf *)

Record completed_process : Type := {
  returncode : Z;
  stdout : string;
  stderr : string
}.

Inductive run_outcome : Type :=
  | Completed (result : completed_process) (after : world)
  | RunRaises (e : exn).

Section DocumentCompiler.

(** [subprocess.run(command, cwd=..., capture_output=True, text=True,
    check=False)] in a given world. *)
Variable subprocess_run : list string -> string -> world -> run_outcome.

Definition compile_latex_to_pdf (w : world) (tex_filepath : string) : bool * world :=
  if negb (path_exists w tex_filepath) then (false, w)
  else
    let tex_filename := basename tex_filepath in
    let output_dir := dirname tex_filepath in
    let pdf_filename := replace tex_filename ".tex" ".pdf" in
    let pdf_filepath := path_join output_dir pdf_filename in
    let command := ["pdflatex"; "-interaction=nonstopmode"; tex_filename] in
    match subprocess_run command output_dir w with
    | Completed result after =>
        if negb (returncode result =? 0)%Z then (false, after)
        else if path_exists after pdf_filepath then (true, after)
        else (false, after)
    | RunRaises FileNotFoundError => (false, w)
    | RunRaises _ => (false, w)
    end.

End DocumentCompiler.

(** *** sanitize_filename *)

(** The character class of the pattern: backslash, slash, star, question
    mark, colon, double quote, the two angle brackets and the bar. *)
Definition path_unsafe (c : ascii) : bool :=
  is_code 92 c || is_code 47 c || is_code 42 c || is_code 63 c || is_code 58 c
  || is_code 34 c || is_code 60 c || is_code 62 c || is_code 124 c.

(** [re.sub(r'[...]', "", s)] for a character class: its characters are
    dropped. *)
Fixpoint remove_chars (unwanted : ascii -> bool) (s : string) : string :=
  match s with
  | EmptyString => EmptyString
  | String c s' =>
      if unwanted c then remove_chars unwanted s' else String c (remove_chars unwanted s')
  end.

Definition sanitize_filename (filename : string) : string :=
  let sanitized := remove_chars path_unsafe filename in
  let sanitized := replace sanitized " " "_" in
  take 100 sanitized.

(** *** cleanup_latex_aux_files *)

Definition extensions_to_remove : list string :=
  [".log"; ".aux"; ".out"; ".toc"; ".nav"; ".snm"; ".fls"; ".fdb_latexmk"].

Section Cleanup.

(** The paths on which [os.remove] is refused. *)
Variable remove_fails : string -> bool.

(** [os.remove(path)]: it removes a regular file and raises on anything
    else. *)
Definition os_remove (w : world) (path : string) : option world :=
  if remove_fails path then None
  else match files w !! path with
       | Some _ => Some {| files := delete path (files w); dirs := dirs w |}
       | None => None
       end.

(** One round of the loop: the file is removed if it exists; a failure
    to remove it is logged and the loop goes on. *)
Definition remove_aux_file (directory base_filename_no_ext : string)
    (w : world) (ext : string) : world :=
  let filepath := path_join directory (base_filename_no_ext +:+ ext) in
  if path_exists w filepath then
    match os_remove w filepath with
    | Some w' => w'
    | None => w
    end
  else w.

Definition cleanup_latex_aux_files (w : world) (directory base_filename_no_ext : string)
    : world :=
  fold_left (remove_aux_file directory base_filename_no_ext) extensions_to_remove w.

End Cleanup.

(** *** scrape_url *)

(** [needle in s] *)
Fixpoint contains (needle s : string) : bool :=
  startswith s needle
  || match s with
     | EmptyString => false
     | String _ s' => contains needle s'
     end.

(** What [requests.get] hands back: whether [raise_for_status] raises, the
    content-type header if there is one, and the body as text. *)
Record response : Type := {
  status_raises : bool;
  content_type : option string;
  text : string
}.

Section Scraper.

(** The parsed page, an object of the parsing library. *)
Variable soup : Type.

(** [requests.get(url, headers=HEADERS, timeout=20)]; [None] when it
    raises. *)
Variable requests_get : string -> option response.

(** [BeautifulSoup(html_content, 'lxml')]; [None] when it raises. *)
Variable BeautifulSoup : string -> option soup.

(** The pair returned is [(None, None)] or a page with its source. *)
Definition scrape_url (url : string) : option (soup * string) :=
  match requests_get url with
  | None => None
  | Some response =>
      if status_raises response then None
      else
        let content_type := lower (default "" (content_type response)) in
        if negb (contains "html" content_type) then None
        else
          let html_content := text response in
          match BeautifulSoup html_content with
          | None => None
          | Some soup => Some (soup, html_content)
          end
  end.

End Scraper.

(** *** generate_email *)

Definition EMAIL_SPECIFIC_JD_POINT_PLACEHOLDER : string :=
  "[Mention something specific from the JD]".

Section EmailWriter.

Variable faults : os_faults.

(** [template.format] with the fields as keyword arguments; [None] when
    it raises. *)
Variable str_format : string -> list (string * string) -> option string.

Definition generate_email (w : world) (template_path : string) (extracted_data : listing)
    : option string :=
  match read_text faults w template_path with
  | None => None
  | Some email_template =>
      let role_title := default "the position" (job_title extracted_data) in
      let company_name := default "your company" (company_name extracted_data) in
      let key_skills_list := default [] (required_skills extracted_data) in
      let key_skills_str :=
        match key_skills_list with
        | [] => "relevant skills"
        | _ => join ", " (firstn 3 key_skills_list)
        end in
      let your_name_value := "Amritanshu Srivastava" in
      let your_contact_value := "amritanshus550@gmail.com | +91-939588293" in
      str_format email_template
        [("ROLE_TITLE", role_title); ("COMPANY_NAME", company_name);
         ("KEY_SKILLS", key_skills_str);
         ("SPECIFIC_JD_POINT", EMAIL_SPECIFIC_JD_POINT_PLACEHOLDER);
         ("YOUR_NAME", your_name_value); ("YOUR_CONTACT_INFO", your_contact_value)]
  end.

End EmailWriter.

(** *** main *)

#[local] Instance result_bind : MBind result :=
  fun A B f r => match r with Ok a => f a | Raise e => Raise e end.

(** The truth value of a value. *)
Definition truthy (v : pyval) : bool :=
  match v with
  | PNone => false
  | PBool b => b
  | PInt z => negb (z =? 0)%Z
  | PFloat f => negb (PrimFloat.eqb f 0)
  | PStr s => negb (String.eqb s "")
  | PList items => match items with [] => false | _ => true end
  | PDict items => match items with [] => false | _ => true end
  end.

(** [d[k]] for a string key; a missing key is a KeyError, which is among
    the other errors. *)
Definition dict_item (k : string) (d : pydict) : result pyval :=
  match dict_get (PStr k) d with
  | Some v => Ok v
  | None => Raise OtherError
  end.

(** The items of a list when all are strings. *)
Fixpoint strings_of (items : list pyval) : option (list string) :=
  match items with
  | [] => Some []
  | PStr s :: rest => option_map (cons s) (strings_of rest)
  | _ => None
  end.

(** [', '.join(v) if v else 'None'] of lines 277-278, keeping the items:
    joining raises TypeError on an item that is no string.  The value is
    a list, lines 106-107 see to it; a false value that is no list counts
    as no items further on, and a true one that is no list does not reach
    this place. *)
Definition joined_items (v : pyval) : result (list string) :=
  if truthy v then
    match v with
    | PList items =>
        match strings_of items with
        | Some l => Ok l
        | None => Raise TypeError
        end
    | _ => Raise TypeError
    end
  else Ok [].

(** [v and not v.startswith('Could not')] of line 279, keeping the text:
    a true value that is no string has no [startswith]; a false one is
    read as no description by what follows. *)
Definition described (v : pyval) : result (option string) :=
  if truthy v then
    match v with
    | PStr s => Ok (Some s)
    | _ => Raise AttributeError
    end
  else Ok None.

(** The argument of [sanitize_filename]: [re.sub] raises TypeError on a
    value that is no string. *)
Definition expect_str (v : pyval) : result string :=
  match v with
  | PStr s => Ok s
  | _ => Raise TypeError
  end.

(** Lines 274-287: the summary that is printed and the two sanitized
    names evaluate the record in this order; what is left is the record
    with the types the later steps rely on. *)
Definition typed_record (extracted_data : pydict) : result listing :=
  title ← dict_item "job_title" extracted_data;
  company ← dict_item "company_name" extracted_data;
  skills ← dict_item "required_skills" extracted_data;
  skills ← joined_items skills;
  emails ← dict_item "emails" extracted_data;
  emails ← joined_items emails;
  description ← dict_item "job_description" extracted_data;
  description ← described description;
  company ← expect_str company;
  title ← expect_str title;
  Ok {| job_title := Some title; company_name := Some company;
        job_description := description;
        required_skills := Some skills; emails := Some emails |}.

(** [s.replace(old, new, 1)] *)
Fixpoint replace_first (s old new : string) : string :=
  match old with
  | EmptyString => new +:+ s
  | _ =>
      match s with
      | EmptyString => EmptyString
      | String c s' =>
          if startswith s old then new +:+ drop (String.length old) s
          else String c (replace_first s' old new)
      end
  end.

Section Pipeline.

Variable soup : Type.
Variable requests_get : string -> option response.
Variable BeautifulSoup : string -> option soup.

(** [get_clean_text_from_html], which is made of calls to the parsing
    library. *)
Variable get_clean_text_from_html : soup -> string.

Variable generate_content : string -> option string.
Variable json_loads : string -> option pyval.
Variable faults : os_faults.
Variable subprocess_run : list string -> string -> world -> run_outcome.
Variable remove_fails : string -> bool.
Variable str_format : string -> list (string * string) -> option string.

(** The directory of the script. *)
Variable BASE_DIR : string.

(** [datetime.now().strftime("%Y%m%d_%H%M%S")] *)
Variable timestamp : string.

Definition LATEX_TEMPLATE_PATH : string :=
  path_join (path_join (path_join BASE_DIR "templates") "resume") "base_resume.tex".

Definition EMAIL_TEMPLATE_PATH : string :=
  path_join (path_join (path_join BASE_DIR "templates") "email") "cold_email_template.txt".

Definition RESUME_OUTPUT_DIR : string := path_join (path_join BASE_DIR "output") "resumes".

Definition EMAIL_OUTPUT_DIR : string := path_join (path_join BASE_DIR "output") "emails".

(** Lines 285-291. *)
Definition base_filename (extracted_data : listing) : string :=
  let safe_company := sanitize_filename (default "" (company_name extracted_data)) in
  let safe_role := sanitize_filename (default "" (job_title extracted_data)) in
  safe_company +:+ "_" +:+ safe_role +:+ "_" +:+ timestamp.

Definition output_tex_path (extracted_data : listing) : string :=
  path_join RESUME_OUTPUT_DIR (base_filename extracted_data +:+ ".tex").

Definition output_email_path (extracted_data : listing) : string :=
  path_join EMAIL_OUTPUT_DIR (base_filename extracted_data +:+ "_email.txt").

(** Lines 291-315: the resume, and the path of its PDF if there is one. *)
Definition tailor_resume (cleanup : bool) (w : world) (extracted_data : listing)
    : option string * world :=
  let output_tex_path := output_tex_path extracted_data in
  let '(latex_success, w) :=
    modify_latex_template faults w LATEX_TEMPLATE_PATH output_tex_path extracted_data in
  if latex_success then
    let '(pdf_success, w) := compile_latex_to_pdf subprocess_run w output_tex_path in
    if pdf_success then
      (Some (replace output_tex_path ".tex" ".pdf"),
       if cleanup
       then cleanup_latex_aux_files remove_fails w RESUME_OUTPUT_DIR
              (base_filename extracted_data)
       else w)
    else (None, w)
  else (None, w).

(** Lines 319-347: the email draft. *)
Definition draft_email (pdf_path : option string) (w : world) (extracted_data : listing)
    : world :=
  match generate_email faults str_format w EMAIL_TEMPLATE_PATH extracted_data with
  | None | Some EmptyString => w
  | Some email_text =>
      let email_text :=
        match pdf_path with
        | None | Some EmptyString => email_text
        | Some _ =>
            replace_first email_text "My attached resume provides"
              "My attached resume (PDF) provides"
        end in
      let output_email_path := output_email_path extracted_data in
      match makedirs faults w (dirname output_email_path) with
      | None => w
      | Some w => snd (write_text faults w output_email_path email_text)
      end
  end.

(** [main()] with the arguments [--url] and [--cleanup] already parsed;
    what it prints and logs is left out. *)
Definition main (job_url : string) (cleanup : bool) (w : world) : result world :=
  match scrape_url soup requests_get BeautifulSoup job_url with
  | None => Ok w
  | Some (soup, html_content) =>
      if String.eqb html_content "" then Ok w
      else
        let clean_text := get_clean_text_from_html soup in
        if String.eqb clean_text "" then Ok w
        else
          let extracted_data :=
            extract_data_with_gemini generate_content json_loads clean_text job_url in
          extracted_data ← typed_record extracted_data;
          let '(pdf_path, w) := tailor_resume cleanup w extracted_data in
          Ok (draft_email pdf_path w extracted_data)
  end.

End Pipeline.

End Main.

(** ** testing.py *)

Module Testing.
Import PyStr.

Definition PREDEFINED_SKILLS : list string :=
  [ "python"; "java"; "c++"; "javascript"; "html"; "css"; "sql"; "nosql"; "mongodb";
    "react"; "angular"; "vue"; "node.js"; "django"; "flask"; "spring";
    "machine learning"; "deep learning"; "data science"; "data analysis";
    "aws"; "azure"; "gcp"; "docker"; "kubernetes"; "git"; "jira"; "agile";
    "communication"; "teamwork"; "problem solving"; "leadership"; "project management" ].

(** *** extract_skills *)

Definition is_word_char (c : option ascii) : bool :=
  match c with
  | Some c => isword c
  | None => false
  end.

(** [\b] between the character before and the character after. *)
Definition word_boundary (before after : option ascii) : bool :=
  xorb (is_word_char before) (is_word_char after).

(** The pattern [\b] + [re.escape(literal)] + [\b] matched at the head of
    [s], [before] being the character in front of [s]. *)
Definition match_bounded (literal : string) (before : option ascii) (s : string) : bool :=
  word_boundary before (head s)
  && startswith s literal
  && word_boundary (match last literal with Some c => Some c | None => before end)
                   (head (drop (String.length literal) s)).

Fixpoint search_bounded (literal : string) (before : option ascii) (s : string) : bool :=
  match_bounded literal before s
  || match s with
     | EmptyString => false
     | String c s' => search_bounded literal (Some c) s'
     end.

(** [re.search(r'\b' + re.escape(literal) + r'\b', text)] found a match. *)
Definition re_search_bounded (literal text : string) : bool :=
  search_bounded literal None text.

Definition found_skills (text : string) (skill_list : list string) : gset string :=
  let text_lower := lower text in
  fold_left
    (fun found skill =>
       if re_search_bounded (lower skill) text_lower
       then found ∪ {[ capitalize skill ]}
       else found)
    skill_list ∅.

(** [list(found_skills)]: the elements in the order the set yields them. *)
Definition extract_skills (text : string) (skill_list : list string) : list string :=
  elements (found_skills text skill_list).

(** *** extract_keywords *)

(** The module never binds the global name [stop_words]: it imports
    [nltk.corpus.stopwords] and assigns nothing.  [None] is an unbound
    name. *)
Definition stop_words : option (list string) := None.

(** [Counter(tokens)]: the counts, in order of first occurrence. *)
Fixpoint counter_add (word : string) (counts : list (string * nat)) : list (string * nat) :=
  match counts with
  | [] => [(word, 1)]
  | (k, n) :: rest =>
      if String.eqb k word then (k, S n) :: rest else (k, n) :: counter_add word rest
  end.

Definition Counter (tokens : list string) : list (string * nat) :=
  fold_left (fun counts word => counter_add word counts) tokens [].

(** [sorted(items, key=itemgetter(1), reverse=True)]: stable. *)
Fixpoint insert_by_count (x : string * nat) (sorted : list (string * nat)) : list (string * nat) :=
  match sorted with
  | [] => [x]
  | y :: rest =>
      if (snd x <? snd y)%nat then y :: insert_by_count x rest else x :: y :: rest
  end.

Definition sort_by_count (items : list (string * nat)) : list (string * nat) :=
  fold_right insert_by_count [] items.

(** [counts.most_common(n)] *)
Definition most_common (n : Z) (counts : list (string * nat)) : list (string * nat) :=
  firstn (Z.to_nat n) (sort_by_count counts).

(** [[word for word in tokens if word.isalpha() and word not in stop_words]],
    the name [stop_words] being looked up at each alphabetic token. *)
Fixpoint filtered_tokens (stop_words : option (list string)) (tokens : list string)
    : result (list string) :=
  match tokens with
  | [] => Ok []
  | word :: rest =>
      if isalpha word then
        match stop_words with
        | None => Raise NameError
        | Some stopped =>
            match filtered_tokens stop_words rest with
            | Ok kept => Ok (if existsb (String.eqb word) stopped then kept else word :: kept)
            | Raise e => Raise e
            end
        end
      else filtered_tokens stop_words rest
  end.

Section Keywords.

(** [nltk.tokenize.word_tokenize] *)
Variable word_tokenize : string -> list string.

Definition extract_keywords_with (stop_words : option (list string))
    (text : string) (num_keywords : Z) : result (list string) :=
  if String.eqb text "" then Ok []
  else
    let tokens := word_tokenize (lower text) in
    match filtered_tokens stop_words tokens with
    | Raise e => Raise e
    | Ok filtered => Ok (map fst (most_common num_keywords (Counter filtered)))
    end.

Definition extract_keywords (text : string) (num_keywords : Z) : result (list string) :=
  extract_keywords_with stop_words text num_keywords.

End Keywords.

(** *** calculate_similarity *)

Section SimilarityScorer.

(** The sparse matrix of scikit-learn. *)
Variable matrix : Type.

(** [TfidfVectorizer(stop_words='english').fit_transform(corpus)]; it
    raises [ValueError] on an empty vocabulary. *)
Variable fit_transform : list string -> result matrix.

(** [cosine_similarity(m[0:1], m[1:2])[0][0]] *)
Variable cosine_similarity : matrix -> result float.

(** [round(x, 2)] *)
Variable round2 : float -> float.

Definition calculate_similarity (resume_text jd_text : string) : float :=
  if String.eqb resume_text "" || String.eqb jd_text "" then 0%float
  else
    let corpus := [resume_text; jd_text] in
    match fit_transform corpus with
    | Raise ValueError => 0%float
    | Raise _ => 0%float
    | Ok tfidf_matrix =>
        match cosine_similarity tfidf_matrix with
        | Raise ValueError => 0%float
        | Raise _ => 0%float
        | Ok similarity => round2 (similarity * 100)%float
        end
    end.

End SimilarityScorer.

(** *** extract_emails and extract_phones *)

(** The pieces of the two patterns: a character class repeated between
    [lo] and [hi] times, as many times as possible first, or [\b]. *)
Inductive item : Type :=
  | Rep (cls : ascii -> bool) (lo : nat) (hi : option nat)
  | Boundary.

(** The number of leading characters of [s] that are in the class. *)
Fixpoint run_length (cls : ascii -> bool) (s : string) : nat :=
  match s with
  | EmptyString => 0
  | String c s' => if cls c then S (run_length cls s') else 0
  end.

(** The character in front of what follows [taken]. *)
Definition char_before (before : option ascii) (taken : string) : option ascii :=
  match last taken with
  | Some c => Some c
  | None => before
  end.

(** Backtracking over a repetition: [n] characters are taken, then [n-1],
    down to [lo], until the rest of the pattern [k] matches. *)
Fixpoint try_counts (k : option ascii -> string -> option string)
    (lo n : nat) (before : option ascii) (s : string) : option string :=
  if (n <? lo)%nat then None
  else
    match k (char_before before (take n s)) (drop n s) with
    | Some m => Some (take n s +:+ m)
    | None =>
        match n with
        | O => None
        | S n' => try_counts k lo n' before s
        end
    end.

(** The match of the pattern at the head of [s], if there is one: the
    text matched. *)
Fixpoint match_items (items : list item) (before : option ascii) (s : string)
    : option string :=
  match items with
  | [] => Some EmptyString
  | Boundary :: rest =>
      if word_boundary before (head s) then match_items rest before s else None
  | Rep cls lo hi :: rest =>
      let longest := run_length cls s in
      let n := match hi with
               | Some h => Nat.min h longest
               | None => longest
               end in
      try_counts (match_items rest) lo n before s
  end.

(** [re.findall]: the matches from left to right, none overlapping the
    one before; [skip] counts the characters of the last match still to be
    passed. *)
Fixpoint findall_from (items : list item) (skip : nat) (before : option ascii)
    (s : string) : list string :=
  match skip with
  | S k =>
      match s with
      | EmptyString => []
      | String c s' => findall_from items k (Some c) s'
      end
  | O =>
      match match_items items before s with
      | Some m =>
          m :: match s with
               | EmptyString => []
               | String c s' => findall_from items (String.length m - 1) (Some c) s'
               end
      | None =>
          match s with
          | EmptyString => []
          | String c s' => findall_from items 0 (Some c) s'
          end
      end
  end.

Definition re_findall (items : list item) (text : string) : list string :=
  findall_from items 0 None text.

Definition ascii_letter (c : ascii) : bool := between 65 90 c || between 97 122 c.

(** [\d] of a [str] pattern. *)
Definition decimal_digit (c : ascii) : bool := between 48 57 c.

(** [[A-Za-z0-9._%+-]] *)
Definition email_local_char (c : ascii) : bool :=
  ascii_letter c || decimal_digit c
  || is_code 46 c || is_code 95 c || is_code 37 c || is_code 43 c || is_code 45 c.

(** [[A-Za-z0-9.-]] *)
Definition email_domain_char (c : ascii) : bool :=
  ascii_letter c || decimal_digit c || is_code 46 c || is_code 45 c.

(** [[A-Z|a-z]]: the bar is a member of the class. *)
Definition email_tld_char (c : ascii) : bool := ascii_letter c || is_code 124 c.

(** [[-.\s]] *)
Definition phone_separator (c : ascii) : bool :=
  is_code 45 c || is_code 46 c || isspace c.

Definition one (code : N) : item := Rep (is_code code) 1 (Some 1).

(** [\b[A-Za-z0-9._%+-]+@[A-Za-z0-9.-]+\.[A-Z|a-z]{2,}\b] *)
Definition email_pattern : list item :=
  [ Boundary; Rep email_local_char 1 None; one 64; Rep email_domain_char 1 None;
    one 46; Rep email_tld_char 2 None; Boundary ].

(** [\(?\d{3}\)?[-.\s]?\d{3}[-.\s]?\d{4}] *)
Definition phone_pattern : list item :=
  [ Rep (is_code 40) 0 (Some 1); Rep decimal_digit 3 (Some 3);
    Rep (is_code 41) 0 (Some 1); Rep phone_separator 0 (Some 1);
    Rep decimal_digit 3 (Some 3); Rep phone_separator 0 (Some 1);
    Rep decimal_digit 4 (Some 4) ].

(** [list(set(re.findall(...)))] *)
Definition extract_emails (text : string) : list string :=
  elements (list_to_set (re_findall email_pattern text) : gset string).

Definition extract_phones (text : string) : list string :=
  elements (list_to_set (re_findall phone_pattern text) : gset string).

(** *** Text extraction *)

(** What [page.extract_text()] gives for a page of a PDF: a text, [None],
    or an exception. *)
Inductive page : Type :=
  | PageText (text : option string)
  | PageRaises.

(** The loop over the pages: a page without text is passed, an exception
    ends the loop with the text read so far. *)
Fixpoint read_pages (text : string) (pages : list page) : string :=
  match pages with
  | [] => text
  | PageRaises :: _ => text
  | PageText None :: rest => read_pages text rest
  | PageText (Some page_text) :: rest =>
      if String.eqb page_text "" then read_pages text rest
      else read_pages (text +:+ page_text +:+ newline) rest
  end.

(** [os.path.splitext] on POSIX: the extension starts at the last dot of
    the last component, unless only dots come before it there. *)
Fixpoint split_at_last_dot (s : string) : option (string * string) :=
  match s with
  | EmptyString => None
  | String c s' =>
      match split_at_last_dot s' with
      | Some (root, ext) => Some (String c root, ext)
      | None => if Ascii.eqb c "." then Some (EmptyString, s) else None
      end
  end.

Definition splitext (p : string) : string * string :=
  let '(directory, name) := Main.split_at_last_slash p in
  match split_at_last_dot name with
  | Some (root, ext) =>
      if all_chars (Ascii.eqb ".") root then (p, EmptyString)
      else (directory +:+ root, ext)
  | None => (p, EmptyString)
  end.

Section TextExtraction.

Variable faults : Main.os_faults.

(** [pdfplumber.open(path).pages], page by page; [None] when opening the
    file raises. *)
Variable pdf_pages : Main.world -> string -> option (list page).

Definition extract_text_from_pdf (w : Main.world) (pdf_path : string) : string :=
  match pdf_pages w pdf_path with
  | Some pages => read_pages "" pages
  | None => ""
  end.

Definition extract_text_from_txt (w : Main.world) (txt_path : string) : string :=
  match Main.read_text faults w txt_path with
  | Some text => text
  | None => ""
  end.

Definition get_text_from_file (w : Main.world) (file_path : string) : string :=
  let extension := snd (splitext (lower file_path)) in
  if String.eqb extension ".pdf" then extract_text_from_pdf w file_path
  else if String.eqb extension ".txt" then extract_text_from_txt w file_path
  else "".

End TextExtraction.

(** *** analyze_resume_text *)

Inductive report : Type :=
  | ReportError (error : string)
  | Report (emails phones skills keywords : list string) (full_text_preview : string).

Section Analysis.

Variable word_tokenize : string -> list string.

Definition analyze_resume_text (resume_text : string) : result report :=
  if String.eqb resume_text "" then Ok (ReportError "Could not extract text from resume.")
  else
    let emails := extract_emails resume_text in
    let phones := extract_phones resume_text in
    let skills := extract_skills resume_text PREDEFINED_SKILLS in
    match extract_keywords word_tokenize resume_text 15 with
    | Raise e => Raise e
    | Ok keywords =>
        Ok (Report emails phones skills keywords (take 500 resume_text +:+ "..."))
    end.

End Analysis.

End Testing.

(** ** Vocabulary of the specification *)

Module Spec.
Import PyStr PyVal Main.

(** *** StructuredExtractor *)

Definition field_names : list string :=
  ["job_title"; "company_name"; "job_description"; "required_skills"; "emails"].

Definition text_fields : list string :=
  ["job_title"; "company_name"; "job_description"].

Definition list_fields : list string := ["required_skills"; "emails"].

Definition is_object (v : pyval) : bool :=
  match v with
  | PDict _ => true
  | _ => false
  end.

(** An entry that [dict.update] reads as a key and a value. *)
Definition is_pair (e : pyval) : bool :=
  match as_pair e with
  | Ok _ => true
  | Raise _ => false
  end.

(** A non-empty array made of such entries only. *)
Definition pairs_array (v : pyval) : bool :=
  match v with
  | PList (e :: rest) => forallb is_pair (e :: rest)
  | _ => false
  end.

(** The value a decoded object gives a key: the last one, as [json.loads]
    keeps it. *)
Fixpoint object_get (k : string) (items : list (string * pyval)) : option pyval :=
  match items with
  | [] => None
  | (k', v) :: rest =>
      match object_get k rest with
      | Some v' => Some v'
      | None => if String.eqb k' k then Some v else None
      end
  end.

(** The ways extraction fails: the call raises, decoding raises, or the
    decoded value is neither an object nor an array of pairs. *)
Inductive extraction_fails
    (generate_content : string -> option string)
    (json_loads : string -> option pyval) (text_content : string) : Prop :=
  | extractor_raises :
      generate_content (build_prompt (truncate_content text_content)) = None ->
      extraction_fails generate_content json_loads text_content
  | malformed_json (text : string) :
      generate_content (build_prompt (truncate_content text_content)) = Some text ->
      json_loads (json_source (strip text)) = None ->
      extraction_fails generate_content json_loads text_content
  | non_object (text : string) (v : pyval) :
      generate_content (build_prompt (truncate_content text_content)) = Some text ->
      json_loads (json_source (strip text)) = Some v ->
      is_object v = false ->
      pairs_array v = false ->
      extraction_fails generate_content json_loads text_content.

(** Sample responses, and [json.loads] on them. *)
Definition dquote : string := String (ascii_of_nat 34) EmptyString.

Definition quoted (s : string) : string := dquote +:+ s +:+ dquote.

(** The text [[["job_title", "X"]]]. *)
Definition pairs_response : string :=
  "[[" +:+ quoted "job_title" +:+ ", " +:+ quoted "X" +:+ "]]".

(** The text [{"job_title": null, "salary": 5}]. *)
Definition null_title_response : string :=
  "{" +:+ quoted "job_title" +:+ ": null, " +:+ quoted "salary" +:+ ": 5}".

(** The text [{"job_title": "Data Engineer", "required_skills": "SQL"}]. *)
Definition object_response : string :=
  "{" +:+ quoted "job_title" +:+ ": " +:+ quoted "Data Engineer" +:+ ", "
  +:+ quoted "required_skills" +:+ ": " +:+ quoted "SQL" +:+ "}".

Definition sample_json_loads (s : string) : option pyval :=
  if String.eqb s pairs_response
  then Some (PList [PList [PStr "job_title"; PStr "X"]])
  else if String.eqb s null_title_response
  then Some (PDict [("job_title", PNone); ("salary", PInt 5)])
  else if String.eqb s object_response
  then Some (PDict [("job_title", PStr "Data Engineer"); ("required_skills", PStr "SQL")])
  else None.

(** *** TemplateFiller *)

(** The record of the data model, and the dictionary that carries it. *)
Record ExtractedListing : Type := {
  title : string;
  organization : string;
  description : string;
  requiredSkills : list string;
  contactEmails : list string
}.

Definition as_dict (l : ExtractedListing) : listing :=
  {| job_title := Some (title l);
     company_name := Some (organization l);
     job_description := Some (description l);
     required_skills := Some (requiredSkills l);
     emails := Some (contactEmails l) |}.




(** A template seen as text interleaved with placeholder tokens. *)
Inductive token : Type :=
  | SummaryToken
  | SkillsToken.

Definition token_text (t : token) : string :=
  match t with
  | SummaryToken => LATEX_SUMMARY_PLACEHOLDER
  | SkillsToken => LATEX_SKILLS_PLACEHOLDER
  end.

(** What filling puts in the place of a token. *)
Definition substitution (extracted_data : listing) (t : token) : string :=
  match t with
  | SummaryToken => latex_escape (summary_text extracted_data)
  | SkillsToken => skills_latex_items extracted_data
  end.

(** Each token followed by the text up to the next one. *)
Fixpoint render (f : token -> string) (segments : list (token * string)) : string :=
  match segments with
  | [] => EmptyString
  | (t, text) :: rest => f t +:+ text +:+ render f rest
  end.

(** Text that opens no token: the two characters that start both tokens
    do not occur in it. *)
Fixpoint no_opener (s : string) : bool :=
  match s with
  | EmptyString => true
  | String c s' =>
      negb (Ascii.eqb c "%" && match s' with String "<" _ => true | _ => false end)
      && no_opener s'
  end.

(** Text that may follow a token: it neither opens a token nor completes
    one with the closing character of the token before it. *)
Definition plain (s : string) : bool :=
  match s with
  | String "<" _ => false
  | _ => no_opener s
  end.

Definition sample_listing : ExtractedListing :=
  {| title := "Data_Engineer";
     organization := "A&B Analytics";
     description := "We need 100% commitment from all engineers";
     requiredSkills := ["SQL"; "C_1"];
     contactEmails := [] |}.

(** Replacing one character by a string, the effect of [str.replace]
    with a one-character pattern. *)
Fixpoint substitute_char (c : ascii) (new s : string) : string :=
  match s with
  | EmptyString => EmptyString
  | String a s' =>
      if Ascii.eqb a c then new +:+ substitute_char c new s'
      else String a (substitute_char c new s')
  end.

(** Every underscore of [s] comes right after a backslash, [prev] being
    the character in front of [s]. *)
Fixpoint guarded_after (prev : ascii) (s : string) : bool :=
  match s with
  | EmptyString => true
  | String c s' =>
      negb (Ascii.eqb c "_" && negb (Ascii.eqb prev "\")) && guarded_after c s'
  end.

(** Replacing the first occurrence only, [s.replace(old, new, 1)] for a
    non-empty [old]: what "each token exactly once" asks for. *)
Fixpoint replace_once (old new s : string) : string :=
  match s with
  | EmptyString => EmptyString
  | String c s' =>
      if startswith s old then new +:+ drop (String.length old) s
      else String c (replace_once old new s')
  end.

Definition filled_once (template_content : string) (extracted_data : listing) : string :=
  replace_once LATEX_SKILLS_PLACEHOLDER (skills_latex_items extracted_data)
    (replace_once LATEX_SUMMARY_PLACEHOLDER
       (latex_escape (summary_text extracted_data)) template_content).

(** *** DocumentCompiler *)

(** The artifact [compile_latex_to_pdf] looks for, and the command it runs. *)
Definition pdf_filepath (tex_filepath : string) : string :=
  path_join (dirname tex_filepath) (replace (basename tex_filepath) ".tex" ".pdf").

Definition pdflatex_command (tex_filepath : string) : list string :=
  ["pdflatex"; "-interaction=nonstopmode"; basename tex_filepath].

(** A world with one LaTeX source, and runs of the compiler in it. *)
Definition sample_world : world :=
  {| files := {[ "/out/resume.tex" := "\documentclass{article}" ]};
     dirs := {[ "/out" ]} |}.

Definition clean_exit : completed_process :=
  {| returncode := 0; stdout := "This is pdfTeX"; stderr := "" |}.

(** The compiler exits with status zero and writes nothing. *)
Definition run_without_output (command : list string) (cwd : string) (w : world)
    : run_outcome :=
  Completed clean_exit w.

(** The compiler exits with status zero and writes the PDF. *)
Definition run_writing_pdf (command : list string) (cwd : string) (w : world)
    : run_outcome :=
  Completed clean_exit
    {| files := <[ "/out/resume.pdf" := "%PDF-1.5" ]> (files w); dirs := dirs w |}.

(** The compiler binary is absent. *)
Definition run_missing_binary (command : list string) (cwd : string) (w : world)
    : run_outcome :=
  RunRaises FileNotFoundError.

(** An operating system that refuses nothing. *)
Definition no_faults : os_faults :=
  {| read_fails := fun _ => false;
     makedirs_fails := fun _ => false;
     open_for_write_fails := fun _ => false;
     write_fails := fun _ => false |}.

(** *** SkillAndKeywordExtractor and SimilarityScorer *)

(** A tokenizer that splits at spaces, for texts of plain words. *)
Fixpoint split_at_spaces (word s : string) : list string :=
  match s with
  | EmptyString => match word with EmptyString => [] | _ => [word] end
  | String c s' =>
      if Ascii.eqb c " "
      then match word with
           | EmptyString => split_at_spaces EmptyString s'
           | _ => word :: split_at_spaces EmptyString s'
           end
      else split_at_spaces (word +:+ String c EmptyString) s'
  end.

Definition words (s : string) : list string := split_at_spaces EmptyString s.

(** A vectorizer that finds no term in any document. *)
Definition empty_vocabulary (corpus : list string) : result unit :=
  Raise ValueError.

(** A case-insensitive whole-word occurrence of [entry] in [text]: a
    stretch of the text that spells the entry up to case, with no word
    character right before it and none right after it. *)
Definition whole_word_occurrence (entry text : string) : Prop :=
  exists before matched after,
    text = before +:+ matched +:+ after
    /\ lower matched = lower entry
    /\ Testing.is_word_char (last before) = false
    /\ Testing.is_word_char (head after) = false.

(** An entry whose first and last characters are word characters, so
    that the two [\b] of the pattern sit where the entry starts and ends. *)
Definition word_bounded (entry : string) : bool :=
  Testing.is_word_char (head (lower entry)) && Testing.is_word_char (last (lower entry)).

(** The character in front of a position: the last one of the text gone
    through, or the one before that text. *)
Definition last_or (before : option ascii) (s : string) : option ascii :=
  match last s with
  | Some c => Some c
  | None => before
  end.

(** The tokens keyword extraction counts: alphabetic and not stopped. *)
Definition kept_tokens (stopped tokens : list string) : list string :=
  List.filter (fun word => isalpha word && negb (existsb (String.eqb word) stopped)) tokens.

(** How often a word occurs. *)
Fixpoint occurrences (word : string) (tokens : list string) : nat :=
  match tokens with
  | [] => 0
  | t :: rest => (if String.eqb t word then 1 else 0) + occurrences word rest
  end.

(** The distinct words, in the order in which they are first met. *)
Fixpoint first_occurrences (tokens : list string) : list string :=
  match tokens with
  | [] => []
  | t :: rest => t :: List.filter (fun w => negb (String.eqb t w)) (first_occurrences rest)
  end.

(** The entries of a count table that have a given count. *)
Definition with_count (n : nat) (counts : list (string * nat)) : list (string * nat) :=
  List.filter (fun entry => Nat.eqb (snd entry) n) counts.

(** The count a table gives a word. *)
Definition count_in (counts : list (string * nat)) (word : string) : nat :=
  match List.find (fun entry => String.eqb (fst entry) word) counts with
  | Some entry => snd entry
  | None => 0
  end.

(** The order of a ranking: no later entry has a greater count. *)
Definition count_ge (x y : string * nat) : Prop := snd y <= snd x.

(** *** Vocabulary for the rest of the code *)

(** A character a sanitized file name may hold. *)
Definition filename_safe (c : ascii) : bool :=
  negb (path_unsafe c) && negb (Ascii.eqb c " ").

(** The three characters [latex_escape] protects. *)
Definition latex_special (c : ascii) : bool :=
  Ascii.eqb c "%" || Ascii.eqb c "&" || Ascii.eqb c "_".

(** Every occurrence of [c] in [s] comes right after a backslash, [prev]
    being the character in front of [s]. *)
Fixpoint guarded (c prev : ascii) (s : string) : bool :=
  match s with
  | EmptyString => true
  | String a s' =>
      negb (Ascii.eqb a c && negb (Ascii.eqb prev "\")) && guarded c a s'
  end.

(** A character that is no path separator. *)
Definition not_slash (c : ascii) : bool := negb (Ascii.eqb c "/").

(** The marker appended to a truncated text. *)
Definition truncation_marker : string := newline +:+ "... [Content Truncated]".

(** The files [cleanup_latex_aux_files] looks for. *)
Definition aux_paths (directory base_filename_no_ext : string) : list string :=
  map (fun ext => path_join directory (base_filename_no_ext +:+ ext)) extensions_to_remove.

(** An operating system that lets every file be removed. *)
Definition remove_never_fails (path : string) : bool := false.

(** A directory after a compilation, with two byproducts. *)
Definition compiled_world : world :=
  {| files := {[ "/out/resume.tex" := "\documentclass{article}";
                 "/out/resume.pdf" := "%PDF-1.5";
                 "/out/resume.log" := "This is pdfTeX";
                 "/out/resume.aux" := "\relax" ]};
     dirs := {[ "/out" ]} |}.

(** The texts a pattern can match, read off its pieces: one stretch per
    repetition, within its class and its bounds. *)
Fixpoint shape (items : list Testing.item) (m : string) : Prop :=
  match items with
  | [] => m = ""
  | Testing.Boundary :: rest => shape rest m
  | Testing.Rep cls lo hi :: rest =>
      exists u m',
        m = u +:+ m'
        /\ all_chars cls u = true
        /\ lo <= String.length u
        /\ match hi with Some h => String.length u <= h | None => True end
        /\ shape rest m'
  end.

(** [m] occurs in [text]. *)
Definition occurs_in (m text : string) : Prop :=
  exists before after, text = before +:+ m +:+ after.

(** The number of characters of a class in a string. *)
Fixpoint count_chars (cls : ascii -> bool) (s : string) : nat :=
  match s with
  | EmptyString => 0
  | String c s' => (if cls c then 1 else 0) + count_chars cls s'
  end.

(** A character an extension may hold after its dot. *)
Definition extension_char (c : ascii) : bool :=
  negb (Ascii.eqb c ".") && negb (Ascii.eqb c "/").

(** A reader of PDFs that finds one page in every file. *)
Definition one_page_pdf (w : world) (path : string) : option (list Testing.page) :=
  Some [Testing.PageText (Some "Jane Smith")].

(** A world with a resume in plain text. *)
Definition resume_world : world :=
  {| files := {[ "cv/Resume.TXT" := "Skills: Python, SQL" ]}; dirs := {[ "cv" ]} |}.

(** A character that is no backquote. *)
Definition not_backquote (c : ascii) : bool := negb (Ascii.eqb c "`").

(** The pages of a PDF whose texts are all there. *)
Definition text_pages (texts : list string) : list Testing.page :=
  map (fun text => Testing.PageText (Some text)) texts.

(** Each text followed by a line break. *)
Fixpoint lines_of (texts : list string) : string :=
  match texts with
  | [] => EmptyString
  | text :: rest => text +:+ newline +:+ lines_of rest
  end.

(** *** The pipeline *)


(** A compiler that leaves a path as it finds it. *)
Definition leaves_alone
    (subprocess_run : list string -> string -> world -> run_outcome) (path : string) : Prop :=
  forall command cwd w result after,
    subprocess_run command cwd w = Completed result after ->
    files after !! path = files w !! path.

(** A job posting served as HTML, and a download that is none. *)
Definition html_response : response :=
  {| status_raises := false;
     content_type := Some "text/HTML; charset=utf-8";
     text := "<html><body><main>Data Engineer wanted</main></body></html>" |}.

Definition pdf_response : response :=
  {| status_raises := false;
     content_type := Some "application/pdf";
     text := "%PDF-1.5" |}.

Definition fetch (r : response) (url : string) : option response := Some r.

Definition parse (html : string) : option string := Some html.

Definition visible_text (page : string) : string := "Data Engineer wanted".

(** Formatting a template that holds no brace. *)
Definition format_plain (template : string) (fields : list (string * string))
    : option string :=
  Some template.

(** An installation with its email template, and without the resume
    template. *)
Definition app_world : world :=
  {| files := {[ "/app/templates/email/cold_email_template.txt"
                 := "My attached resume provides details." ]};
     dirs := {[ "/app"; "/app/templates"; "/app/templates/email" ]} |}.

(** An extractor that gives the same answer to every prompt. *)
Definition respond (answer : string) (prompt : string) : option string := Some answer.

Definition sample_timestamp : string := "20250101_120000".

(** The record of [object_response] once the defaults are overlaid. *)
Definition engineer_listing : listing :=
  {| job_title := Some "Data Engineer";
     company_name := Some "Unknown Company (Gemini)";
     job_description := Some "Could not extract Job Description via Gemini.";
     required_skills := Some [];
     emails := Some [] |}.

(** *** The artifact of a compilation *)

(** The PDF the compiler writes for a source: in the directory of the
    source, under the name of the source with its last extension replaced
    by [.pdf]. *)
Definition artifact (tex_filepath : string) : string :=
  path_join (dirname tex_filepath)
    (fst (Testing.splitext (basename tex_filepath)) +:+ ".pdf").

(** A compiler that exits with status zero and writes the artifact of the
    file it is given, the last word of the command, in its working
    directory. *)
Definition run_writing_artifact (command : list string) (cwd : string) (w : world)
    : run_outcome :=
  Completed clean_exit
    {| files := <[ path_join cwd (fst (Testing.splitext (List.last command "")) +:+ ".pdf")
                   := "%PDF-1.5" ]> (files w);
       dirs := dirs w |}.



Definition dotted_world : world :=
  {| files := {[ "/out/Vertex.tex_Labs_Engineer.tex" := "\documentclass{article}" ]};
     dirs := {[ "/out" ]} |}.

(** An entry whose first character has its capital within the range:
    any but the micro sign, the sharp s and the y with diaeresis. *)
Definition capital_in_range (skill : string) : bool :=
  match skill with
  | EmptyString => true
  | String c _ => negb (is_code 181 c || is_code 223 c || is_code 255 c)
  end.

End Spec.

(** ** Properties of main.py *)

Import PyStr PyVal Main Spec.

#[local] Arguments String.append : simpl nomatch.

(** *** Dictionaries *)

Lemma key_eqb_str_r (k : pyval) (s : string) :
  key_eqb k (PStr s) = true <-> k = PStr s.
Proof.
  destruct k; simpl; try (split; [discriminate | intros [=]]).
  rewrite String.eqb_eq. split; [intros -> | intros [= ->]]; reflexivity.
Qed.

Lemma key_eqb_str_l (k : pyval) (s : string) :
  key_eqb (PStr s) k = true <-> k = PStr s.
Proof.
  destruct k; simpl; try (split; [discriminate | intros [=]]).
  rewrite String.eqb_eq. split; [intros -> | intros [= ->]]; reflexivity.
Qed.

Lemma dict_get_set (s : string) (k v : pyval) (d : pydict) :
  dict_get (PStr s) (dict_set k v d)
  = if key_eqb k (PStr s) then Some v else dict_get (PStr s) d.
Proof.
  induction d as [|[k' v'] d IH]; simpl.
  - destruct (key_eqb k (PStr s)); reflexivity.
  - destruct (key_eqb k' k) eqn:Hk'k; simpl.
    + destruct (key_eqb k' (PStr s)) eqn:Hk's.
      * apply key_eqb_str_r in Hk's. subst k'.
        apply key_eqb_str_l in Hk'k. subst k.
        simpl. rewrite String.eqb_refl. reflexivity.
      * destruct (key_eqb k (PStr s)) eqn:Hks; [|reflexivity].
        apply key_eqb_str_r in Hks. subst k.
        apply key_eqb_str_r in Hk'k. subst k'.
        simpl in Hk's. rewrite String.eqb_refl in Hk's. discriminate.
    + destruct (key_eqb k' (PStr s)) eqn:Hk's.
      * apply key_eqb_str_r in Hk's. subst k'.
        destruct (key_eqb k (PStr s)) eqn:Hks; [|reflexivity].
        apply key_eqb_str_r in Hks. subst k.
        simpl in Hk'k. rewrite String.eqb_refl in Hk'k. discriminate.
      * exact IH.
Qed.

Lemma dict_get_set_str (s k : string) (v : pyval) (d : pydict) :
  dict_get (PStr s) (dict_set (PStr k) v d)
  = if String.eqb k s then Some v else dict_get (PStr s) d.
Proof. apply dict_get_set. Qed.

Lemma dict_set_keeps (s : string) (k v : pyval) (d : pydict) :
  is_Some (dict_get (PStr s) d) -> is_Some (dict_get (PStr s) (dict_set k v d)).
Proof.
  intros H. rewrite dict_get_set. destruct (key_eqb k (PStr s)); eauto.
Qed.

Lemma update_from_object_get (k : string) (items : list (string * pyval)) (d : pydict) :
  dict_get (PStr k) (update_from_object d items)
  = match object_get k items with
    | Some v => Some v
    | None => dict_get (PStr k) d
    end.
Proof.
  unfold update_from_object. revert d.
  induction items as [|[k' v'] items IH]; intros d; simpl; [reflexivity|].
  rewrite IH, dict_get_set_str.
  destruct (object_get k items); [reflexivity|].
  destruct (String.eqb k' k); reflexivity.
Qed.

Lemma update_from_object_keeps (s : string) (items : list (string * pyval)) (d : pydict) :
  is_Some (dict_get (PStr s) d) ->
  is_Some (dict_get (PStr s) (update_from_object d items)).
Proof.
  intros H. rewrite update_from_object_get. destruct (object_get s items); eauto.
Qed.

Lemma update_from_pairs_keeps (s : string) (elems : list pyval) (d d' : pydict) :
  update_from_pairs d elems = Ok d' ->
  is_Some (dict_get (PStr s) d) -> is_Some (dict_get (PStr s) d').
Proof.
  revert d. induction elems as [|e elems IH]; intros d; simpl.
  - intros [= ->]. auto.
  - destruct (as_pair e) as [[k v]|]; [|discriminate].
    intros Hupd Hd. eapply IH; [exact Hupd|]. apply dict_set_keeps, Hd.
Qed.

Lemma dict_update_keeps (s : string) (v : pyval) (d d' : pydict) :
  dict_update d v = Ok d' ->
  is_Some (dict_get (PStr s) d) -> is_Some (dict_get (PStr s) d').
Proof.
  destruct v as [| | | |t|elems|items]; simpl; try discriminate.
  - destruct t; [intros [= ->]; auto | discriminate].
  - apply update_from_pairs_keeps.
  - intros [= <-]. apply update_from_object_keeps.
Qed.

Lemma update_from_pairs_raises (elems : list pyval) (d : pydict) :
  forallb is_pair elems = false -> exists e, update_from_pairs d elems = Raise e.
Proof.
  revert d. induction elems as [|e elems IH]; intros d; simpl; [discriminate|].
  unfold is_pair at 1. destruct (as_pair e) as [[k v]|err]; simpl.
  - apply IH.
  - eauto.
Qed.

Lemma dict_update_raises (v : pyval) (d : pydict) :
  is_object v = false -> pairs_array v = false ->
  dict_update d v = Ok d \/ exists e, dict_update d v = Raise e.
Proof.
  destruct v as [| | | |t|elems|items]; simpl; try (right; eauto; fail).
  - destruct t; [left; reflexivity | right; eauto].
  - intros _ H. destruct elems as [|e elems]; [left; reflexivity|].
    right. apply update_from_pairs_raises. exact H.
  - discriminate.
Qed.

Lemma reset_unless_list_get (key s : string) (d : pydict) :
  dict_get (PStr s) (reset_unless_list key d)
  = if String.eqb key s
    then match dict_get (PStr s) d with
         | Some (PList l) => Some (PList l)
         | _ => Some (PList [])
         end
    else dict_get (PStr s) d.
Proof.
  unfold reset_unless_list.
  destruct (String.eqb key s) eqn:Hks.
  - apply String.eqb_eq in Hks. subst s.
    destruct (dict_get (PStr key) d) as [[]|] eqn:Hget; simpl;
      rewrite ?dict_get_set_str, ?String.eqb_refl, ?Hget; reflexivity.
  - destruct (isinstance_list _); [reflexivity|].
    rewrite dict_get_set_str, Hks. reflexivity.
Qed.

(** *** StructuredExtractor *)

Section ExtractorProperties.

Variable generate_content : string -> option string.
Variable json_loads : string -> option pyval.

Let extract := extract_data_with_gemini generate_content json_loads.

Lemma reset_default_data :
  reset_unless_list "emails" (reset_unless_list "required_skills" default_data)
  = default_data.
Proof. reflexivity. Qed.

(** C1 (as amended).  Whenever extraction fails -- the extractor call
    raises, [json.loads] raises, or the decoded value is neither an object
    nor a non-empty array of two-item entries -- the function returns
    exactly the default record.  It is total: nothing is raised to the
    caller. *)
Theorem extract_default_on_failure (text_content url : string) :
  extraction_fails generate_content json_loads text_content ->
  extract text_content url = default_data.
Proof.
  unfold extract, extract_data_with_gemini.
  intros [Hcall | text Hcall Hjson | text v Hcall Hjson Hobj Hpairs];
    rewrite Hcall; [reflexivity|..]; cbv zeta; rewrite Hjson; [reflexivity|].
  destruct (dict_update_raises v default_data Hobj Hpairs) as [-> | [e ->]].
  - apply reset_default_data.
  - reflexivity.
Qed.

Lemma extract_cases (text_content url : string) :
  extract text_content url = default_data
  \/ exists text v d,
       generate_content (build_prompt (truncate_content text_content)) = Some text
       /\ json_loads (json_source (strip text)) = Some v
       /\ dict_update default_data v = Ok d
       /\ extract text_content url
          = reset_unless_list "emails" (reset_unless_list "required_skills" d).
Proof.
  unfold extract, extract_data_with_gemini.
  destruct (generate_content _) as [text|] eqn:Hcall; [|left; reflexivity].
  cbv zeta.
  destruct (json_loads _) as [v|] eqn:Hjson; [|left; reflexivity].
  destruct (dict_update default_data v) as [d|e] eqn:Hupd; [|left; reflexivity].
  right. exists text, v, d. auto.
Qed.

Lemma default_data_has (k : string) :
  In k field_names -> is_Some (dict_get (PStr k) default_data).
Proof.
  simpl. intros [<-|[<-|[<-|[<-|[<-|[]]]]]]; simpl; eauto.
Qed.

(** C2 (as amended).  For every extractor response the returned record
    holds all five fields, and [required_skills] and [emails] are lists.
    When the response decodes to an object, each of the three text fields
    holds the decoded value of its key, whatever it is ([null] included),
    or the default if the key is missing; each of the two list fields
    holds the decoded value if it is an array and the empty list
    otherwise.  Other keys of the object stay in the record. *)
Theorem extract_record_shape (text_content url : string) :
  let record := extract text_content url in
  (forall k, In k field_names -> is_Some (dict_get (PStr k) record))
  /\ (forall k, In k list_fields -> exists l, dict_get (PStr k) record = Some (PList l))
  /\ (forall text items,
        generate_content (build_prompt (truncate_content text_content)) = Some text ->
        json_loads (json_source (strip text)) = Some (PDict items) ->
        (forall k, In k text_fields ->
           dict_get (PStr k) record
           = match object_get k items with
             | Some v => Some v
             | None => dict_get (PStr k) default_data
             end)
        /\ (forall k, In k list_fields ->
              dict_get (PStr k) record
              = match object_get k items with
                | Some (PList l) => Some (PList l)
                | _ => Some (PList [])
                end)
        /\ (forall k v, ~ In k field_names -> object_get k items = Some v ->
              dict_get (PStr k) record = Some v)).
Proof.
  cbv zeta. split; [|split].
  - intros k Hk.
    destruct (extract_cases text_content url) as [-> | (text & v & d & _ & _ & Hupd & ->)].
    + apply default_data_has, Hk.
    + pose proof (dict_update_keeps k v _ _ Hupd (default_data_has k Hk)) as [x Hx].
      rewrite !reset_unless_list_get, Hx.
      destruct (String.eqb "emails" k), (String.eqb "required_skills" k);
        try destruct x; eauto.
  - intros k Hk.
    destruct (extract_cases text_content url) as [-> | (text & v & d & _ & _ & Hupd & ->)].
    + simpl in Hk. destruct Hk as [<-|[<-|[]]]; simpl; eauto.
    + rewrite !reset_unless_list_get.
      simpl in Hk. destruct Hk as [<-|[<-|[]]]; simpl.
      * destruct (dict_get (PStr "required_skills") d) as [[]|]; eauto.
      * destruct (dict_get (PStr "emails") d) as [[]|]; eauto.
  - intros text items Hcall Hjson.
    unfold extract, extract_data_with_gemini. rewrite Hcall. cbv zeta.
    rewrite Hjson. simpl dict_update. cbv iota beta.
    split; [|split].
    + intros k Hk. rewrite !reset_unless_list_get, update_from_object_get.
      simpl in Hk. destruct Hk as [<-|[<-|[<-|[]]]]; reflexivity.
    + intros k Hk. rewrite !reset_unless_list_get, update_from_object_get.
      simpl in Hk. destruct Hk as [<-|[<-|[]]]; simpl;
        destruct (object_get _ items) as [[]|]; reflexivity.
    + intros k v Hk Hget.
      rewrite !reset_unless_list_get, update_from_object_get, Hget.
      assert (String.eqb "emails" k = false) as ->.
      { apply String.eqb_neq. intros <-. apply Hk. simpl. auto 10. }
      assert (String.eqb "required_skills" k = false) as ->.
      { apply String.eqb_neq. intros <-. apply Hk. simpl. auto 10. }
      reflexivity.
Qed.

End ExtractorProperties.

(** C1, falsified as stated: the response [[["job_title", "X"]]] decodes to
    a value that is not an object, yet it is overlaid on the defaults and
    the record returned is not the default one. *)
Lemma extract_pairs_array_not_default :
  let record :=
    extract_data_with_gemini (fun _ => Some pairs_response) sample_json_loads
      "Senior engineer wanted" "https://example.org/job" in
  sample_json_loads (json_source (strip pairs_response))
  = Some (PList [PList [PStr "job_title"; PStr "X"]])
  /\ is_object (PList [PList [PStr "job_title"; PStr "X"]]) = false
  /\ dict_get (PStr "job_title") record = Some (PStr "X")
  /\ record <> default_data.
Proof.
  cbv zeta. repeat split; try (vm_compute; reflexivity).
  vm_compute. discriminate.
Qed.

(** A response that is no JSON at all: the default record comes back. *)
Lemma extract_default_on_failure_witness :
  extract_data_with_gemini (fun _ => Some "not json at all") sample_json_loads
    "Senior engineer wanted" "https://example.org/job"
  = default_data.
Proof.
  apply (extract_default_on_failure (fun _ => Some "not json at all") sample_json_loads).
  apply malformed_json with (text := "not json at all"); reflexivity.
Defined.

(** C2, falsified as stated: for the response
    [{"job_title": null, "salary": 5}] the title of the record is null and
    the record has a sixth key. *)
Lemma extract_null_title_extra_key :
  let record :=
    extract_data_with_gemini (fun _ => Some null_title_response) sample_json_loads
      "Senior engineer wanted" "https://example.org/job" in
  dict_get (PStr "job_title") record = Some PNone
  /\ dict_get (PStr "salary") record = Some (PInt 5)
  /\ List.length record = 6.
Proof. cbv zeta. repeat split; vm_compute; reflexivity. Qed.

(** The shape of the record on a response whose [required_skills] is a
    string: the title is the decoded one, the skills are reset. *)
Example extract_object_response :
  extract_data_with_gemini (fun _ => Some object_response) sample_json_loads
    "Senior engineer wanted" "https://example.org/job"
  = [ (PStr "job_title", PStr "Data Engineer");
      (PStr "company_name", PStr "Unknown Company (Gemini)");
      (PStr "job_description", PStr "Could not extract Job Description via Gemini.");
      (PStr "required_skills", PList []);
      (PStr "emails", PList []) ].
Proof. vm_compute. reflexivity. Qed.

(** *** Strings *)

Lemma startswith_app (p t : string) : startswith (p +:+ t) p = true.
Proof.
  unfold startswith. induction p as [|c p IH]; simpl.
  - destruct t; reflexivity.
  - destruct (ascii_dec c c); [exact IH | congruence].
Qed.

Lemma startswith_iff (s p : string) :
  startswith s p = true <-> exists rest, s = p +:+ rest.
Proof.
  split.
  - unfold startswith. revert s. induction p as [|c p IH]; intros s; simpl.
    + intros _. exists s. reflexivity.
    + destruct s as [|a s]; simpl; [discriminate|].
      destruct (ascii_dec c a) as [->|]; [|discriminate].
      intros H. destruct (IH s H) as [rest ->]. exists rest. reflexivity.
  - intros [rest ->]. apply startswith_app.
Qed.

Lemma append_assoc (a b c : string) : (a +:+ b) +:+ c = a +:+ (b +:+ c).
Proof. induction a as [|x a IH]; simpl; [reflexivity | f_equal; exact IH]. Qed.

Lemma append_empty_right (a : string) : a +:+ "" = a.
Proof. induction a as [|x a IH]; simpl; [reflexivity | f_equal; exact IH]. Qed.

Lemma append_cons (c : ascii) (a b : string) :
  String c a +:+ b = String c (a +:+ b).
Proof. reflexivity. Qed.

(** *** TemplateFiller: the summary *)



(** The two branches on concrete listings. *)
Example summary_generic_on_short_description :
  summary_text (as_dict {| title := "Data Engineer"; organization := "Acme";
                           description := "Could not extract, or so long";
                           requiredSkills := []; contactEmails := [] |})
  = "Highly motivated professional seeking the Data Engineer position at Acme.".
Proof. reflexivity. Qed.

Example summary_quotes_long_description :
  summary_text (as_dict sample_listing)
  = "Summary based on job description: We need 100% commitment from all engineers My background aligns with the requirements of the Data_Engineer position.".
Proof. reflexivity. Qed.

(** *** Replacement *)

Lemma head_append (a b : string) :
  head (a +:+ b) = match head a with Some c => Some c | None => head b end.
Proof. destruct a; reflexivity. Qed.

Lemma last_append_char (a : string) (c : ascii) :
  last (a +:+ String c "") = Some c.
Proof.
  induction a as [|x a IH]; [reflexivity|].
  simpl. destruct (a +:+ String c "") eqn:E; [|exact IH].
  destruct a; discriminate.
Qed.

Lemma replace_nonempty (s new : string) (c : ascii) (old : string) :
  replace s (String c old) new = replace_from (String c old) new 0 s.
Proof. reflexivity. Qed.

Lemma replace_from_cons (old new : string) (c : ascii) (s : string) :
  replace_from old new 0 (String c s)
  = if startswith (String c s) old
    then new +:+ replace_from old new (String.length old - 1) s
    else String c (replace_from old new 0 s).
Proof. reflexivity. Qed.

Lemma replace_from_jump (old new u t : string) :
  replace_from old new (String.length u) (u +:+ t) = replace_from old new 0 t.
Proof. induction u as [|c u IH]; simpl; [reflexivity | exact IH]. Qed.

(** At a match the replacement is emitted and the scan resumes after it. *)
Lemma replace_from_match (c : ascii) (old new t : string) :
  replace_from (String c old) new 0 (String c old +:+ t)
  = new +:+ replace_from (String c old) new 0 t.
Proof.
  rewrite append_cons, replace_from_cons, <- append_cons, startswith_app.
  replace (String.length (String c old) - 1) with (String.length old)
    by (simpl; lia).
  rewrite replace_from_jump. reflexivity.
Qed.

Lemma startswith_cons (a b : ascii) (s p : string) :
  startswith (String b s) (String a p) = Ascii.eqb a b && startswith s p.
Proof.
  unfold startswith. cbn [String.prefix].
  destruct (ascii_dec a b) as [->|Hab].
  - rewrite Ascii.eqb_refl. reflexivity.
  - apply Ascii.eqb_neq in Hab. rewrite Hab. reflexivity.
Qed.

Lemma startswith_opener (c : ascii) (rest old : string) :
  startswith (String c rest) (String "%" (String "<" old)) = true ->
  c = "%"%char /\ head rest = Some "<"%char.
Proof.
  rewrite startswith_cons. intros H. apply andb_true_iff in H as [Hc H].
  apply Ascii.eqb_eq in Hc. subst c.
  destruct rest as [|a rest]; [discriminate|].
  rewrite startswith_cons in H. apply andb_true_iff in H as [Ha _].
  apply Ascii.eqb_eq in Ha. subst a. auto.
Qed.

Lemma no_opener_tail (c : ascii) (s : string) :
  no_opener (String c s) = true -> no_opener s = true.
Proof. simpl. intros H. apply andb_true_iff in H. tauto. Qed.

(** Text that opens no token is copied, when what follows does not start
    with the second character of the tokens. *)
Lemma replace_from_plain (old new u t : string) :
  no_opener u = true -> head t <> Some "<"%char ->
  replace_from (String "%" (String "<" old)) new 0 (u +:+ t)
  = u +:+ replace_from (String "%" (String "<" old)) new 0 t.
Proof.
  intros Hu Ht. induction u as [|c u IH]; [reflexivity|].
  rewrite append_cons, replace_from_cons.
  destruct (startswith (String c (u +:+ t)) _) eqn:Hs.
  - exfalso. apply startswith_opener in Hs as [-> Hhead].
    rewrite head_append in Hhead.
    destruct u as [|a u]; simpl in Hhead; [contradiction|].
    injection Hhead as ->. discriminate Hu.
  - rewrite append_cons. f_equal. apply IH. eapply no_opener_tail, Hu.
Qed.

Lemma plain_no_opener (s : string) : plain s = true -> no_opener s = true.
Proof.
  destruct s as [|c s]; [reflexivity|]. unfold plain.
  destruct (Ascii.eqb_spec c "<") as [->|Hc]; [discriminate|].
  destruct c as [[] [] [] [] [] [] [] []]; try exact (fun H => H); contradiction.
Qed.

Lemma plain_head (s : string) : plain s = true -> head s <> Some "<"%char.
Proof.
  destruct s as [|c s]; [discriminate|]. unfold plain. simpl.
  intros H [= ->]. discriminate.
Qed.

(** *** Escaping *)

Lemma substitute_char_replace (c : ascii) (new s : string) :
  replace s (String c "") new = substitute_char c new s.
Proof.
  rewrite replace_nonempty. induction s as [|a s IH]; [reflexivity|].
  rewrite replace_from_cons. cbn [substitute_char]. rewrite startswith_cons.
  assert (startswith s "" = true) as -> by (destruct s; reflexivity).
  rewrite andb_true_r, Ascii.eqb_sym.
  change (String.length (String c "") - 1) with 0.
  rewrite IH. reflexivity.
Qed.

Lemma latex_escape_chars (s : string) :
  latex_escape s
  = substitute_char "_" "\_" (substitute_char "&" "\&" (substitute_char "%" "\%" s)).
Proof. unfold latex_escape. rewrite !substitute_char_replace. reflexivity. Qed.

Lemma substitute_char_app (c : ascii) (new x y : string) :
  substitute_char c new (x +:+ y)
  = substitute_char c new x +:+ substitute_char c new y.
Proof.
  induction x as [|a x IH]; [reflexivity|]. simpl.
  destruct (Ascii.eqb a c); rewrite IH; [rewrite append_assoc|]; reflexivity.
Qed.

Lemma latex_escape_app (x y : string) :
  latex_escape (x +:+ y) = latex_escape x +:+ latex_escape y.
Proof. rewrite !latex_escape_chars, !substitute_char_app. reflexivity. Qed.

Lemma guarded_substitute (prev : ascii) (s : string) :
  guarded_after prev (substitute_char "_" "\_" s) = true.
Proof.
  revert prev. induction s as [|a s IH]; intros prev; [reflexivity|].
  cbn [substitute_char]. destruct (Ascii.eqb a "_") eqn:Ha.
  - change ("\_" +:+ ?r) with (String "\" (String "_" r)).
    cbn [guarded_after]. rewrite IH. reflexivity.
  - cbn [guarded_after]. rewrite Ha, IH. reflexivity.
Qed.

Lemma guarded_latex_escape (prev : ascii) (s : string) :
  guarded_after prev (latex_escape s) = true.
Proof. rewrite latex_escape_chars. apply guarded_substitute. Qed.

(** Both sentences start with a capital letter and end with a full stop. *)
Lemma summary_text_shape (extracted_data : listing) :
  exists c x, summary_text extracted_data = String c x +:+ "."
              /\ (c = "H"%char \/ c = "S"%char).
Proof.
  unfold summary_text. cbv zeta.
  destruct (_ || _ || _).
  - eexists "H"%char, _. split; [|left; reflexivity].
    rewrite <- !append_assoc. reflexivity.
  - eexists "S"%char, _. split; [|right; reflexivity].
    change " position." with (" position" +:+ ".").
    rewrite <- !append_assoc. reflexivity.
Qed.

Lemma escaped_summary_shape (extracted_data : listing) :
  exists c x, latex_escape (summary_text extracted_data) = String c x
              /\ c <> "<"%char
              /\ last (String c x) = Some "."%char.
Proof.
  destruct (summary_text_shape extracted_data) as (c & x & -> & Hc).
  rewrite latex_escape_app.
  change (latex_escape ".") with ".".
  exists c, (latex_escape x +:+ ".").
  split; [|split].
  - destruct Hc as [-> | ->]; rewrite !latex_escape_chars; reflexivity.
  - destruct Hc as [-> | ->]; discriminate.
  - change (String c (latex_escape x +:+ ".")) with (String c (latex_escape x) +:+ ".").
    apply last_append_char.
Qed.

(** *** TemplateFiller: the two substitutions *)

Ltac next_char w Hs Hg Hl :=
  destruct w as [|? w];
  [ discriminate Hl
  | change (String ?a w +:+ ?t) with (String a (w +:+ t)) in Hs;
    rewrite startswith_cons in Hs;
    apply andb_true_iff in Hs as [?Hc Hs];
    apply Ascii.eqb_eq in Hc; subst;
    cbn [last] in Hl;
    cbn [guarded_after Ascii.eqb Bool.eqb andb negb] in Hg ].

(** The skills token has an underscore after a letter and no full stop:
    it cannot start inside an escaped text that ends with a full stop. *)
Lemma skills_token_absent (prev : ascii) (w t : string) :
  guarded_after prev w = true -> last w = Some "."%char ->
  startswith (w +:+ t) LATEX_SKILLS_PLACEHOLDER = false.
Proof.
  intros Hg Hl.
  destruct (startswith (w +:+ t) LATEX_SKILLS_PLACEHOLDER) eqn:Hs; [|reflexivity].
  exfalso. unfold LATEX_SKILLS_PLACEHOLDER in Hs.
  do 9 next_char w Hs Hg Hl.
  discriminate Hg.
Qed.

Lemma replace_from_escaped (new w t : string) (prev : ascii) :
  guarded_after prev w = true -> last w = Some "."%char ->
  replace_from LATEX_SKILLS_PLACEHOLDER new 0 (w +:+ t)
  = w +:+ replace_from LATEX_SKILLS_PLACEHOLDER new 0 t.
Proof.
  revert prev. induction w as [|c w IH]; intros prev Hg Hl; [discriminate|].
  pose proof (skills_token_absent prev (String c w) t Hg Hl) as Habsent.
  rewrite append_cons in Habsent.
  rewrite !append_cons, replace_from_cons, Habsent. f_equal.
  destruct w as [|a w]; [reflexivity|].
  apply (IH c).
  - cbn [guarded_after] in Hg. apply andb_true_iff in Hg. tauto.
  - exact Hl.
Qed.

(** Scanning for the summary token copies the skills token, when what
    follows does not complete a summary token with its last character. *)
Lemma skills_token_is_no_summary_token (t : string) :
  startswith (LATEX_SKILLS_PLACEHOLDER +:+ t) LATEX_SUMMARY_PLACEHOLDER = false.
Proof.
  unfold LATEX_SKILLS_PLACEHOLDER, LATEX_SUMMARY_PLACEHOLDER.
  rewrite !append_cons, !startswith_cons. reflexivity.
Qed.

Lemma replace_from_skills_token (new t : string) :
  head t <> Some "<"%char ->
  replace_from LATEX_SUMMARY_PLACEHOLDER new 0 (LATEX_SKILLS_PLACEHOLDER +:+ t)
  = LATEX_SKILLS_PLACEHOLDER +:+ replace_from LATEX_SUMMARY_PLACEHOLDER new 0 t.
Proof.
  intros Ht.
  pose proof (skills_token_is_no_summary_token t) as Hno.
  unfold LATEX_SKILLS_PLACEHOLDER in *.
  rewrite (append_cons "%" "<SKILLS_LIST_PLACEHOLDER>%") in *.
  rewrite replace_from_cons, Hno.
  unfold LATEX_SUMMARY_PLACEHOLDER.
  rewrite replace_from_plain by (reflexivity || exact Ht).
  rewrite append_cons. reflexivity.
Qed.

Section Render.

Variables (old new : string) (f g : token -> string).

Let pattern : string := String "%" (String "<" old).

Hypothesis f_head : forall t, exists c x, f t = String c x /\ c <> "<"%char.

Hypothesis step : forall t x,
  head x <> Some "<"%char ->
  replace_from pattern new 0 (f t +:+ x) = g t +:+ replace_from pattern new 0 x.

Lemma render_head (segments : list (token * string)) :
  head (render f segments) <> Some "<"%char.
Proof.
  destruct segments as [|[t text] rest]; [simpl; intros [=]|].
  cbn [render]. destruct (f_head t) as (c & x & -> & Hc).
  simpl. intros [= ->]. apply Hc. reflexivity.
Qed.

Lemma segment_head (text : string) (rest : list (token * string)) :
  plain text = true -> head (text +:+ render f rest) <> Some "<"%char.
Proof.
  intros Hp. rewrite head_append.
  destruct (head text) eqn:Hh.
  - rewrite <- Hh. apply plain_head, Hp.
  - apply render_head.
Qed.

Lemma replace_render (segments : list (token * string)) :
  Forall (fun segment => plain (snd segment) = true) segments ->
  replace_from pattern new 0 (render f segments) = render g segments.
Proof.
  induction 1 as [|[t text] rest Hp _ IH]; [reflexivity|].
  simpl in Hp. cbn [render].
  rewrite step by (apply segment_head, Hp).
  unfold pattern.
  rewrite replace_from_plain by (auto using plain_no_opener, render_head).
  fold pattern. rewrite IH. reflexivity.
Qed.

End Render.

(** C5 (as amended).  Filling replaces every occurrence of the summary
    token and every occurrence of the skills token, however many there are:
    for a template made of text and tokens, where the text opens no token,
    each token is replaced by its substitution and all the text is copied
    unchanged.  With one token of each kind, each is replaced once. *)
Theorem fill_replaces_every_token
    (extracted_data : listing) (before : string) (segments : list (token * string)) :
  no_opener before = true ->
  Forall (fun segment => plain (snd segment) = true) segments ->
  modified_content (before +:+ render token_text segments) extracted_data
  = before +:+ render (substitution extracted_data) segments.
Proof.
  intros Hb Hs. unfold modified_content. cbv zeta.
  set (mixed := fun t => match t with
                         | SummaryToken => latex_escape (summary_text extracted_data)
                         | SkillsToken => LATEX_SKILLS_PLACEHOLDER
                         end).
  assert (Hfirst :
    replace (before +:+ render token_text segments) LATEX_SUMMARY_PLACEHOLDER
      (latex_escape (summary_text extracted_data))
    = before +:+ render mixed segments).
  { unfold LATEX_SUMMARY_PLACEHOLDER at 1. rewrite replace_nonempty.
    rewrite replace_from_plain; [f_equal | exact Hb |].
    - apply replace_render; [| |exact Hs].
      + intros []; eexists _, _; (split; [reflexivity | discriminate]).
      + intros [] x Hx.
        * apply replace_from_match.
        * apply replace_from_skills_token, Hx.
    - apply render_head.
      intros []; eexists _, _; (split; [reflexivity | discriminate]). }
  rewrite Hfirst.
  assert (Hmixed : forall t, exists c x, mixed t = String c x /\ c <> "<"%char).
  { intros [].
    - destruct (escaped_summary_shape extracted_data) as (c & x & E & Hc & _).
      exists c, x. simpl. auto.
    - eexists _, _. split; [reflexivity | discriminate]. }
  unfold LATEX_SKILLS_PLACEHOLDER at 1. rewrite replace_nonempty.
  rewrite replace_from_plain; [f_equal | exact Hb | apply render_head, Hmixed].
  apply replace_render; [exact Hmixed | | exact Hs].
  intros [] x Hx.
  - destruct (escaped_summary_shape extracted_data) as (c & y & E & _ & Hl).
    simpl. rewrite E.
    apply (replace_from_escaped _ _ _ "."%char); [|exact Hl].
    rewrite <- E. apply guarded_latex_escape.
  - apply replace_from_match.
Qed.

(** One token of each kind, in a template with a comment: each is replaced
    once and the rest is copied. *)
Lemma fill_replaces_every_token_witness :
  modified_content
    ("% resume of A. Srivastava "
     +:+ render token_text [(SummaryToken, " 100% "); (SkillsToken, " \end{document}")])
    (as_dict sample_listing)
  = "% resume of A. Srivastava "
    +:+ render (substitution (as_dict sample_listing))
          [(SummaryToken, " 100% "); (SkillsToken, " \end{document}")].
Proof.
  apply (fill_replaces_every_token (as_dict sample_listing)
           "% resume of A. Srivastava "
           [(SummaryToken, " 100% "); (SkillsToken, " \end{document}")]).
  - reflexivity.
  - repeat constructor.
Defined.

(** C5, falsified as stated: in a template that holds the summary token
    twice both occurrences are replaced, which is not what replacing each
    token exactly once gives; a template without tokens is returned as it
    is. *)
Lemma fill_replaces_both_summary_tokens :
  let extracted_data := as_dict sample_listing in
  let template_content :=
    "A%<SUMMARY_PLACEHOLDER>%B%<SUMMARY_PLACEHOLDER>%C%<SKILLS_LIST_PLACEHOLDER>%D" in
  let summary := latex_escape (summary_text extracted_data) in
  let skills := skills_latex_items extracted_data in
  modified_content template_content extracted_data
  = "A" +:+ summary +:+ "B" +:+ summary +:+ "C" +:+ skills +:+ "D"
  /\ filled_once template_content extracted_data
     = "A" +:+ summary +:+ "B%<SUMMARY_PLACEHOLDER>%C" +:+ skills +:+ "D"
  /\ modified_content template_content extracted_data
     <> filled_once template_content extracted_data
  /\ modified_content "no token here" extracted_data = "no token here".
Proof.
  cbv zeta. repeat split; try (vm_compute; reflexivity).
  vm_compute. discriminate.
Qed.

(** *** TemplateFiller: the summary that is substituted *)






(** *** TemplateFiller: reading and writing *)

(** C10.  If the template cannot be read, [modify_latex_template] returns
    [False] and leaves every file as it was: the output file is neither
    created nor modified.  The function is total, and each step that can
    fail (reading, creating the directory, opening, writing) makes it
    return [False]. *)
Theorem modify_atomic_on_read_failure
    (faults : os_faults) (w : world) (template_path output_path : string)
    (extracted_data : listing) :
  let outcome := modify_latex_template faults w template_path output_path extracted_data in
  (read_text faults w template_path = None -> outcome = (false, w))
  /\ (makedirs faults w (dirname output_path) = None -> outcome = (false, w))
  /\ (open_for_write_fails faults output_path = true ->
        fst outcome = false /\ files (snd outcome) = files w)
  /\ (write_fails faults output_path = true -> fst outcome = false)
  /\ (fst outcome = true ->
        exists template_content,
          read_text faults w template_path = Some template_content
          /\ files (snd outcome) !! output_path
             = Some (modified_content template_content extracted_data)).
Proof.
  cbv zeta. unfold modify_latex_template, write_text.
  destruct (read_text faults w template_path) as [template_content|] eqn:Hread;
    [|repeat split; try discriminate; reflexivity].
  destruct (makedirs faults w (dirname output_path)) as [w'|] eqn:Hdir;
    [|repeat split; try discriminate; reflexivity].
  assert (Hfiles : files w' = files w).
  { unfold makedirs in Hdir.
    repeat match type of Hdir with
           | (if ?b then _ else _) = _ => destruct b; [discriminate|]
           end.
    injection Hdir as <-. reflexivity. }
  destruct (open_for_write_fails faults output_path) eqn:Hopen;
    [|destruct (write_fails faults output_path) eqn:Hwrite];
    simpl; repeat split; try discriminate; try reflexivity; try exact Hfiles.
  intros _. exists template_content. split; [reflexivity|].
  apply lookup_insert_eq.
Qed.

(** A missing template: nothing is written. *)
Lemma modify_atomic_on_read_failure_witness :
  modify_latex_template no_faults sample_world
    "/templates/resume/base_resume.tex" "/out/resume.tex" (as_dict sample_listing)
  = (false, sample_world).
Proof.
  apply (proj1 (modify_atomic_on_read_failure no_faults sample_world
                  "/templates/resume/base_resume.tex" "/out/resume.tex"
                  (as_dict sample_listing))).
  reflexivity.
Defined.

(** *** DocumentCompiler *)

Section CompilerProperties.

Variable subprocess_run : list string -> string -> world -> run_outcome.

(** What the function tests: it succeeds only when the process exits
    with status zero and the path it computes from the source, every
    [.tex] replaced by [.pdf], exists afterwards; a zero exit status
    without that path gives a failed result; and when starting the
    process raises (the binary being absent included) the result is a
    failure, nothing being raised to the caller.  Conversely an existing
    source, a zero exit status and that path give success. *)
Lemma compile_outcome_by_checked_path (w : world) (tex_filepath : string) :
  let outcome := compile_latex_to_pdf subprocess_run w tex_filepath in
  let run := subprocess_run (pdflatex_command tex_filepath) (dirname tex_filepath) w in
  (fst outcome = true ->
     exists result after,
       run = Completed result after
       /\ returncode result = 0%Z
       /\ path_exists after (pdf_filepath tex_filepath) = true)
  /\ (forall result after,
        run = Completed result after ->
        returncode result = 0%Z ->
        path_exists after (pdf_filepath tex_filepath) = false ->
        fst outcome = false)
  /\ (forall e, run = RunRaises e -> outcome = (false, w))
  /\ (forall result after,
        path_exists w tex_filepath = true ->
        run = Completed result after ->
        returncode result = 0%Z ->
        path_exists after (pdf_filepath tex_filepath) = true ->
        outcome = (true, after)).
Proof.
  cbv zeta. unfold compile_latex_to_pdf, pdflatex_command, pdf_filepath.
  destruct (path_exists w tex_filepath); simpl;
    [destruct (subprocess_run _ _ w) as [result after|e] eqn:Hrun;
     [destruct (returncode result =? 0)%Z eqn:Hcode;
      [apply Z.eqb_eq in Hcode; destruct (path_exists after _) eqn:Hpdf
      |apply Z.eqb_neq in Hcode]
     |destruct e]
    |];
    simpl; repeat split; intros; simplify_eq; try congruence; eauto.
Qed.

End CompilerProperties.

(** Scenario 4 of the specification: the compiler exits with status zero
    and leaves no PDF. *)
Example compile_zero_exit_without_artifact :
  compile_latex_to_pdf run_without_output sample_world "/out/resume.tex"
  = (false, sample_world).
Proof. vm_compute. reflexivity. Qed.

Example compile_missing_binary :
  compile_latex_to_pdf run_missing_binary sample_world "/out/resume.tex"
  = (false, sample_world).
Proof. vm_compute. reflexivity. Qed.

Example compile_writing_pdf :
  fst (compile_latex_to_pdf run_writing_pdf sample_world "/out/resume.tex") = true.
Proof. vm_compute. reflexivity. Qed.


(** The same defect the other way round: the compiler exits with status
    zero and writes the artifact, and the result is a failure. *)
Example compile_fails_with_artifact :
  let outcome :=
    compile_latex_to_pdf run_writing_artifact dotted_world
      "/out/Vertex.tex_Labs_Engineer.tex" in
  fst outcome = false
  /\ path_exists (snd outcome) (artifact "/out/Vertex.tex_Labs_Engineer.tex") = true.
Proof. cbv zeta. split; vm_compute; reflexivity. Qed.


(** ** Properties of testing.py *)

Import Testing.

(** *** SimilarityScorer *)

Section SimilarityProperties.

Variable matrix : Type.
Variable fit_transform : list string -> result matrix.
Variable cosine_similarity : matrix -> result float.
Variable round2 : float -> float.

Let score := calculate_similarity matrix fit_transform cosine_similarity round2.

(** C9.  The score is exactly 0.0, and nothing is raised, when either
    text is empty or when the vectorizer reports an empty vocabulary
    (its [ValueError]). *)
Theorem similarity_zero_on_degenerate_input (resume_text jd_text : string) :
  resume_text = "" \/ jd_text = ""
  \/ fit_transform [resume_text; jd_text] = Raise ValueError ->
  score resume_text jd_text = 0%float.
Proof.
  unfold score, calculate_similarity.
  intros [-> | [-> | Hfit]].
  - reflexivity.
  - rewrite orb_true_r. reflexivity.
  - destruct (_ || _); [reflexivity|]. rewrite Hfit. reflexivity.
Qed.

(** Any other exception of the library gives 0.0 as well. *)
Lemma similarity_zero_on_exception (resume_text jd_text : string) (e : exn) :
  fit_transform [resume_text; jd_text] = Raise e ->
  score resume_text jd_text = 0%float.
Proof.
  unfold score, calculate_similarity. intros Hfit.
  destruct (_ || _); [reflexivity|]. rewrite Hfit. destruct e; reflexivity.
Qed.

End SimilarityProperties.

(** Two texts made of stop words only: the vocabulary is empty. *)
Lemma similarity_zero_on_degenerate_input_witness :
  calculate_similarity unit empty_vocabulary (fun _ => Ok 1%float) (fun x => x)
    "the and of" "it is"
  = 0%float.
Proof.
  apply (similarity_zero_on_degenerate_input unit empty_vocabulary
           (fun _ => Ok 1%float) (fun x => x) "the and of" "it is").
  right. right. reflexivity.
Defined.

(** *** SkillAndKeywordExtractor: keywords *)

Lemma filtered_tokens_unbound (tokens : list string) :
  filtered_tokens None tokens
  = if existsb isalpha tokens then Raise NameError else Ok [].
Proof.
  induction tokens as [|word rest IH]; [reflexivity|].
  simpl. destruct (isalpha word); [reflexivity | exact IH].
Qed.

Section KeywordProperties.

Variable word_tokenize : string -> list string.

(** C6, the defect.  The name [stop_words] is bound nowhere in the
    module, so on every non-empty text with at least one alphabetic
    token [extract_keywords] raises [NameError] instead of returning the
    most frequent tokens. *)
Theorem extract_keywords_raises_name_error (text : string) (num_keywords : Z) :
  text <> "" ->
  existsb isalpha (word_tokenize (lower text)) = true ->
  extract_keywords word_tokenize text num_keywords = Raise NameError.
Proof.
  intros Htext Halpha. unfold extract_keywords, extract_keywords_with, stop_words.
  destruct (String.eqb_spec text ""); [contradiction|].
  rewrite filtered_tokens_unbound, Halpha. reflexivity.
Qed.

(** The part of C6 that holds: the empty text gives the empty list, and
    so does a text without alphabetic tokens. *)
Lemma extract_keywords_empty_text (num_keywords : Z) :
  extract_keywords word_tokenize "" num_keywords = Ok [].
Proof. reflexivity. Qed.

Lemma extract_keywords_no_alphabetic_token (text : string) (num_keywords : Z) :
  existsb isalpha (word_tokenize (lower text)) = false ->
  extract_keywords word_tokenize text num_keywords = Ok [].
Proof.
  intros Halpha. unfold extract_keywords, extract_keywords_with, stop_words.
  destruct (String.eqb text ""); [reflexivity|].
  rewrite filtered_tokens_unbound, Halpha.
  unfold most_common. destruct (Z.to_nat num_keywords); reflexivity.
Qed.

End KeywordProperties.

(** The failing input of C6. *)
Lemma extract_keywords_raises_name_error_witness :
  extract_keywords words "Python developer with Python skills" 10 = Raise NameError.
Proof.
  apply (extract_keywords_raises_name_error words
           "Python developer with Python skills" 10).
  - discriminate.
  - reflexivity.
Defined.

(** With a stop list bound, the same text gives the tokens by descending
    count, ties in order of first occurrence. *)
Example extract_keywords_with_stop_list :
  extract_keywords_with words (Some ["with"; "the"])
    "Python developer with Python skills and developer tools" 3
  = Ok ["python"; "developer"; "skills"].
Proof. vm_compute. reflexivity. Qed.

(** *** SkillAndKeywordExtractor: skills *)

(** C7, the defect.  The text "I know C++ and Java" holds a whole-word
    occurrence of the vocabulary entry "c++", yet the result is the single
    skill "Java": the pattern ends with a word boundary, and there is none
    between "+" and a space. *)
Theorem extract_skills_misses_cpp :
  whole_word_occurrence "c++" "I know C++ and Java"
  /\ In "c++" PREDEFINED_SKILLS
  /\ extract_skills "I know C++ and Java" PREDEFINED_SKILLS = ["Java"]
  /\ ~ In (capitalize "c++") (extract_skills "I know C++ and Java" PREDEFINED_SKILLS).
Proof.
  split; [|split; [|split]].
  - exists "I know ", "C++", " and Java". repeat split.
  - simpl. auto.
  - vm_compute. reflexivity.
  - vm_compute. intros [H|[]]. discriminate H.
Qed.

(** The converse failure: "c++11" is matched although the entry is
    followed by a word character. *)
Example extract_skills_matches_cpp11 :
  extract_skills "c++11 toolchains" PREDEFINED_SKILLS = ["C++"].
Proof. vm_compute. reflexivity. Qed.

(** The claim of C7 holds for every entry that starts and ends with a
    word character, which is every entry of the vocabulary but "c++". *)

Lemma isword_lower_char (c : ascii) : isword (lower_char c) = isword c.
Proof. destruct c as [[] [] [] [] [] [] [] []]; vm_compute; reflexivity. Qed.

Lemma lower_app (a b : string) : lower (a +:+ b) = lower a +:+ lower b.
Proof.
  unfold lower. induction a as [|c a IH]; [reflexivity|].
  simpl. rewrite IH. reflexivity.
Qed.

Lemma lower_split (t x y : string) :
  lower t = x +:+ y -> exists X Y, t = X +:+ Y /\ lower X = x /\ lower Y = y.
Proof.
  revert t. induction x as [|c x IH]; intros t H.
  - exists "", t. auto.
  - destruct t as [|a t]; [discriminate|].
    simpl in H. injection H as Hc Ht.
    destruct (IH t Ht) as (X & Y & -> & HX & HY).
    exists (String a X), Y. simpl. subst. auto.
Qed.

Lemma head_lower (s : string) :
  is_word_char (head (lower s)) = is_word_char (head s).
Proof. destruct s as [|c s]; [reflexivity|]. apply isword_lower_char. Qed.

Lemma last_lower (s : string) :
  is_word_char (last (lower s)) = is_word_char (last s).
Proof.
  induction s as [|c s IH]; [reflexivity|].
  destruct s as [|a s]; [apply isword_lower_char | exact IH].
Qed.

Lemma drop_app_length (a b : string) : drop (String.length a) (a +:+ b) = b.
Proof. induction a as [|c a IH]; [destruct b; reflexivity | exact IH]. Qed.

Lemma last_is_some (a : ascii) (s : string) : is_Some (last (String a s)).
Proof.
  revert a. induction s as [|b s IH]; intros a; [eexists; reflexivity|].
  apply (IH b).
Qed.

Lemma last_cons (c : ascii) (s : string) :
  last (String c s) = last_or (Some c) s.
Proof.
  destruct s as [|a s]; [reflexivity|]. unfold last_or.
  change (last (String c (String a s))) with (last (String a s)).
  destruct (last_is_some a s) as [z ->]. reflexivity.
Qed.

Lemma last_or_cons (before : option ascii) (c : ascii) (u : string) :
  last_or before (String c u) = last_or (Some c) u.
Proof.
  unfold last_or at 1. rewrite last_cons.
  unfold last_or. destruct (last u); reflexivity.
Qed.

Section BoundedSearch.

Variable literal : string.
Hypothesis literal_head : is_word_char (head literal) = true.
Hypothesis literal_last : is_word_char (last literal) = true.

Lemma match_bounded_iff (before : option ascii) (s : string) :
  match_bounded literal before s = true
  <-> exists v, s = literal +:+ v
                /\ is_word_char before = false
                /\ is_word_char (head v) = false.
Proof.
  unfold match_bounded, word_boundary.
  pose proof literal_head as Hhd. pose proof literal_last as Hla.
  destruct (head literal) as [a|] eqn:Hh; [|discriminate Hhd].
  destruct (last literal) as [z|] eqn:Hz; [|discriminate Hla].
  split.
  - intros H. apply andb_true_iff in H as [H H3]. apply andb_true_iff in H as [H1 H2].
    apply startswith_iff in H2 as [v ->]. exists v.
    rewrite drop_app_length in H3. rewrite head_append, Hh in H1.
    rewrite Hhd in H1. rewrite Hla in H3.
    destruct (is_word_char before), (is_word_char (head v)); try discriminate; auto.
  - intros (v & -> & Hb & Hv).
    rewrite startswith_app, drop_app_length, head_append, Hh.
    rewrite Hhd, Hla, Hb, Hv. reflexivity.
Qed.

Lemma search_bounded_iff (before : option ascii) (s : string) :
  search_bounded literal before s = true
  <-> exists u v, s = u +:+ literal +:+ v
                  /\ is_word_char (last_or before u) = false
                  /\ is_word_char (head v) = false.
Proof.
  revert before. induction s as [|c s IH]; intros before.
  - cbn [search_bounded]. rewrite orb_false_r, match_bounded_iff. split.
    + intros (v & E & Hb & Hv). exists "", v. auto.
    + intros (u & v & E & Hb & Hv).
      destruct u; [|discriminate]. exists v. auto.
  - cbn [search_bounded]. rewrite orb_true_iff, match_bounded_iff, IH. split.
    + intros [(v & E & Hb & Hv) | (u & v & E & Hb & Hv)].
      * exists "", v. auto.
      * exists (String c u), v. rewrite E, last_or_cons. auto.
    + intros (u & v & E & Hb & Hv). destruct u as [|a u].
      * left. exists v. auto.
      * right. rewrite append_cons in E. injection E as -> ->.
        exists u, v. rewrite last_or_cons in Hb. auto.
Qed.

End BoundedSearch.

Lemma whole_word_occurrence_lower (entry text : string) :
  whole_word_occurrence entry text
  <-> exists u v, lower text = u +:+ lower entry +:+ v
                  /\ is_word_char (last u) = false
                  /\ is_word_char (head v) = false.
Proof.
  split.
  - intros (b & m & a & -> & Hm & Hb & Ha).
    exists (lower b), (lower a).
    rewrite !lower_app, Hm, last_lower, head_lower. auto.
  - intros (u & v & E & Hu & Hv).
    apply lower_split in E as (B & R & -> & <- & E).
    apply lower_split in E as (M & A & -> & HM & <-).
    exists B, M, A. rewrite last_lower in Hu. rewrite head_lower in Hv. auto.
Qed.

(** On a word-bounded entry the regular expression finds exactly the
    whole-word occurrences. *)
Lemma re_search_bounded_iff (entry text : string) :
  word_bounded entry = true ->
  re_search_bounded (lower entry) (lower text) = true
  <-> whole_word_occurrence entry text.
Proof.
  unfold word_bounded. intros H. apply andb_true_iff in H as [Hh Hl].
  unfold re_search_bounded.
  rewrite (search_bounded_iff _ Hh Hl), whole_word_occurrence_lower.
  unfold last_or. split; intros (u & v & E & Hu & Hv); exists u, v;
    destruct (last u); auto.
Qed.

Lemma found_skills_spec (text : string) (skill_list : list string) (x : string) :
  x ∈ found_skills text skill_list
  <-> exists skill, In skill skill_list
                    /\ re_search_bounded (lower skill) (lower text) = true
                    /\ x = capitalize skill.
Proof.
  unfold found_skills. cbv zeta.
  assert (Hgen : forall acc : gset string,
    x ∈ fold_left
          (fun found skill =>
             if re_search_bounded (lower skill) (lower text)
             then found ∪ {[capitalize skill]} else found) skill_list acc
    <-> x ∈ acc \/ exists skill, In skill skill_list
                     /\ re_search_bounded (lower skill) (lower text) = true
                     /\ x = capitalize skill).
  { induction skill_list as [|skill rest IH]; intros acc; simpl.
    - split; [auto | intros [H | (k & [] & _)]; exact H].
    - rewrite IH. destruct (re_search_bounded (lower skill) (lower text)) eqn:Hs.
      + rewrite elem_of_union, elem_of_singleton. split.
        * intros [[H | ->] | (k & Hk & Hm & ->)]; eauto 10.
        * intros [H | (k & [<- | Hk] & Hm & ->)]; eauto 10.
      + split.
        * intros [H | (k & Hk & Hm & ->)]; eauto 10.
        * intros [H | (k & [<- | Hk] & Hm & ->)]; eauto 10. congruence. }
  rewrite Hgen. split; [intros [H | H]; [set_solver | exact H] | auto].
Qed.

Lemma extract_skills_spec (text : string) (skill_list : list string) (x : string) :
  In x (extract_skills text skill_list)
  <-> exists skill, In skill skill_list
                    /\ re_search_bounded (lower skill) (lower text) = true
                    /\ x = capitalize skill.
Proof.
  unfold extract_skills.
  rewrite <- list_elem_of_In, elem_of_elements. apply found_skills_spec.
Qed.

Lemma vocabulary_word_bounded (skill : string) :
  In skill PREDEFINED_SKILLS -> skill <> "c++" -> word_bounded skill = true.
Proof.
  intros Hin Hne.
  assert (H : forallb (fun s => String.eqb s "c++" || word_bounded s) PREDEFINED_SKILLS = true)
    by (vm_compute; reflexivity).
  rewrite forallb_forall in H. specialize (H skill Hin).
  apply orb_true_iff in H as [H | H]; [|exact H].
  apply String.eqb_eq in H. contradiction.
Qed.

Lemma vocabulary_capitalize_inj (s s' : string) :
  In s PREDEFINED_SKILLS -> In s' PREDEFINED_SKILLS ->
  capitalize s = capitalize s' -> s = s'.
Proof.
  intros Hs Hs' Hc.
  assert (H : forallb (fun a => forallb (fun b =>
                implb (String.eqb (capitalize a) (capitalize b)) (String.eqb a b))
                PREDEFINED_SKILLS) PREDEFINED_SKILLS = true)
    by (vm_compute; reflexivity).
  rewrite forallb_forall in H. specialize (H s Hs).
  rewrite forallb_forall in H. specialize (H s' Hs').
  rewrite Hc, String.eqb_refl in H. apply String.eqb_eq. exact H.
Qed.

(** For every text of code points 0 to 255 and every entry of the
    vocabulary other than "c++", the capitalized entry is in the result
    if and only if the text holds a case-insensitive whole-word
    occurrence of the entry; and the result never holds a skill twice.
    (Beyond that range lowering a text may change its length, and the
    equivalence is not claimed.) *)
Theorem extract_skills_whole_word (text skill : string) :
  In skill PREDEFINED_SKILLS -> skill <> "c++" ->
  (In (capitalize skill) (extract_skills text PREDEFINED_SKILLS)
   <-> whole_word_occurrence skill text)
  /\ NoDup (extract_skills text PREDEFINED_SKILLS).
Proof.
  intros Hin Hne. split; [|apply NoDup_elements].
  rewrite extract_skills_spec,
    <- (re_search_bounded_iff skill text (vocabulary_word_bounded skill Hin Hne)).
  split.
  - intros (k & Hk & Hm & Hc).
    rewrite (vocabulary_capitalize_inj skill k Hin Hk Hc). exact Hm.
  - intros Hm. exists skill. auto.
Qed.

Lemma extract_skills_whole_word_witness :
  (In (capitalize "node.js")
      (extract_skills "Backend in Node.js, and SQL" PREDEFINED_SKILLS)
   <-> whole_word_occurrence "node.js" "Backend in Node.js, and SQL")
  /\ NoDup (extract_skills "Backend in Node.js, and SQL" PREDEFINED_SKILLS).
Proof.
  apply (extract_skills_whole_word "Backend in Node.js, and SQL" "node.js").
  - simpl. auto 20.
  - discriminate.
Defined.

(** *** Keywords, had the stop list been bound

    What [extract_keywords] computes once [stop_words] names a list: the
    first N words of the count table sorted by descending count, words of
    equal count staying in the order in which the text first has them. *)

Lemma filtered_tokens_bound (stopped tokens : list string) :
  filtered_tokens (Some stopped) tokens = Ok (kept_tokens stopped tokens).
Proof.
  unfold kept_tokens. induction tokens as [|word rest IH]; [reflexivity|].
  simpl. destruct (isalpha word); simpl; [|exact IH].
  rewrite IH. destruct (existsb (String.eqb word) stopped); reflexivity.
Qed.

Lemma counter_add_keys (word : string) (counts : list (string * nat)) :
  map fst (counter_add word counts)
  = if existsb (String.eqb word) (map fst counts)
    then map fst counts else map fst counts ++ [word].
Proof.
  induction counts as [|[k n] rest IH]; [reflexivity|].
  simpl. rewrite (String.eqb_sym word k).
  destruct (String.eqb k word); simpl; [reflexivity|].
  rewrite IH. destruct (existsb _ _); reflexivity.
Qed.

Lemma filter_filter_absent (t : string) (keys l : list string) :
  existsb (String.eqb t) keys = true ->
  List.filter (fun w => negb (existsb (String.eqb w) keys))
    (List.filter (fun w => negb (String.eqb t w)) l)
  = List.filter (fun w => negb (existsb (String.eqb w) keys)) l.
Proof.
  intros Ht. induction l as [|x l IH]; [reflexivity|]. simpl.
  destruct (String.eqb_spec t x) as [<-|Hne]; simpl.
  - rewrite Ht. exact IH.
  - destruct (existsb (String.eqb x) keys); simpl; rewrite IH; reflexivity.
Qed.

Lemma filter_filter_fresh (t : string) (keys l : list string) :
  List.filter (fun w => negb (existsb (String.eqb w) keys))
    (List.filter (fun w => negb (String.eqb t w)) l)
  = List.filter (fun w => negb (existsb (String.eqb w) (keys ++ [t]))) l.
Proof.
  induction l as [|x l IH]; [reflexivity|]. simpl.
  rewrite existsb_app. simpl. rewrite orb_false_r, (String.eqb_sym x t).
  destruct (String.eqb t x); simpl.
  - rewrite orb_true_r. exact IH.
  - rewrite orb_false_r.
    destruct (existsb (String.eqb x) keys); simpl; rewrite IH; reflexivity.
Qed.

Lemma Counter_keys_from (tokens : list string) (counts : list (string * nat)) :
  map fst (fold_left (fun counts word => counter_add word counts) tokens counts)
  = map fst counts
    ++ List.filter (fun w => negb (existsb (String.eqb w) (map fst counts)))
         (first_occurrences tokens).
Proof.
  revert counts. induction tokens as [|t rest IH]; intros counts; simpl.
  - rewrite app_nil_r. reflexivity.
  - rewrite IH, counter_add_keys.
    destruct (existsb (String.eqb t) (map fst counts)) eqn:Ht; simpl.
    + rewrite filter_filter_absent by exact Ht. reflexivity.
    + rewrite <- app_assoc. simpl. rewrite filter_filter_fresh. reflexivity.
Qed.

(** The keys of the count table are the distinct words in order of first
    occurrence. *)
Lemma Counter_keys (tokens : list string) :
  map fst (Counter tokens) = first_occurrences tokens.
Proof.
  unfold Counter. rewrite Counter_keys_from. simpl.
  induction (first_occurrences tokens) as [|x l IH]; [reflexivity|].
  simpl. rewrite IH. reflexivity.
Qed.

Lemma counter_add_count (word w : string) (counts : list (string * nat)) :
  count_in (counter_add word counts) w
  = (if String.eqb word w then 1 else 0) + count_in counts w.
Proof.
  unfold count_in. induction counts as [|[k n] rest IH]; simpl.
  - destruct (String.eqb word w); reflexivity.
  - destruct (String.eqb_spec k word) as [->|Hk]; simpl.
    + destruct (String.eqb word w); reflexivity.
    + destruct (String.eqb_spec k w) as [->|Hw]; simpl.
      * destruct (String.eqb_spec word w); [congruence | reflexivity].
      * exact IH.
Qed.

(** Each word is counted as often as it occurs. *)
Lemma Counter_count (tokens : list string) (w : string) :
  count_in (Counter tokens) w = occurrences w tokens.
Proof.
  unfold Counter.
  assert (H : forall counts,
    count_in (fold_left (fun counts word => counter_add word counts) tokens counts) w
    = occurrences w tokens + count_in counts w).
  { induction tokens as [|t rest IH]; intros counts; simpl; [reflexivity|].
    rewrite IH, counter_add_count. lia. }
  rewrite H. unfold count_in. simpl. lia.
Qed.

Lemma insert_by_count_perm (x : string * nat) (sorted : list (string * nat)) :
  Permutation (insert_by_count x sorted) (x :: sorted).
Proof.
  induction sorted as [|y rest IH]; simpl; [reflexivity|].
  destruct (snd x <? snd y)%nat; [|reflexivity].
  rewrite IH. apply perm_swap.
Qed.

Lemma sort_by_count_perm (items : list (string * nat)) :
  Permutation (sort_by_count items) items.
Proof.
  induction items as [|x rest IH]; simpl; [reflexivity|].
  rewrite insert_by_count_perm, IH. reflexivity.
Qed.

Lemma insert_by_count_sorted (x : string * nat) (sorted : list (string * nat)) :
  StronglySorted count_ge sorted -> StronglySorted count_ge (insert_by_count x sorted).
Proof.
  induction 1 as [|y rest Hs IH Hy]; simpl.
  - repeat constructor.
  - destruct (Nat.ltb_spec (snd x) (snd y)).
    + constructor; [exact IH|].
      rewrite insert_by_count_perm. constructor; [unfold count_ge; lia | exact Hy].
    + constructor; [constructor; assumption|].
      constructor; [unfold count_ge; lia|].
      eapply Forall_impl; [exact Hy|]. unfold count_ge. intros; lia.
Qed.

Lemma sort_by_count_sorted (items : list (string * nat)) :
  StronglySorted count_ge (sort_by_count items).
Proof.
  induction items as [|x rest IH]; simpl; [constructor|].
  apply insert_by_count_sorted, IH.
Qed.

Lemma insert_by_count_stable (n : nat) (x : string * nat) (sorted : list (string * nat)) :
  with_count n (insert_by_count x sorted) = with_count n (x :: sorted).
Proof.
  unfold with_count. induction sorted as [|y rest IH]; [reflexivity|].
  simpl. destruct (Nat.ltb_spec (snd x) (snd y)); [|reflexivity].
  simpl. rewrite IH. simpl.
  destruct (Nat.eqb_spec (snd x) n), (Nat.eqb_spec (snd y) n); try reflexivity. lia.
Qed.

(** Sorting keeps the entries of equal count in the order they had. *)
Lemma sort_by_count_stable (n : nat) (items : list (string * nat)) :
  with_count n (sort_by_count items) = with_count n items.
Proof.
  induction items as [|x rest IH]; [reflexivity|].
  simpl. rewrite insert_by_count_stable. unfold with_count in *. simpl.
  rewrite IH. reflexivity.
Qed.

Section KeywordRanking.

Variable word_tokenize : string -> list string.
Variable stopped : list string.

(** With [stop_words] bound to [stopped], a non-empty text gives the first
    [num_keywords] words of a ranking of the count table of the kept
    tokens: the ranking is a rearrangement of the table, by descending
    count, equal counts in table order; the table lists the distinct kept
    tokens in order of first occurrence, each with its number of
    occurrences. *)
Theorem extract_keywords_with_ranking (text : string) (num_keywords : Z) :
  text <> "" ->
  let kept := kept_tokens stopped (word_tokenize (lower text)) in
  let table := Counter kept in
  exists ranking,
    extract_keywords_with word_tokenize (Some stopped) text num_keywords
    = Ok (map fst (firstn (Z.to_nat num_keywords) ranking))
    /\ Permutation ranking table
    /\ StronglySorted count_ge ranking
    /\ (forall n, with_count n ranking = with_count n table)
    /\ map fst table = first_occurrences kept
    /\ (forall w, count_in table w = occurrences w kept).
Proof.
  intros Htext. cbv zeta.
  exists (sort_by_count (Counter (kept_tokens stopped (word_tokenize (lower text))))).
  split; [|split; [|split; [|split; [|split]]]].
  - unfold extract_keywords_with.
    destruct (String.eqb_spec text ""); [contradiction|].
    rewrite filtered_tokens_bound. reflexivity.
  - apply sort_by_count_perm.
  - apply sort_by_count_sorted.
  - intros n. apply sort_by_count_stable.
  - apply Counter_keys.
  - apply Counter_count.
Qed.

End KeywordRanking.

Lemma extract_keywords_with_ranking_witness :
  exists ranking,
    extract_keywords_with words (Some ["with"; "and"])
      "Python developer with Python skills and developer tools" 3
    = Ok (map fst (firstn (Z.to_nat 3) ranking))
    /\ Permutation ranking
         (Counter (kept_tokens ["with"; "and"]
                     (words (lower "Python developer with Python skills and developer tools"))))
    /\ StronglySorted count_ge ranking
    /\ (forall n, with_count n ranking
                  = with_count n
                      (Counter (kept_tokens ["with"; "and"]
                         (words (lower "Python developer with Python skills and developer tools")))))
    /\ map fst (Counter (kept_tokens ["with"; "and"]
                  (words (lower "Python developer with Python skills and developer tools"))))
       = first_occurrences
           (kept_tokens ["with"; "and"]
              (words (lower "Python developer with Python skills and developer tools")))
    /\ (forall w, count_in
                    (Counter (kept_tokens ["with"; "and"]
                       (words (lower "Python developer with Python skills and developer tools")))) w
                  = occurrences w
                      (kept_tokens ["with"; "and"]
                         (words (lower "Python developer with Python skills and developer tools")))).
Proof.
  apply (extract_keywords_with_ranking words ["with"; "and"]
           "Python developer with Python skills and developer tools" 3).
  discriminate.
Defined.

(** ** Further properties of main.py *)

(** *** sanitize_filename *)

Lemma take_length (n : nat) (s : string) : String.length (take n s) <= n.
Proof.
  revert s. induction n as [|n IH]; intros [|c s]; simpl; try lia.
  specialize (IH s). lia.
Qed.

Lemma take_all (n : nat) (s : string) : String.length s <= n -> take n s = s.
Proof.
  revert s. induction n as [|n IH]; intros [|c s]; simpl; intros H;
    try reflexivity; try lia.
  rewrite IH by lia. reflexivity.
Qed.

Lemma all_chars_take (p : ascii -> bool) (n : nat) (s : string) :
  all_chars p s = true -> all_chars p (take n s) = true.
Proof.
  revert s. induction n as [|n IH]; intros [|c s]; simpl; try reflexivity.
  intros H. apply andb_true_iff in H as [Hc Hs]. rewrite Hc, IH by exact Hs. reflexivity.
Qed.

Lemma all_chars_append (p : ascii -> bool) (a b : string) :
  all_chars p (a +:+ b) = all_chars p a && all_chars p b.
Proof.
  induction a as [|c a IH]; [reflexivity|].
  simpl. rewrite IH, andb_assoc. reflexivity.
Qed.

Lemma underscored_safe (s : string) :
  all_chars filename_safe (substitute_char " " "_" (remove_chars path_unsafe s)) = true.
Proof.
  induction s as [|c s IH]; [reflexivity|].
  simpl. destruct (path_unsafe c) eqn:Hc; [exact IH|].
  simpl. destruct (Ascii.eqb c " ") eqn:Hsp.
  - cbn [all_chars]. rewrite IH. reflexivity.
  - cbn [all_chars]. unfold filename_safe at 1. rewrite Hc, Hsp. exact IH.
Qed.

Lemma substitute_char_absent (c : ascii) (new s : string) :
  all_chars (fun a => negb (Ascii.eqb a c)) s = true -> substitute_char c new s = s.
Proof.
  induction s as [|a s IH]; [reflexivity|].
  simpl. intros H. apply andb_true_iff in H as [Ha Hs].
  apply negb_true_iff in Ha. rewrite Ha, IH by exact Hs. reflexivity.
Qed.

Lemma remove_chars_absent (unwanted : ascii -> bool) (s : string) :
  all_chars (fun a => negb (unwanted a)) s = true -> remove_chars unwanted s = s.
Proof.
  induction s as [|a s IH]; [reflexivity|].
  simpl. intros H. apply andb_true_iff in H as [Ha Hs].
  apply negb_true_iff in Ha. rewrite Ha, IH by exact Hs. reflexivity.
Qed.

Lemma all_chars_impl (p q : ascii -> bool) (s : string) :
  (forall c, p c = true -> q c = true) -> all_chars p s = true -> all_chars q s = true.
Proof.
  intros Hpq. induction s as [|c s IH]; [reflexivity|].
  simpl. intros H. apply andb_true_iff in H as [Hc Hs].
  rewrite (Hpq c Hc), IH by exact Hs. reflexivity.
Qed.

Lemma sanitized_length (filename : string) :
  String.length (sanitize_filename filename) <= 100.
Proof. unfold sanitize_filename. apply take_length. Qed.

Lemma sanitized_safe (filename : string) :
  all_chars filename_safe (sanitize_filename filename) = true.
Proof.
  unfold sanitize_filename. cbv zeta.
  rewrite substitute_char_replace. apply all_chars_take, underscored_safe.
Qed.

Lemma safe_short_name_kept (filename : string) :
  all_chars filename_safe filename = true ->
  String.length filename <= 100 ->
  sanitize_filename filename = filename.
Proof.
  intros Hsafe Hlen. unfold sanitize_filename. cbv zeta.
  rewrite substitute_char_replace, remove_chars_absent, substitute_char_absent.
  - apply take_all, Hlen.
  - eapply all_chars_impl; [|exact Hsafe].
    unfold filename_safe. intros c H. apply andb_true_iff in H. tauto.
  - eapply all_chars_impl; [|exact Hsafe].
    unfold filename_safe. intros c H. apply andb_true_iff in H. tauto.
Qed.

(** A sanitized name has at most 100 characters and holds none of the
    nine characters of the pattern and no space. *)
Theorem sanitize_filename_safe (filename : string) :
  String.length (sanitize_filename filename) <= 100
  /\ all_chars filename_safe (sanitize_filename filename) = true.
Proof. split; [apply sanitized_length | apply sanitized_safe]. Qed.

(** A name that is already safe and short enough is left as it is. *)
Theorem sanitize_filename_fixes_safe_names (filename : string) :
  all_chars filename_safe filename = true ->
  String.length filename <= 100 ->
  sanitize_filename filename = filename.
Proof. apply safe_short_name_kept. Qed.

Lemma sanitize_filename_fixes_safe_names_witness :
  sanitize_filename "Acme_Data_Engineer" = "Acme_Data_Engineer".
Proof.
  apply (sanitize_filename_fixes_safe_names "Acme_Data_Engineer").
  - reflexivity.
  - simpl. lia.
Defined.

(** Sanitizing twice is sanitizing once. *)
Theorem sanitize_filename_idempotent (filename : string) :
  sanitize_filename (sanitize_filename filename) = sanitize_filename filename.
Proof.
  apply safe_short_name_kept; [apply sanitized_safe | apply sanitized_length].
Qed.

Example sanitize_filename_sample :
  sanitize_filename "A/B: Data <Science> Team?" = "AB_Data_Science_Team".
Proof. vm_compute. reflexivity. Qed.

(** *** extract_data_with_gemini: the size bound *)

Lemma append_length (a b : string) :
  String.length (a +:+ b) = String.length a + String.length b.
Proof. induction a as [|c a IH]; simpl; [reflexivity | rewrite IH; reflexivity]. Qed.

Lemma take_append_exact (a b : string) : take (String.length a) (a +:+ b) = a.
Proof.
  induction a as [|c a IH]; [destruct b; reflexivity|].
  simpl. rewrite IH. reflexivity.
Qed.

Lemma take_take_length (n : nat) (s : string) :
  n <= String.length s -> String.length (take n s) = n.
Proof.
  revert s. induction n as [|n IH]; intros [|c s]; simpl; intros H;
    try reflexivity; try lia.
  rewrite IH by lia. reflexivity.
Qed.

(** The text given to the prompt never exceeds 15000 characters plus the
    marker; a text within the bound is unchanged, and a longer one keeps
    its first 15000 characters and ends with the marker. *)
Theorem truncate_content_bound (text_content : string) :
  String.length (truncate_content text_content)
  <= max_chars + String.length truncation_marker
  /\ (String.length text_content <= max_chars ->
      truncate_content text_content = text_content)
  /\ (max_chars < String.length text_content ->
      truncate_content text_content = take max_chars text_content +:+ truncation_marker
      /\ take max_chars (truncate_content text_content) = take max_chars text_content).
Proof.
  unfold truncate_content, truncation_marker.
  generalize max_chars. intros n.
  destruct (Nat.ltb_spec n (String.length text_content)) as [Hlt|Hle].
  - split; [|split].
    + rewrite append_length. pose proof (take_length n text_content). lia.
    + lia.
    + intros _. split; [reflexivity|].
      rewrite <- (take_take_length n text_content) at 1 by lia.
      apply take_append_exact.
  - split; [lia|]. split; [reflexivity | lia].
Qed.

(** *** latex_escape *)

Lemma guarded_own (c prev : ascii) (s : string) :
  Ascii.eqb "\" c = false ->
  guarded c prev (substitute_char c (String "\" (String c "")) s) = true.
Proof.
  intros Hc. revert prev. induction s as [|a s IH]; intros prev; [reflexivity|].
  cbn [substitute_char]. destruct (Ascii.eqb a c) eqn:Ha.
  - rewrite !append_cons. cbn [guarded].
    rewrite Hc, !Ascii.eqb_refl, IH. reflexivity.
  - cbn [guarded]. rewrite Ha, IH. reflexivity.
Qed.

Lemma guarded_other (c d prev : ascii) (s : string) :
  Ascii.eqb c d = false -> Ascii.eqb "\" d = false ->
  guarded d prev s = true ->
  guarded d prev (substitute_char c (String "\" (String c "")) s) = true.
Proof.
  intros Hcd Hd. revert prev. induction s as [|a s IH]; intros prev; [reflexivity|].
  cbn [substitute_char guarded]. intros H. apply andb_true_iff in H as [Ha Hs].
  destruct (Ascii.eqb a c) eqn:Hac.
  - apply Ascii.eqb_eq in Hac. subst a.
    rewrite !append_cons. cbn [guarded].
    rewrite Hd, Hcd. simpl. apply IH, Hs.
  - cbn [guarded]. rewrite Ha. apply IH, Hs.
Qed.

(** In an escaped string every percent sign, ampersand and underscore
    comes right after a backslash. *)
Theorem latex_escape_guards_specials (prev : ascii) (s : string) :
  guarded "%" prev (latex_escape s) = true
  /\ guarded "&" prev (latex_escape s) = true
  /\ guarded "_" prev (latex_escape s) = true.
Proof.
  rewrite latex_escape_chars. repeat split.
  - apply guarded_other; [reflexivity..|].
    apply guarded_other; [reflexivity..|].
    apply (guarded_own "%"). reflexivity.
  - apply guarded_other; [reflexivity..|].
    apply (guarded_own "&"). reflexivity.
  - apply (guarded_own "_"). reflexivity.
Qed.

(** A string without the three characters is not changed by escaping. *)
Theorem latex_escape_fixes_plain_text (s : string) :
  all_chars (fun c => negb (latex_special c)) s = true ->
  latex_escape s = s.
Proof.
  intros H. rewrite latex_escape_chars.
  rewrite (substitute_char_absent "%"), (substitute_char_absent "&"),
    (substitute_char_absent "_"); [reflexivity|..];
    (eapply all_chars_impl; [|exact H]); unfold latex_special; intros c Hc;
    apply negb_true_iff in Hc; apply orb_false_iff in Hc as [Hc H3];
    apply orb_false_iff in Hc as [H1 H2]; apply negb_true_iff; assumption.
Qed.

Lemma latex_escape_fixes_plain_text_witness :
  latex_escape "Python 3 and SQL" = "Python 3 and SQL".
Proof.
  apply (latex_escape_fixes_plain_text "Python 3 and SQL"). reflexivity.
Defined.

(** *** modify_latex_template: the files it leaves alone *)

(** Whatever happens, no file other than the output file is created,
    changed or removed. *)
Theorem modify_touches_only_output
    (faults : os_faults) (w : world) (template_path output_path path : string)
    (extracted_data : listing) :
  path <> output_path ->
  files (snd (modify_latex_template faults w template_path output_path extracted_data))
    !! path
  = files w !! path.
Proof.
  intros Hne. unfold modify_latex_template, write_text, makedirs.
  destruct (read_text faults w template_path); [|reflexivity].
  repeat match goal with
         | |- context [if ?b then _ else _] => destruct b; simpl; try reflexivity
         end;
    apply lookup_insert_ne; congruence.
Qed.

Lemma modify_touches_only_output_witness :
  files (snd (modify_latex_template no_faults compiled_world
                "/out/resume.tex" "/out/filled.tex" (as_dict sample_listing)))
    !! "/out/resume.pdf"
  = files compiled_world !! "/out/resume.pdf".
Proof.
  apply (modify_touches_only_output no_faults compiled_world
           "/out/resume.tex" "/out/filled.tex" "/out/resume.pdf"
           (as_dict sample_listing)).
  discriminate.
Defined.

(** *** compile_latex_to_pdf: the artifact it looks for *)

Lemma tex_no_straddle (c : ascii) (r : string) :
  startswith (String c r) ".tex" = false ->
  startswith (String c r +:+ ".tex") ".tex" = false.
Proof.
  rewrite append_cons, !startswith_cons.
  destruct (Ascii.eqb "." c) eqn:H0; [|reflexivity]. simpl.
  destruct r as [|c1 r]; [reflexivity|].
  rewrite append_cons, !startswith_cons.
  destruct (Ascii.eqb "t" c1) eqn:H1; [|reflexivity]. simpl.
  destruct r as [|c2 r]; [reflexivity|].
  rewrite append_cons, !startswith_cons.
  destruct (Ascii.eqb "e" c2) eqn:H2; [|reflexivity]. simpl.
  destruct r as [|c3 r]; [reflexivity|].
  rewrite append_cons, !startswith_cons.
  destruct (Ascii.eqb "x" c3) eqn:H3; [|reflexivity]. simpl.
  destruct r; discriminate.
Qed.

Lemma replace_tex_suffix_bounded (n : nat) (stem : string) :
  String.length stem <= n ->
  replace_from ".tex" ".pdf" 0 (stem +:+ ".tex")
  = replace_from ".tex" ".pdf" 0 stem +:+ ".pdf".
Proof.
  revert stem. induction n as [|n IH]; intros stem Hlen.
  - destruct stem; [reflexivity | simpl in Hlen; lia].
  - destruct (startswith stem ".tex") eqn:Hs.
    + apply startswith_iff in Hs as [rest ->].
      rewrite append_assoc, !replace_from_match, IH, append_assoc; [reflexivity|].
      rewrite append_length in Hlen. simpl in Hlen. lia.
    + destruct stem as [|c r]; [reflexivity|].
      pose proof (tex_no_straddle c r Hs) as Hs'.
      rewrite append_cons in Hs'.
      rewrite append_cons, !replace_from_cons, Hs, Hs', IH, append_cons; [reflexivity|].
      simpl in Hlen. lia.
Qed.

(** Every ".tex" of the file name is replaced, not only the extension. *)
Lemma replace_tex_suffix (stem : string) :
  replace (stem +:+ ".tex") ".tex" ".pdf" = replace stem ".tex" ".pdf" +:+ ".pdf".
Proof. apply (replace_tex_suffix_bounded (String.length stem)). lia. Qed.

Lemma replace_from_absent (c : ascii) (old new s : string) :
  all_chars (fun a => negb (Ascii.eqb c a)) s = true ->
  replace_from (String c old) new 0 s = s.
Proof.
  induction s as [|a s IH]; [reflexivity|].
  simpl all_chars. intros H. apply andb_true_iff in H as [Ha Hs].
  apply negb_true_iff in Ha.
  rewrite replace_from_cons, startswith_cons, Ha, IH by exact Hs. reflexivity.
Qed.

Lemma split_at_last_slash_cons (c : ascii) (p : string) :
  split_at_last_slash (String c p)
  = let '(h, t) := split_at_last_slash p in
    match h with
    | EmptyString =>
        if Ascii.eqb c "/" then (String c EmptyString, p) else (EmptyString, String c t)
    | _ => (String c h, t)
    end.
Proof. reflexivity. Qed.

Lemma split_without_slash (name : string) :
  all_chars not_slash name = true -> split_at_last_slash name = ("", name).
Proof.
  induction name as [|c name IH]; [reflexivity|].
  simpl. intros H. apply andb_true_iff in H as [Hc Hn].
  rewrite IH by exact Hn. unfold not_slash in Hc. apply negb_true_iff in Hc.
  rewrite Hc. reflexivity.
Qed.

Lemma split_at_slash (d name : string) :
  all_chars not_slash name = true ->
  split_at_last_slash (d +:+ "/" +:+ name) = (d +:+ "/", name).
Proof.
  intros Hn. induction d as [|c d IH].
  - simpl. rewrite split_without_slash by exact Hn. reflexivity.
  - rewrite (append_cons c d ("/" +:+ name)), (append_cons c d "/").
    rewrite split_at_last_slash_cons, IH.
    destruct (d +:+ "/") eqn:E; [destruct d; discriminate | reflexivity].
Qed.

Lemma rstrip_slashes_kept (d : string) (c : ascii) :
  last d = Some c -> c <> "/"%char ->
  rstrip_slashes (d +:+ "/") = d /\ all_chars (Ascii.eqb "/") (d +:+ "/") = false.
Proof.
  intros Hl Hc. induction d as [|a d IH]; [discriminate|].
  destruct d as [|b d].
  - injection Hl as ->.
    assert (Ascii.eqb c "/" = false) as E by (apply Ascii.eqb_neq; exact Hc).
    rewrite append_cons. change ("" +:+ "/") with "/".
    cbn -[Ascii.eqb]. rewrite !Ascii.eqb_refl, (Ascii.eqb_sym "/" c), E. auto.
  - destruct (IH Hl) as [IH1 IH2]. rewrite append_cons.
    cbn -[Ascii.eqb String.append]. rewrite IH1, IH2, andb_false_r. auto.
Qed.

Lemma path_join_plain (d name : string) (c : ascii) :
  last d = Some c -> c <> "/"%char -> head name <> Some "/"%char ->
  path_join d name = d +:+ "/" +:+ name.
Proof.
  intros Hl Hc Hn. unfold path_join.
  assert (startswith name "/" = false) as ->.
  { destruct name as [|a name]; [reflexivity|].
    rewrite startswith_cons. destruct (Ascii.eqb_spec "/" a) as [<-|]; [|reflexivity].
    exfalso. apply Hn. reflexivity. }
  rewrite Hl. apply Ascii.eqb_neq in Hc. rewrite Hc. reflexivity.
Qed.

Lemma replace_from_head (stem : string) :
  all_chars not_slash stem = true ->
  head (replace_from ".tex" ".pdf" 0 stem +:+ ".pdf") <> Some "/"%char.
Proof.
  destruct stem as [|c r]; [discriminate|].
  simpl all_chars. intros H. apply andb_true_iff in H as [Hc _].
  rewrite replace_from_cons. destruct (startswith _ _); [discriminate|].
  rewrite append_cons. simpl. intros [= ->]. discriminate.
Qed.

(** For a source [d/stem.tex] the PDF looked for is [d/stem'.pdf], where
    [stem'] is the stem with each ".tex" in it replaced by ".pdf"; for a
    stem without a dot it is [d/stem.pdf]. *)
Theorem pdf_filepath_of_source (d stem : string) (c : ascii) :
  last d = Some c -> c <> "/"%char ->
  all_chars not_slash stem = true ->
  pdf_filepath (d +:+ "/" +:+ stem +:+ ".tex")
  = d +:+ "/" +:+ replace stem ".tex" ".pdf" +:+ ".pdf"
  /\ (all_chars (fun a => negb (Ascii.eqb "." a)) stem = true ->
      pdf_filepath (d +:+ "/" +:+ stem +:+ ".tex") = d +:+ "/" +:+ stem +:+ ".pdf").
Proof.
  intros Hl Hc Hs.
  assert (Hname : all_chars not_slash (stem +:+ ".tex") = true).
  { rewrite all_chars_append, Hs. reflexivity. }
  assert (Hpdf : pdf_filepath (d +:+ "/" +:+ stem +:+ ".tex")
                 = d +:+ "/" +:+ replace stem ".tex" ".pdf" +:+ ".pdf").
  { unfold pdf_filepath, dirname, basename.
    rewrite (split_at_slash d _ Hname). cbn [fst snd].
    destruct (rstrip_slashes_kept d c Hl Hc) as [-> ->].
    rewrite replace_tex_suffix.
    apply (path_join_plain d _ c Hl Hc).
    rewrite replace_nonempty. apply replace_from_head, Hs. }
  split; [exact Hpdf|].
  intros Hdot. rewrite Hpdf, replace_nonempty, replace_from_absent by exact Hdot.
  reflexivity.
Qed.

Lemma pdf_filepath_of_source_witness :
  pdf_filepath ("/out/resumes" +:+ "/" +:+ "Acme_Engineer_20240101_120000" +:+ ".tex")
  = "/out/resumes" +:+ "/"
    +:+ replace "Acme_Engineer_20240101_120000" ".tex" ".pdf" +:+ ".pdf"
  /\ (all_chars (fun a => negb (Ascii.eqb "." a)) "Acme_Engineer_20240101_120000" = true ->
      pdf_filepath ("/out/resumes" +:+ "/" +:+ "Acme_Engineer_20240101_120000" +:+ ".tex")
      = "/out/resumes" +:+ "/" +:+ "Acme_Engineer_20240101_120000" +:+ ".pdf").
Proof.
  apply (pdf_filepath_of_source "/out/resumes" "Acme_Engineer_20240101_120000" "s").
  - reflexivity.
  - discriminate.
  - reflexivity.
Defined.

(** A company name that holds ".tex": the PDF looked for is not the one
    pdflatex writes. *)
Example pdf_filepath_inner_tex :
  pdf_filepath "/out/Vertex.tex_Labs_Engineer.tex" = "/out/Vertex.pdf_Labs_Engineer.pdf".
Proof. vm_compute. reflexivity. Qed.

(** *** cleanup_latex_aux_files *)

Section CleanupProperties.

Variable remove_fails : string -> bool.
Variables directory base_filename_no_ext : string.

Let step := remove_aux_file remove_fails directory base_filename_no_ext.

Lemma remove_aux_file_effect (w : world) (ext : string) :
  dirs (step w ext) = dirs w
  /\ (files (step w ext) = files w
      \/ files (step w ext)
         = delete (path_join directory (base_filename_no_ext +:+ ext)) (files w)).
Proof.
  unfold step, remove_aux_file, os_remove. cbv zeta.
  destruct (path_exists w _); [|auto].
  destruct (remove_fails _); [auto|].
  destruct (files w !! _); simpl; auto.
Qed.

Lemma remove_aux_files_effect (exts : list string) (w : world) (path : string) :
  dirs (fold_left step exts w) = dirs w
  /\ (files (fold_left step exts w) !! path = files w !! path
      \/ (files (fold_left step exts w) !! path = None
          /\ In path (map (fun ext => path_join directory (base_filename_no_ext +:+ ext))
                        exts))).
Proof.
  revert w. induction exts as [|ext exts IH]; intros w; simpl; [auto|].
  destruct (IH (step w ext)) as [Hd Hf].
  destruct (remove_aux_file_effect w ext) as [Hd' Hf'].
  split; [congruence|].
  destruct Hf as [Hf | [Hf Hin]]; [|auto].
  rewrite Hf. destruct Hf' as [-> | ->]; [auto|].
  destruct (decide (path_join directory (base_filename_no_ext +:+ ext) = path)) as [<-|Hne].
  - right. split; [apply lookup_delete_eq | left; reflexivity].
  - left. apply lookup_delete_ne. exact Hne.
Qed.

(** Cleaning up only removes: the directories stay, and every file is
    either as it was or is one of the eight auxiliary files and is gone. *)
Theorem cleanup_only_removes_aux_files (w : world) (path : string) :
  let w' := cleanup_latex_aux_files remove_fails w directory base_filename_no_ext in
  dirs w' = dirs w
  /\ (files w' !! path = files w !! path
      \/ (files w' !! path = None
          /\ In path (aux_paths directory base_filename_no_ext))).
Proof. apply remove_aux_files_effect. Qed.

End CleanupProperties.

Section CleanupWithoutFaults.

Variables directory base_filename_no_ext : string.

Let step := remove_aux_file remove_never_fails directory base_filename_no_ext.

Lemma remove_aux_file_removes (w : world) (ext : string) :
  files (step w ext) !! path_join directory (base_filename_no_ext +:+ ext) = None.
Proof.
  unfold step, remove_aux_file, os_remove, remove_never_fails, path_exists. cbv zeta.
  destruct (files w !! _) eqn:Hf; simpl.
  - assert (bool_decide (path_join directory (base_filename_no_ext +:+ ext) ∈ dom (files w))
            = true) as ->.
    { apply bool_decide_eq_true. apply elem_of_dom. eauto. }
    simpl. apply lookup_delete_eq.
  - destruct (_ || _); exact Hf.
Qed.

Lemma remove_aux_files_keep_absent (exts : list string) (w : world) (path : string) :
  files w !! path = None -> files (fold_left step exts w) !! path = None.
Proof.
  intros H.
  destruct (remove_aux_files_effect remove_never_fails directory base_filename_no_ext
              exts w path) as [_ [E | [E _]]]; [|exact E].
  unfold step. rewrite E. exact H.
Qed.

Lemma remove_aux_files_remove_all (exts : list string) (w : world) (ext : string) :
  In ext exts ->
  files (fold_left step exts w) !! path_join directory (base_filename_no_ext +:+ ext)
  = None.
Proof.
  revert w. induction exts as [|e exts IH]; intros w; simpl; [contradiction|].
  intros [-> | Hin].
  - apply remove_aux_files_keep_absent, remove_aux_file_removes.
  - apply IH, Hin.
Qed.

(** When no removal is refused, none of the eight auxiliary files is left. *)
Theorem cleanup_removes_every_aux_file (w : world) (path : string) :
  In path (aux_paths directory base_filename_no_ext) ->
  files (cleanup_latex_aux_files remove_never_fails w directory base_filename_no_ext)
    !! path
  = None.
Proof.
  unfold aux_paths. rewrite in_map_iff. intros (ext & <- & Hin).
  apply remove_aux_files_remove_all, Hin.
Qed.

End CleanupWithoutFaults.

Lemma cleanup_removes_every_aux_file_witness :
  files (cleanup_latex_aux_files remove_never_fails compiled_world "/out" "resume")
    !! "/out/resume.log"
  = None.
Proof.
  apply (cleanup_removes_every_aux_file "/out" "resume" compiled_world "/out/resume.log").
  simpl. auto.
Defined.

(** The source and the PDF survive the cleanup. *)
Example cleanup_keeps_source_and_pdf :
  let w' := cleanup_latex_aux_files remove_never_fails compiled_world "/out" "resume" in
  files w' !! "/out/resume.tex" = Some "\documentclass{article}"
  /\ files w' !! "/out/resume.pdf" = Some "%PDF-1.5"
  /\ files w' !! "/out/resume.aux" = None.
Proof. cbv zeta. repeat split; vm_compute; reflexivity. Qed.

(** ** Further properties of testing.py *)

(** *** The matcher *)

Lemma take_drop (n : nat) (s : string) : take n s +:+ drop n s = s.
Proof.
  revert s. induction n as [|n IH]; intros [|c s]; simpl; try reflexivity.
  rewrite IH. reflexivity.
Qed.

Lemma take_run (cls : ascii -> bool) (n : nat) (s : string) :
  n <= run_length cls s ->
  all_chars cls (take n s) = true /\ String.length (take n s) = n.
Proof.
  revert s. induction n as [|n IH]; intros s H; [destruct s; auto|].
  destruct s as [|c s]; simpl in H; [lia|].
  destruct (cls c) eqn:Hc; [|lia].
  destruct (IH s) as [H1 H2]; [lia|].
  simpl. rewrite Hc, H1, H2. auto.
Qed.

Section Matcher.

Variables (cls : ascii -> bool) (lo : nat) (hi : option nat) (rest : list item).
Variable k : option ascii -> string -> option string.

Hypothesis k_sound : forall before s m,
  k before s = Some m -> shape rest m /\ exists after, s = m +:+ after.

Lemma try_counts_eq (n : nat) (before : option ascii) (s : string) :
  try_counts k lo n before s
  = if (n <? lo)%nat then None
    else match k (char_before before (take n s)) (drop n s) with
         | Some m => Some (take n s +:+ m)
         | None =>
             match n with
             | O => None
             | S n' => try_counts k lo n' before s
             end
         end.
Proof. destruct n; reflexivity. Qed.

Lemma try_counts_success (n : nat) (before : option ascii) (s m' : string) :
  n <= run_length cls s ->
  match hi with Some h => n <= h | None => True end ->
  lo <= n ->
  k (char_before before (take n s)) (drop n s) = Some m' ->
  shape (Rep cls lo hi :: rest) (take n s +:+ m')
  /\ exists after, s = (take n s +:+ m') +:+ after.
Proof.
  intros Hrun Hhi Hlo Hk.
  destruct (k_sound _ _ _ Hk) as [Hs [after Ha]].
  destruct (take_run cls n s Hrun) as [H1 H2].
  split.
  - exists (take n s), m'. repeat split; auto; try lia.
    destruct hi; [lia | exact I].
  - exists after. rewrite append_assoc, <- Ha. symmetry. apply take_drop.
Qed.

Lemma try_counts_sound (n : nat) (before : option ascii) (s m : string) :
  n <= run_length cls s ->
  match hi with Some h => n <= h | None => True end ->
  try_counts k lo n before s = Some m ->
  shape (Rep cls lo hi :: rest) m /\ exists after, s = m +:+ after.
Proof.
  induction n as [|n IH]; intros Hrun Hhi; rewrite try_counts_eq.
  - destruct (Nat.ltb_spec 0 lo); [discriminate|].
    destruct (k _ _) as [m'|] eqn:Hk; [|discriminate].
    intros Heq. injection Heq as Heq. rewrite <- Heq.
    apply (try_counts_success 0 before); assumption.
  - destruct (Nat.ltb_spec (S n) lo); [discriminate|].
    destruct (k _ _) as [m'|] eqn:Hk.
    + intros Heq. injection Heq as Heq. rewrite <- Heq.
      apply (try_counts_success (S n) before); assumption.
    + apply IH; [lia|]. destruct hi; [lia | exact I].
Qed.

End Matcher.

(** What the matcher returns is a text of the shape of the pattern, at
    the head of the input. *)
Lemma match_items_sound (items : list item) (before : option ascii) (s m : string) :
  match_items items before s = Some m ->
  shape items m /\ exists after, s = m +:+ after.
Proof.
  revert before s m. induction items as [|[cls lo hi|] rest IH]; intros before s m.
  - intros [= <-]. split; [reflexivity|]. exists s. reflexivity.
  - cbn [match_items]. cbv zeta.
    apply (try_counts_sound cls lo hi rest (match_items rest) IH).
    + destruct hi; lia.
    + destruct hi; [lia | exact I].
  - cbn [match_items shape]. destruct (word_boundary _ _); [apply IH | discriminate].
Qed.

Lemma findall_from_sound (items : list item) (s : string) :
  forall skip before m,
    In m (findall_from items skip before s) -> shape items m /\ occurs_in m s.
Proof.
  induction s as [|c s IH]; intros skip before m.
  - destruct skip; cbn [findall_from]; [|contradiction].
    destruct (match_items items before "") as [m'|] eqn:Hm; [|contradiction].
    intros [<- | []]. destruct (match_items_sound _ _ _ _ Hm) as [Hs [after Ha]].
    split; [exact Hs|]. exists "", after. exact Ha.
  - assert (Hrec : forall skip' before',
              In m (findall_from items skip' before' s) ->
              shape items m /\ occurs_in m (String c s)).
    { intros skip' before' Hin. destruct (IH _ _ _ Hin) as [Hs (b & a & ->)].
      split; [exact Hs|]. exists (String c b), a. reflexivity. }
    destruct skip; cbn [findall_from]; [|apply Hrec].
    destruct (match_items items before (String c s)) as [m'|] eqn:Hm; [|apply Hrec].
    intros [<- | Hin]; [|exact (Hrec _ _ Hin)].
    destruct (match_items_sound _ _ _ _ Hm) as [Hs [after Ha]].
    split; [exact Hs|]. exists "", after. exact Ha.
Qed.

Lemma re_findall_sound (items : list item) (text m : string) :
  In m (elements (list_to_set (re_findall items text) : gset string)) ->
  shape items m /\ occurs_in m text.
Proof.
  rewrite <- list_elem_of_In, elem_of_elements, elem_of_list_to_set, list_elem_of_In.
  apply findall_from_sound.
Qed.

(** *** extract_phones and extract_emails *)

Lemma count_chars_append (cls : ascii -> bool) (a b : string) :
  count_chars cls (a +:+ b) = count_chars cls a + count_chars cls b.
Proof. induction a as [|c a IH]; simpl; [reflexivity | rewrite IH; lia]. Qed.

Lemma count_chars_all (cls : ascii -> bool) (u : string) :
  all_chars cls u = true -> count_chars cls u = String.length u.
Proof.
  induction u as [|c u IH]; [reflexivity|].
  simpl. intros H. apply andb_true_iff in H as [-> Hu]. rewrite IH by exact Hu. reflexivity.
Qed.

Lemma count_chars_none (cls other : ascii -> bool) (u : string) :
  (forall c, other c = true -> cls c = false) ->
  all_chars other u = true -> count_chars cls u = 0.
Proof.
  intros Hd. induction u as [|c u IH]; [reflexivity|].
  simpl. intros H. apply andb_true_iff in H as [Hc Hu].
  rewrite (Hd c Hc), IH by exact Hu. reflexivity.
Qed.

Lemma open_paren_no_digit (c : ascii) : is_code 40 c = true -> decimal_digit c = false.
Proof. destruct c as [[] [] [] [] [] [] [] []]; vm_compute; congruence. Qed.

Lemma close_paren_no_digit (c : ascii) : is_code 41 c = true -> decimal_digit c = false.
Proof. destruct c as [[] [] [] [] [] [] [] []]; vm_compute; congruence. Qed.

Lemma separator_no_digit (c : ascii) : phone_separator c = true -> decimal_digit c = false.
Proof. destruct c as [[] [] [] [] [] [] [] []]; vm_compute; congruence. Qed.

Lemma phone_shape (p : string) :
  shape phone_pattern p ->
  count_chars decimal_digit p = 10
  /\ 10 <= String.length p <= 14.
Proof.
  unfold phone_pattern. cbn [shape].
  intros (u1 & m1 & -> & C1 & _ & L1 &
          u2 & m2 & -> & C2 & G2 & L2 &
          u3 & m3 & -> & C3 & _ & L3 &
          u4 & m4 & -> & C4 & _ & L4 &
          u5 & m5 & -> & C5 & G5 & L5 &
          u6 & m6 & -> & C6 & _ & L6 &
          u7 & m7 & -> & C7 & G7 & L7 & ->).
  rewrite !count_chars_append, !append_length.
  rewrite (count_chars_none _ _ u1 open_paren_no_digit C1).
  rewrite (count_chars_none _ _ u3 close_paren_no_digit C3).
  rewrite (count_chars_none _ _ u4 separator_no_digit C4).
  rewrite (count_chars_none _ _ u6 separator_no_digit C6).
  rewrite (count_chars_all _ u2 C2), (count_chars_all _ u5 C5), (count_chars_all _ u7 C7).
  simpl. lia.
Qed.

(** Every phone number returned occurs in the text, has exactly ten
    digits and between 10 and 14 characters; none is returned twice. *)
Theorem extract_phones_shape (text : string) :
  NoDup (extract_phones text)
  /\ forall p, In p (extract_phones text) ->
       occurs_in p text
       /\ count_chars decimal_digit p = 10
       /\ 10 <= String.length p <= 14.
Proof.
  split; [unfold extract_phones; apply NoDup_elements|].
  intros p Hin. apply re_findall_sound in Hin as [Hs Ho].
  split; [exact Ho | apply phone_shape, Hs].
Qed.

Example extract_phones_sample :
  extract_phones "Phone: (123) 456-7890, fax 12345678901234"
  = ["1234567890"; "(123) 456-7890"].
Proof. vm_compute. reflexivity. Qed.

Lemma is_code_eq (n : N) (c : ascii) : is_code n c = true -> c = ascii_of_N n.
Proof.
  unfold is_code, code. intros H. apply N.eqb_eq in H.
  rewrite <- H. symmetry. apply ascii_N_embedding.
Qed.

Lemma single_char (n : N) (u : string) :
  all_chars (is_code n) u = true -> 1 <= String.length u -> String.length u <= 1 ->
  u = String (ascii_of_N n) "".
Proof.
  destruct u as [|c [|d u]]; simpl; intros H H1 H2; try lia.
  apply andb_true_iff in H as [H _]. rewrite (is_code_eq n c H). reflexivity.
Qed.

Lemma email_shape (e : string) :
  shape email_pattern e ->
  exists local domain tld,
    e = local +:+ "@" +:+ domain +:+ "." +:+ tld
    /\ 1 <= String.length local /\ all_chars email_local_char local = true
    /\ 1 <= String.length domain /\ all_chars email_domain_char domain = true
    /\ 2 <= String.length tld /\ all_chars email_tld_char tld = true.
Proof.
  unfold email_pattern, one. cbn [shape].
  intros (u1 & m1 & -> & C1 & G1 & _ &
          u2 & m2 & -> & C2 & G2 & L2 &
          u3 & m3 & -> & C3 & G3 & _ &
          u4 & m4 & -> & C4 & G4 & L4 &
          u5 & m5 & -> & C5 & G5 & _ & ->).
  rewrite (single_char 64 u2 C2 G2 L2), (single_char 46 u4 C4 G4 L4).
  exists u1, u3, u5. rewrite append_empty_right. repeat split; assumption.
Qed.

(** Every address returned occurs in the text and reads
    local@domain.tld, with a non-empty local part, a non-empty domain and
    at least two characters after the last dot, each within its class;
    none is returned twice. *)
Theorem extract_emails_shape (text : string) :
  NoDup (extract_emails text)
  /\ forall e, In e (extract_emails text) ->
       occurs_in e text
       /\ exists local domain tld,
            e = local +:+ "@" +:+ domain +:+ "." +:+ tld
            /\ 1 <= String.length local /\ all_chars email_local_char local = true
            /\ 1 <= String.length domain /\ all_chars email_domain_char domain = true
            /\ 2 <= String.length tld /\ all_chars email_tld_char tld = true.
Proof.
  split; [unfold extract_emails; apply NoDup_elements|].
  intros e Hin. apply re_findall_sound in Hin as [Hs Ho].
  split; [exact Ho | apply email_shape, Hs].
Qed.

Example extract_emails_sample :
  re_findall email_pattern "Email: john.doe@example.com, x@y.z or a@b.co.uk."
  = ["john.doe@example.com"; "a@b.co.uk"].
Proof. vm_compute. reflexivity. Qed.

(** *** analyze_resume_text *)

Section AnalysisProperties.

Variable word_tokenize : string -> list string.

(** The analysis of a resume fails on every text with an alphabetic token:
    the [NameError] of the keyword step is not caught. *)
Theorem analyze_resume_text_raises_on_words (resume_text : string) :
  resume_text <> "" ->
  existsb isalpha (word_tokenize (lower resume_text)) = true ->
  analyze_resume_text word_tokenize resume_text = Raise NameError.
Proof.
  intros Htext Halpha.
  unfold analyze_resume_text, extract_keywords, extract_keywords_with, stop_words.
  destruct (String.eqb_spec resume_text ""); [contradiction|].
  cbv zeta. rewrite filtered_tokens_unbound, Halpha. reflexivity.
Qed.

(** When the analysis returns, either the text was empty and the report is
    the error, or the text has no alphabetic token: the keywords are
    empty and the preview is the first 500 characters followed by three
    dots. *)
Theorem analyze_resume_text_returns (resume_text : string) (r : report) :
  analyze_resume_text word_tokenize resume_text = Ok r ->
  (resume_text = "" /\ r = ReportError "Could not extract text from resume.")
  \/ (resume_text <> ""
      /\ existsb isalpha (word_tokenize (lower resume_text)) = false
      /\ r = Report (extract_emails resume_text) (extract_phones resume_text)
               (extract_skills resume_text PREDEFINED_SKILLS) []
               (take 500 resume_text +:+ "...")
      /\ String.length (take 500 resume_text +:+ "...") <= 503).
Proof.
  unfold analyze_resume_text, extract_keywords, extract_keywords_with, stop_words.
  destruct (String.eqb_spec resume_text "") as [->|Hne].
  - intros [= <-]. left. auto.
  - cbv zeta. rewrite filtered_tokens_unbound.
    destruct (existsb isalpha _) eqn:Halpha; [discriminate|].
    intros [= <-]. right. repeat split; auto.
    + rewrite append_length. pose proof (take_length 500 resume_text) as Hlen.
      change (String.length "...") with 3. lia.
Qed.

End AnalysisProperties.

Lemma analyze_resume_text_raises_on_words_witness :
  analyze_resume_text words "John Doe, Python developer" = Raise NameError.
Proof.
  apply (analyze_resume_text_raises_on_words words "John Doe, Python developer").
  - discriminate.
  - reflexivity.
Defined.

Lemma analyze_resume_text_returns_witness :
  ("(123) 456-7890" = "" /\ Report [] ["(123) 456-7890"] [] [] "(123) 456-7890..."
                             = ReportError "Could not extract text from resume.")
  \/ ("(123) 456-7890" <> ""
      /\ existsb isalpha (words (lower "(123) 456-7890")) = false
      /\ Report [] ["(123) 456-7890"] [] [] "(123) 456-7890..."
         = Report (extract_emails "(123) 456-7890") (extract_phones "(123) 456-7890")
             (extract_skills "(123) 456-7890" PREDEFINED_SKILLS) []
             (take 500 "(123) 456-7890" +:+ "...")
      /\ String.length (take 500 "(123) 456-7890" +:+ "...") <= 503).
Proof.
  apply (analyze_resume_text_returns words "(123) 456-7890").
  vm_compute. reflexivity.
Defined.

(** *** get_text_from_file *)

Lemma split_tail_append (p name : string) :
  all_chars not_slash name = true ->
  split_at_last_slash (p +:+ name)
  = (fst (split_at_last_slash p), snd (split_at_last_slash p) +:+ name).
Proof.
  intros Hn. induction p as [|c p IH].
  - simpl. rewrite split_without_slash by exact Hn. reflexivity.
  - rewrite append_cons, !split_at_last_slash_cons, IH.
    destruct (split_at_last_slash p) as [h t]. cbn [fst snd].
    destruct h; [destruct (Ascii.eqb c "/")|]; reflexivity.
Qed.

Lemma split_concat (p : string) :
  fst (split_at_last_slash p) +:+ snd (split_at_last_slash p) = p.
Proof.
  induction p as [|c p IH]; [reflexivity|].
  rewrite split_at_last_slash_cons.
  destruct (split_at_last_slash p) as [h t]. cbn [fst snd] in *.
  destruct h; [destruct (Ascii.eqb c "/")|]; cbn [fst snd]; simpl in *; congruence.
Qed.

Lemma last_cons_nonempty (c a : ascii) (s : string) :
  last (String c (String a s)) = last (String a s).
Proof. reflexivity. Qed.

Lemma split_tail_last (p : string) (c : ascii) :
  last p = Some c -> c <> "/"%char -> last (snd (split_at_last_slash p)) = Some c.
Proof.
  intros Hl Hc. induction p as [|c0 p IH]; [discriminate|].
  rewrite split_at_last_slash_cons.
  destruct p as [|a p].
  - injection Hl as ->. cbn -[Ascii.eqb].
    apply Ascii.eqb_neq in Hc. rewrite Hc. reflexivity.
  - rewrite last_cons_nonempty in Hl. specialize (IH Hl).
    destruct (split_at_last_slash (String a p)) as [h t]. cbn [fst snd] in *.
    destruct h; [destruct (Ascii.eqb c0 "/")|]; cbn [fst snd]; try exact IH; try exact Hl.
    destruct t; [discriminate | exact IH].
Qed.

Lemma split_at_last_dot_none (ext : string) :
  all_chars extension_char ext = true -> split_at_last_dot ext = None.
Proof.
  induction ext as [|c ext IH]; [reflexivity|].
  cbn [all_chars split_at_last_dot]. intros H. apply andb_true_iff in H as [Hc He].
  rewrite IH by exact He. unfold extension_char in Hc.
  apply andb_true_iff in Hc as [Hc _]. apply negb_true_iff in Hc. rewrite Hc. reflexivity.
Qed.

Lemma split_at_dot (t ext : string) :
  all_chars extension_char ext = true ->
  split_at_last_dot (t +:+ "." +:+ ext) = Some (t, "." +:+ ext).
Proof.
  intros He. induction t as [|c t IH].
  - change ("" +:+ "." +:+ ext) with (String "." ext).
    cbn [split_at_last_dot]. rewrite split_at_last_dot_none by exact He. reflexivity.
  - rewrite append_cons. cbn [split_at_last_dot]. rewrite IH. reflexivity.
Qed.

Lemma all_chars_last (p : ascii -> bool) (s : string) (c : ascii) :
  all_chars p s = true -> last s = Some c -> p c = true.
Proof.
  induction s as [|a s IH]; [discriminate|].
  cbn [all_chars]. intros H Hl. apply andb_true_iff in H as [Ha Hs].
  destruct s as [|b s]; [injection Hl as <-; exact Ha | apply IH; assumption].
Qed.

(** The extension of [stem.ext] is [.ext], whatever directories the stem
    names, when the stem ends with a proper character. *)
Lemma splitext_stem_ext (stem ext : string) (c : ascii) :
  last stem = Some c -> c <> "."%char -> c <> "/"%char ->
  all_chars extension_char ext = true ->
  splitext (stem +:+ "." +:+ ext) = (stem, "." +:+ ext).
Proof.
  intros Hl Hdot Hslash He. unfold splitext.
  assert (Hname : all_chars not_slash ("." +:+ ext) = true).
  { change ("." +:+ ext) with (String "." ext). cbn [all_chars].
    rewrite (all_chars_impl extension_char not_slash ext); [reflexivity | | exact He].
    unfold extension_char, not_slash. intros a H. apply andb_true_iff in H. tauto. }
  rewrite (split_tail_append stem _ Hname), split_at_dot by exact He.
  destruct (all_chars (Ascii.eqb ".") (snd (split_at_last_slash stem))) eqn:Hall.
  - exfalso.
    pose proof (all_chars_last _ _ c Hall (split_tail_last stem c Hl Hslash)) as Hc'.
    apply Ascii.eqb_eq in Hc'. congruence.
  - rewrite split_concat. reflexivity.
Qed.

Lemma lower_char_keeps_dot (a : ascii) : Ascii.eqb (lower_char a) "." = Ascii.eqb a ".".
Proof. destruct a as [[] [] [] [] [] [] [] []]; vm_compute; reflexivity. Qed.

Lemma lower_char_keeps_slash (a : ascii) : Ascii.eqb (lower_char a) "/" = Ascii.eqb a "/".
Proof. destruct a as [[] [] [] [] [] [] [] []]; vm_compute; reflexivity. Qed.

Lemma lower_extension (ext : string) :
  all_chars extension_char ext = true -> all_chars extension_char (lower ext) = true.
Proof.
  induction ext as [|a ext IH]; [reflexivity|].
  cbn [lower map_chars all_chars]. intros H. apply andb_true_iff in H as [Ha He].
  fold (lower ext). rewrite IH by exact He.
  unfold extension_char in *. rewrite lower_char_keeps_dot, lower_char_keeps_slash, Ha.
  reflexivity.
Qed.

Lemma last_of_lower (s : string) (c : ascii) :
  last s = Some c -> last (lower s) = Some (lower_char c).
Proof.
  induction s as [|a s IH]; [discriminate|].
  destruct s as [|b s]; [intros [= ->]; reflexivity|].
  intros H. apply IH in H. exact H.
Qed.

Section TextExtractionProperties.

Variable faults : os_faults.
Variable pdf_pages : world -> string -> option (list page).

(** A file is read according to its extension, upper or lower case: a
    PDF by the PDF reader, a text file as it is, and anything else gives
    the empty text; a text file that cannot be read gives the empty text
    too. *)
Theorem get_text_from_file_by_extension (w : world) (stem ext : string) (c : ascii) :
  last stem = Some c -> c <> "."%char -> c <> "/"%char ->
  all_chars extension_char ext = true ->
  get_text_from_file faults pdf_pages w (stem +:+ "." +:+ ext)
  = if String.eqb (lower ext) "pdf"
    then extract_text_from_pdf pdf_pages w (stem +:+ "." +:+ ext)
    else if String.eqb (lower ext) "txt"
    then default "" (read_text faults w (stem +:+ "." +:+ ext))
    else "".
Proof.
  intros Hl Hdot Hslash He. unfold get_text_from_file. cbv zeta.
  rewrite !lower_app. change (lower ".") with ".".
  rewrite (splitext_stem_ext (lower stem) (lower ext) (lower_char c)).
  - cbn [snd]. change ("." +:+ lower ext) with (String "." (lower ext)).
    change ".pdf" with (String "." "pdf"). change ".txt" with (String "." "txt").
    cbn [String.eqb]. rewrite Ascii.eqb_refl.
    unfold extract_text_from_txt.
    destruct (read_text faults w _); reflexivity.
  - apply last_of_lower, Hl.
  - intros E. apply Ascii.eqb_eq in E. rewrite lower_char_keeps_dot in E.
    apply Ascii.eqb_eq in E. contradiction.
  - intros E. apply Ascii.eqb_eq in E. rewrite lower_char_keeps_slash in E.
    apply Ascii.eqb_eq in E. contradiction.
  - apply lower_extension, He.
Qed.

End TextExtractionProperties.

Lemma get_text_from_file_by_extension_witness :
  get_text_from_file no_faults one_page_pdf resume_world ("cv/Resume" +:+ "." +:+ "TXT")
  = if String.eqb (lower "TXT") "pdf"
    then extract_text_from_pdf one_page_pdf resume_world ("cv/Resume" +:+ "." +:+ "TXT")
    else if String.eqb (lower "TXT") "txt"
    then default "" (read_text no_faults resume_world ("cv/Resume" +:+ "." +:+ "TXT"))
    else "".
Proof.
  apply (get_text_from_file_by_extension no_faults one_page_pdf resume_world
           "cv/Resume" "TXT" "e"); try discriminate; reflexivity.
Defined.

Example get_text_from_file_sample :
  get_text_from_file no_faults one_page_pdf resume_world "cv/Resume.TXT"
  = "Skills: Python, SQL"
  /\ get_text_from_file no_faults one_page_pdf resume_world "cv/resume.docx" = ""
  /\ get_text_from_file no_faults one_page_pdf resume_world "cv/missing.txt" = "".
Proof. repeat split; vm_compute; reflexivity. Qed.

(** *** extract_text_from_pdf *)

Lemma read_pages_texts (acc : string) (texts : list string) (rest : list page) :
  Forall (fun text => text <> "") texts ->
  read_pages acc (text_pages texts ++ rest) = read_pages (acc +:+ lines_of texts) rest.
Proof.
  intros H. revert acc. induction H as [|text texts Htext _ IH]; intros acc.
  - simpl. rewrite append_empty_right. reflexivity.
  - simpl. destruct (String.eqb_spec text ""); [contradiction|].
    rewrite IH, !append_assoc. reflexivity.
Qed.

Section PdfProperties.

Variable pdf_pages : world -> string -> option (list page).

(** The text of a PDF is the text of its pages, a line break after each;
    when a page raises, the text of the pages before it is returned and
    the pages after it are not read. *)
Theorem extract_text_from_pdf_keeps_pages_read
    (w : world) (pdf_path : string) (texts : list string) (rest : list page) :
  Forall (fun text => text <> "") texts ->
  (pdf_pages w pdf_path = Some (text_pages texts) ->
   extract_text_from_pdf pdf_pages w pdf_path = lines_of texts)
  /\ (pdf_pages w pdf_path = Some (text_pages texts ++ PageRaises :: rest) ->
      extract_text_from_pdf pdf_pages w pdf_path = lines_of texts)
  /\ (pdf_pages w pdf_path = None -> extract_text_from_pdf pdf_pages w pdf_path = "").
Proof.
  intros H. unfold extract_text_from_pdf. repeat split; intros ->.
  - rewrite <- (app_nil_r (text_pages texts)), read_pages_texts by exact H. reflexivity.
  - rewrite read_pages_texts by exact H. reflexivity.
  - reflexivity.
Qed.

End PdfProperties.

Lemma extract_text_from_pdf_keeps_pages_read_witness :
  (one_page_pdf resume_world "cv/jane.pdf" = Some (text_pages ["Jane Smith"]) ->
   extract_text_from_pdf one_page_pdf resume_world "cv/jane.pdf" = lines_of ["Jane Smith"])
  /\ (one_page_pdf resume_world "cv/jane.pdf"
      = Some (text_pages ["Jane Smith"] ++ PageRaises :: []) ->
      extract_text_from_pdf one_page_pdf resume_world "cv/jane.pdf" = lines_of ["Jane Smith"])
  /\ (one_page_pdf resume_world "cv/jane.pdf" = None ->
      extract_text_from_pdf one_page_pdf resume_world "cv/jane.pdf" = "").
Proof.
  apply (extract_text_from_pdf_keeps_pages_read one_page_pdf resume_world "cv/jane.pdf"
           ["Jane Smith"] []).
  repeat constructor. discriminate.
Defined.

(** *** extract_skills, for any vocabulary *)

Lemma search_bounded_occurs (literal : string) (s : string) :
  forall before, search_bounded literal before s = true -> occurs_in literal s.
Proof.
  induction s as [|c s IH]; intros before; cbn [search_bounded];
    intros H; apply orb_true_iff in H as [H | H]; try discriminate.
  - unfold match_bounded in H. apply andb_true_iff in H as [H _].
    apply andb_true_iff in H as [_ H]. apply startswith_iff in H as [rest ->].
    exists "", rest. reflexivity.
  - unfold match_bounded in H. apply andb_true_iff in H as [H _].
    apply andb_true_iff in H as [_ H]. apply startswith_iff in H as [rest E].
    exists "", rest. exact E.
  - destruct (IH _ H) as (b & a & ->). exists (String c b), a. reflexivity.
Qed.

Lemma search_bounded_empty_text (literal : string) :
  search_bounded literal None "" = false.
Proof. unfold search_bounded, match_bounded. reflexivity. Qed.

(** For texts and entries of code points 0 to 255, and a vocabulary whose
    entries have the capital of their first character within that range:
    no skill is returned twice; every skill returned is the capitalized
    form of an entry whose lower-case form occurs in the lower-cased
    text; and the empty text has no skills. *)
Theorem extract_skills_within_vocabulary (text : string) (skill_list : list string) :
  Forall (fun skill => capital_in_range skill = true) skill_list ->
  NoDup (extract_skills text skill_list)
  /\ (forall x, In x (extract_skills text skill_list) ->
        exists skill, In skill skill_list /\ capital_in_range skill = true
                      /\ x = capitalize skill
                      /\ occurs_in (lower skill) (lower text))
  /\ extract_skills "" skill_list = [].
Proof.
  intros Hrange.
  split; [unfold extract_skills; apply NoDup_elements|]. split.
  - intros x Hx. apply extract_skills_spec in Hx as (skill & Hin & Hs & ->).
    exists skill. repeat split; auto.
    + rewrite Forall_forall in Hrange. apply Hrange, list_elem_of_In, Hin.
    + apply (search_bounded_occurs _ _ None Hs).
  - unfold extract_skills.
    assert (found_skills "" skill_list = ∅) as ->; [|apply elements_empty].
    apply set_eq. intros x. rewrite found_skills_spec. split.
    + intros (skill & _ & Hs & _). unfold re_search_bounded in Hs.
      change (lower "") with "" in Hs. rewrite search_bounded_empty_text in Hs.
      discriminate.
    + intros H. exfalso. revert H. apply not_elem_of_empty.
Qed.

Lemma extract_skills_within_vocabulary_witness :
  NoDup (extract_skills "Rust and Go, mostly rust" ["rust"; "go"; "zig"])
  /\ (forall x, In x (extract_skills "Rust and Go, mostly rust" ["rust"; "go"; "zig"]) ->
        exists skill, In skill ["rust"; "go"; "zig"] /\ capital_in_range skill = true
                      /\ x = capitalize skill
                      /\ occurs_in (lower skill) (lower "Rust and Go, mostly rust"))
  /\ extract_skills "" ["rust"; "go"; "zig"] = [].
Proof.
  apply (extract_skills_within_vocabulary "Rust and Go, mostly rust" ["rust"; "go"; "zig"]).
  repeat constructor.
Defined.

(** *** The fenced block of a response *)

Lemma search_fenced_json_cons (c : ascii) (s : string) :
  search_fenced_json (String c s)
  = match match_fenced_json (String c s) with
    | Some g => Some g
    | None => search_fenced_json s
    end.
Proof. reflexivity. Qed.

Lemma lazy_body_cons (c : ascii) (s : string) :
  lazy_body (String c s)
  = if Ascii.eqb c "}" && startswith (lstrip s) fence
    then Some (String c EmptyString)
    else option_map (String c) (lazy_body s).
Proof. reflexivity. Qed.

Lemma match_fenced_json_needs_fence (c : ascii) (s : string) :
  not_backquote c = true -> match_fenced_json (String c s) = None.
Proof.
  unfold not_backquote, match_fenced_json, fence. intros H.
  rewrite startswith_cons, Ascii.eqb_sym.
  apply negb_true_iff in H. rewrite H. reflexivity.
Qed.

Lemma search_skips_prose (prose rest : string) :
  all_chars not_backquote prose = true ->
  search_fenced_json (prose +:+ rest) = search_fenced_json rest.
Proof.
  induction prose as [|c prose IH]; [reflexivity|].
  cbn [all_chars]. intros H. apply andb_true_iff in H as [Hc H].
  rewrite append_cons, search_fenced_json_cons, match_fenced_json_needs_fence by exact Hc.
  exact (IH H).
Qed.

Lemma lstrip_gap (gap rest : string) :
  all_chars isspace gap = true -> lstrip (gap +:+ rest) = lstrip rest.
Proof.
  induction gap as [|c gap IH]; [reflexivity|].
  cbn [all_chars]. intros H. apply andb_true_iff in H as [Hc H].
  rewrite append_cons. cbn [lstrip]. rewrite Hc. exact (IH H).
Qed.

Lemma lstrip_fence (rest : string) : lstrip (fence +:+ rest) = fence +:+ rest.
Proof. reflexivity. Qed.

Lemma no_fence_ahead (x y : string) :
  all_chars not_backquote x = true ->
  startswith (lstrip (x +:+ String "}" y)) fence = false.
Proof.
  induction x as [|c x IH]; [reflexivity|].
  cbn [all_chars]. intros H. apply andb_true_iff in H as [Hc H].
  rewrite append_cons. cbn [lstrip]. destruct (isspace c); [exact (IH H)|].
  unfold fence. rewrite startswith_cons, Ascii.eqb_sym.
  unfold not_backquote in Hc. apply negb_true_iff in Hc. rewrite Hc. reflexivity.
Qed.

Lemma lazy_body_stops_at_fence (inner gap rest : string) :
  all_chars not_backquote inner = true ->
  all_chars isspace gap = true ->
  lazy_body (inner +:+ String "}" (gap +:+ fence +:+ rest)) = Some (inner +:+ "}").
Proof.
  intros Hinner Hgap. induction inner as [|c inner IH].
  - change ("" +:+ String "}" (gap +:+ fence +:+ rest))
      with (String "}" (gap +:+ fence +:+ rest)).
    rewrite lazy_body_cons, lstrip_gap, lstrip_fence by exact Hgap.
    rewrite Ascii.eqb_refl, startswith_app. reflexivity.
  - cbn [all_chars] in Hinner. apply andb_true_iff in Hinner as [_ Hinner].
    rewrite append_cons, lazy_body_cons, no_fence_ahead by exact Hinner.
    rewrite andb_false_r, (IH Hinner). reflexivity.
Qed.

Lemma lower_length (s : string) : String.length (lower s) = String.length s.
Proof. induction s as [|c s IH]; [reflexivity|]. simpl. f_equal. exact IH. Qed.

Lemma match_fenced_json_block (tag gap inner gap' post : string) :
  lower tag = "json" ->
  all_chars isspace gap = true ->
  all_chars not_backquote inner = true ->
  all_chars isspace gap' = true ->
  match_fenced_json
    (fence +:+ tag +:+ gap +:+ String "{" (inner +:+ String "}" (gap' +:+ fence +:+ post)))
  = Some (String "{" (inner +:+ "}")).
Proof.
  intros Htag Hgap Hinner Hgap'.
  pose proof (lower_length tag) as Hlen. rewrite Htag in Hlen.
  destruct tag as [|a [|b [|c [|d [|e tag]]]]]; try discriminate Hlen.
  unfold match_fenced_json.
  change (drop 7 (fence +:+ String a (String b (String c (String d "")))
                  +:+ gap +:+ String "{" (inner +:+ String "}" (gap' +:+ fence +:+ post))))
    with (gap +:+ String "{" (inner +:+ String "}" (gap' +:+ fence +:+ post))).
  change (take 4 (drop 3 (fence +:+ String a (String b (String c (String d "")))
                  +:+ gap +:+ String "{" (inner +:+ String "}" (gap' +:+ fence +:+ post)))))
    with (String a (String b (String c (String d "")))).
  rewrite Htag, startswith_app.
  rewrite lstrip_gap by exact Hgap. cbn [lstrip andb].
  change (isspace "{") with false. cbn iota.
  rewrite lazy_body_stops_at_fence by assumption. reflexivity.
Qed.

(** A response without a backquote is handed to the decoder as it is. *)
Theorem json_source_without_fence (response_text : string) :
  all_chars not_backquote response_text = true ->
  json_source response_text = response_text.
Proof.
  intros H. unfold json_source.
  rewrite <- (append_empty_right response_text) at 1.
  rewrite search_skips_prose by exact H. reflexivity.
Qed.

Lemma json_source_without_fence_witness :
  json_source "{}" = "{}".
Proof. apply (json_source_without_fence "{}"). reflexivity. Defined.

(** A block fenced by three backquotes and the tag json, in any case, is
    taken out of the prose around it: the decoder gets the braces and what
    is between them, when neither the prose before the block nor the text
    between the braces holds a backquote. *)
Theorem json_source_takes_fenced_block (prose tag gap inner gap' post : string) :
  all_chars not_backquote prose = true ->
  lower tag = "json" ->
  all_chars isspace gap = true ->
  all_chars not_backquote inner = true ->
  all_chars isspace gap' = true ->
  json_source
    (prose +:+ fence +:+ tag +:+ gap +:+ "{" +:+ inner +:+ "}" +:+ gap' +:+ fence +:+ post)
  = "{" +:+ inner +:+ "}".
Proof.
  intros Hprose Htag Hgap Hinner Hgap'. unfold json_source.
  rewrite search_skips_prose by exact Hprose.
  assert (search_fenced_json
            (fence +:+ tag +:+ gap +:+ "{" +:+ inner +:+ "}" +:+ gap' +:+ fence +:+ post)
          = Some ("{" +:+ inner +:+ "}")) as ->; [|reflexivity].
  change (fence +:+ tag +:+ gap +:+ "{" +:+ inner +:+ "}" +:+ gap' +:+ fence +:+ post)
    with (String "`" (String "`" (String "`"
            (tag +:+ gap +:+ "{" +:+ inner +:+ "}" +:+ gap' +:+ fence +:+ post)))).
  rewrite search_fenced_json_cons.
  change (String "`" (String "`" (String "`"
            (tag +:+ gap +:+ "{" +:+ inner +:+ "}" +:+ gap' +:+ fence +:+ post))))
    with (fence +:+ tag +:+ gap
          +:+ String "{" (inner +:+ String "}" (gap' +:+ fence +:+ post))).
  rewrite match_fenced_json_block by assumption. reflexivity.
Qed.

Lemma json_source_takes_fenced_block_witness :
  json_source
    ("Here it is: " +:+ fence +:+ "JSON" +:+ newline +:+ "{" +:+ "}" +:+ "}" +:+ newline
     +:+ fence +:+ " Done.")
  = "{" +:+ "}" +:+ "}".
Proof.
  apply (json_source_takes_fenced_block "Here it is: " "JSON" newline "}" newline " Done.");
    reflexivity.
Defined.

(** *** main *)

Lemma last_append_nonempty (a : string) (c : ascii) (b : string) :
  last (a +:+ String c b) = last (String c b).
Proof.
  induction a as [|x a IH]; [reflexivity|].
  rewrite append_cons.
  destruct (a +:+ String c b) eqn:E; [destruct a; discriminate|].
  rewrite last_cons_nonempty. exact IH.
Qed.

Lemma head_not_slash (name : string) :
  all_chars not_slash name = true -> head name <> Some "/"%char.
Proof.
  destruct name as [|c name]; [discriminate|].
  cbn [all_chars head]. intros H [= ->]. discriminate.
Qed.

Lemma safe_not_slash (c : ascii) : filename_safe c = true -> not_slash c = true.
Proof.
  unfold filename_safe, not_slash. intros H.
  apply andb_true_iff in H as [H _]. apply negb_true_iff in H.
  apply negb_true_iff. apply Ascii.eqb_neq. intros ->. discriminate.
Qed.

Lemma sanitized_no_slash (filename : string) :
  all_chars not_slash (sanitize_filename filename) = true.
Proof. eapply all_chars_impl; [apply safe_not_slash | apply sanitized_safe]. Qed.

Lemma dirname_basename_join (d name : string) (c : ascii) :
  last d = Some c -> c <> "/"%char ->
  all_chars not_slash name = true ->
  path_join d name = d +:+ "/" +:+ name
  /\ dirname (path_join d name) = d
  /\ basename (path_join d name) = name.
Proof.
  intros Hl Hc Hname.
  rewrite (path_join_plain d name c Hl Hc (head_not_slash name Hname)).
  unfold dirname, basename. rewrite (split_at_slash d name Hname). cbn [fst snd].
  destruct (rstrip_slashes_kept d c Hl Hc) as [-> ->]. auto.
Qed.

Lemma makedirs_files (faults : os_faults) (w w' : world) (path : string) :
  makedirs faults w path = Some w' -> files w' = files w.
Proof.
  unfold makedirs.
  repeat match goal with
         | |- context [if ?b then _ else _] => destruct b; try discriminate
         end.
  intros [= <-]. reflexivity.
Qed.

Lemma makedirs_dirs (faults : os_faults) (w w' : world) (path : string) :
  makedirs faults w path = Some w' -> dirs w' = {[ path ]} ∪ dirs w.
Proof.
  unfold makedirs.
  repeat match goal with
         | |- context [if ?b then _ else _] => destruct b; try discriminate
         end.
  intros [= <-]. reflexivity.
Qed.

Lemma write_text_elsewhere (faults : os_faults) (w : world) (target content path : string) :
  path <> target ->
  files (snd (write_text faults w target content)) !! path = files w !! path.
Proof.
  intros Hne. unfold write_text.
  repeat match goal with
         | |- context [if ?b then _ else _] => destruct b; simpl; try reflexivity
         end;
    apply lookup_insert_ne; congruence.
Qed.

Lemma modify_elsewhere
    (faults : os_faults) (w : world) (template_path output_path path : string)
    (extracted_data : listing) :
  path <> output_path ->
  files (snd (modify_latex_template faults w template_path output_path extracted_data))
    !! path
  = files w !! path.
Proof.
  intros Hne. unfold modify_latex_template.
  destruct (read_text faults w template_path); [|reflexivity].
  destruct (makedirs _ _ _) as [w1|] eqn:Hm; [|reflexivity].
  rewrite write_text_elsewhere by exact Hne.
  rewrite (makedirs_files _ _ _ _ Hm). reflexivity.
Qed.


Section PipelineProperties.

Variable soup : Type.
Variable requests_get : string -> option response.
Variable BeautifulSoup : string -> option soup.
Variable get_clean_text_from_html : soup -> string.
Variable generate_content : string -> option string.
Variable json_loads : string -> option pyval.
Variable faults : os_faults.
Variable subprocess_run : list string -> string -> world -> run_outcome.
Variable remove_fails : string -> bool.
Variable str_format : string -> list (string * string) -> option string.
Variable BASE_DIR : string.
Variable timestamp : string.

Let run := main soup requests_get BeautifulSoup get_clean_text_from_html generate_content
             json_loads faults subprocess_run remove_fails str_format BASE_DIR timestamp.

Let extract := extract_data_with_gemini generate_content json_loads.


Lemma extract_list_field (text_content url k : string) :
  In k list_fields ->
  exists items, dict_get (PStr k) (extract text_content url) = Some (PList items).
Proof.
  intros Hk.
  destruct (extract_cases generate_content json_loads text_content url)
    as [E | (text & v & d & _ & _ & _ & E)]; unfold extract; rewrite E.
  - simpl in Hk. destruct Hk as [<-|[<-|[]]]; simpl; eauto.
  - rewrite !reset_unless_list_get.
    simpl in Hk. destruct Hk as [<-|[<-|[]]]; simpl.
    + destruct (dict_get (PStr "required_skills") d) as [[]|]; eauto.
    + destruct (dict_get (PStr "emails") d) as [[]|]; eauto.
Qed.

(** When the page cannot be had -- the request raises, the status is an
    error, the content type does not mention html, or the body is empty --
    the run ends without an error and leaves every file and directory as
    it was. *)
Theorem main_needs_html_page (job_url : string) (cleanup : bool) (w : world) :
  (forall r, requests_get job_url = Some r ->
     status_raises r = true
     \/ contains "html" (lower (default "" (content_type r))) = false
     \/ text r = "") ->
  run job_url cleanup w = Ok w.
Proof.
  intros H. unfold run, main, scrape_url.
  destruct (requests_get job_url) as [r|]; [|reflexivity].
  destruct (H r eq_refl) as [-> | [Hc | Ht]]; [reflexivity|..].
  - destruct (status_raises r); [reflexivity|]. cbv zeta. rewrite Hc. reflexivity.
  - destruct (status_raises r); [reflexivity|]. cbv zeta.
    destruct (negb _); [reflexivity|].
    destruct (BeautifulSoup _); [|reflexivity].
    rewrite Ht. reflexivity.
Qed.


Section OutputPaths.

Variable c : ascii.
Hypothesis BASE_DIR_last : last BASE_DIR = Some c.
Hypothesis BASE_DIR_no_trailing_slash : c <> "/"%char.
Hypothesis timestamp_plain : all_chars not_slash timestamp = true.

Lemma output_dir_joined (x : ascii) (rest : string) :
  all_chars not_slash (String x rest) = true ->
  path_join (path_join BASE_DIR "output") (String x rest)
  = BASE_DIR +:+ "/output/" +:+ String x rest.
Proof.
  intros H.
  destruct (dirname_basename_join BASE_DIR "output" c BASE_DIR_last
              BASE_DIR_no_trailing_slash eq_refl) as (-> & _ & _).
  assert (Hl : last (BASE_DIR +:+ "/" +:+ "output") = Some "t"%char).
  { apply (last_append_nonempty BASE_DIR "/" "output"). }
  assert (Ht : "t"%char <> "/"%char) by discriminate.
  destruct (dirname_basename_join _ (String x rest) _ Hl Ht H) as (-> & _ & _).
  rewrite !append_assoc. reflexivity.
Qed.

Lemma base_filename_no_slash (extracted_data : listing) :
  all_chars not_slash (base_filename timestamp extracted_data) = true.
Proof.
  unfold base_filename. cbv zeta.
  rewrite !all_chars_append, !sanitized_no_slash, timestamp_plain. reflexivity.
Qed.

Lemma output_file_in_dir (directory name : string) (x : ascii) :
  last directory = Some x -> x <> "/"%char ->
  all_chars not_slash name = true ->
  forall extracted_data,
    dirname (path_join directory (base_filename timestamp extracted_data +:+ name))
    = directory
    /\ basename (path_join directory (base_filename timestamp extracted_data +:+ name))
       = base_filename timestamp extracted_data +:+ name.
Proof.
  intros Hl Hx Hname extracted_data.
  apply (dirname_basename_join directory _ x Hl Hx).
  rewrite all_chars_append, base_filename_no_slash, Hname. reflexivity.
Qed.

Lemma RESUME_OUTPUT_DIR_last : last (RESUME_OUTPUT_DIR BASE_DIR) = Some "s"%char.
Proof.
  unfold RESUME_OUTPUT_DIR. rewrite (output_dir_joined "r" "esumes" eq_refl).
  apply (last_append_nonempty BASE_DIR "/" "output/resumes").
Qed.

Lemma EMAIL_OUTPUT_DIR_last : last (EMAIL_OUTPUT_DIR BASE_DIR) = Some "s"%char.
Proof.
  unfold EMAIL_OUTPUT_DIR. rewrite (output_dir_joined "e" "mails" eq_refl).
  apply (last_append_nonempty BASE_DIR "/" "output/emails").
Qed.

Lemma output_paths_split (extracted_data : listing) :
  dirname (output_tex_path BASE_DIR timestamp extracted_data) = RESUME_OUTPUT_DIR BASE_DIR
  /\ basename (output_tex_path BASE_DIR timestamp extracted_data)
     = base_filename timestamp extracted_data +:+ ".tex"
  /\ dirname (output_email_path BASE_DIR timestamp extracted_data)
     = EMAIL_OUTPUT_DIR BASE_DIR
  /\ basename (output_email_path BASE_DIR timestamp extracted_data)
     = base_filename timestamp extracted_data +:+ "_email.txt".
Proof.
  unfold output_tex_path, output_email_path.
  destruct (output_file_in_dir (RESUME_OUTPUT_DIR BASE_DIR) ".tex" "s"
              RESUME_OUTPUT_DIR_last ltac:(discriminate) eq_refl extracted_data) as [-> ->].
  destruct (output_file_in_dir (EMAIL_OUTPUT_DIR BASE_DIR) "_email.txt" "s"
              EMAIL_OUTPUT_DIR_last ltac:(discriminate) eq_refl extracted_data) as [-> ->].
  auto.
Qed.

(** Whatever the title and the company are, the resume and the email
    draft are files of the two output directories themselves: the names
    made of them hold no slash. *)
Theorem output_paths_stay_in_output_dirs (extracted_data : listing) :
  dirname (output_tex_path BASE_DIR timestamp extracted_data) = RESUME_OUTPUT_DIR BASE_DIR
  /\ basename (output_tex_path BASE_DIR timestamp extracted_data)
     = base_filename timestamp extracted_data +:+ ".tex"
  /\ dirname (output_email_path BASE_DIR timestamp extracted_data)
     = EMAIL_OUTPUT_DIR BASE_DIR
  /\ basename (output_email_path BASE_DIR timestamp extracted_data)
     = base_filename timestamp extracted_data +:+ "_email.txt".
Proof. apply output_paths_split. Qed.

Lemma compile_elsewhere (w : world) (tex_filepath path : string) :
  leaves_alone subprocess_run path ->
  files (snd (compile_latex_to_pdf subprocess_run w tex_filepath)) !! path
  = files w !! path.
Proof.
  intros Hrun. unfold compile_latex_to_pdf.
  destruct (negb _); [reflexivity|]. cbv zeta.
  destruct (subprocess_run _ _ w) as [result after | e] eqn:E.
  - pose proof (Hrun _ _ _ _ _ E) as H.
    destruct (negb _); [exact H|]. destruct (path_exists _ _); exact H.
  - destruct e; reflexivity.
Qed.

Lemma cleanup_elsewhere (w : world) (extracted_data : listing) (path : string) :
  dirname path <> RESUME_OUTPUT_DIR BASE_DIR ->
  files (cleanup_latex_aux_files remove_fails w (RESUME_OUTPUT_DIR BASE_DIR)
           (base_filename timestamp extracted_data)) !! path
  = files w !! path.
Proof.
  intros Hdir. unfold cleanup_latex_aux_files.
  destruct (remove_aux_files_effect remove_fails (RESUME_OUTPUT_DIR BASE_DIR)
              (base_filename timestamp extracted_data) extensions_to_remove w path)
    as [_ [H | [_ Hin]]]; [exact H|].
  exfalso. apply Hdir. apply in_map_iff in Hin as (ext & <- & Hext).
  apply (output_file_in_dir (RESUME_OUTPUT_DIR BASE_DIR) ext "s"
           RESUME_OUTPUT_DIR_last ltac:(discriminate)).
  simpl in Hext. repeat (destruct Hext as [<- | Hext]; [reflexivity|]). contradiction.
Qed.

Lemma tailor_resume_elsewhere (cleanup : bool) (w : world) (extracted_data : listing)
    (path : string) :
  dirname path <> RESUME_OUTPUT_DIR BASE_DIR ->
  leaves_alone subprocess_run path ->
  files (snd (tailor_resume faults subprocess_run remove_fails BASE_DIR timestamp
                cleanup w extracted_data)) !! path
  = files w !! path.
Proof.
  intros Hdir Hrun. unfold tailor_resume. cbv zeta.
  assert (Hne : path <> output_tex_path BASE_DIR timestamp extracted_data).
  { intros ->. apply Hdir. apply (proj1 (output_paths_split extracted_data)). }
  pose proof (modify_elsewhere faults w (LATEX_TEMPLATE_PATH BASE_DIR)
                (output_tex_path BASE_DIR timestamp extracted_data) path extracted_data Hne)
    as Hm.
  destruct (modify_latex_template _ _ _ _ _) as [latex_success w1]. cbn [snd] in Hm.
  destruct latex_success; [|exact Hm].
  pose proof (compile_elsewhere w1 (output_tex_path BASE_DIR timestamp extracted_data)
                path Hrun) as Hc.
  destruct (compile_latex_to_pdf _ _ _) as [pdf_success w2]. cbn [snd] in Hc.
  destruct pdf_success; cbn [snd]; [|congruence].
  destruct cleanup; [|congruence].
  rewrite cleanup_elsewhere by exact Hdir. congruence.
Qed.

Lemma draft_email_elsewhere (pdf_path : option string) (w : world)
    (extracted_data : listing) (path : string) :
  dirname path <> EMAIL_OUTPUT_DIR BASE_DIR ->
  files (draft_email faults str_format BASE_DIR timestamp pdf_path w extracted_data)
    !! path
  = files w !! path.
Proof.
  intros Hdir. unfold draft_email.
  assert (Hne : path <> output_email_path BASE_DIR timestamp extracted_data).
  { intros ->. apply Hdir. apply (proj1 (proj2 (proj2 (output_paths_split extracted_data)))). }
  destruct (generate_email _ _ _ _ _) as [[|x email_text]|]; try reflexivity.
  cbv zeta. destruct (makedirs _ _ _) as [w1|] eqn:Hm; [|reflexivity].
  rewrite write_text_elsewhere by exact Hne.
  rewrite (makedirs_files _ _ _ _ Hm). reflexivity.
Qed.

(** A run changes no file outside the two output directories, unless the
    compiler does: the files it writes and the files it removes are files
    of [output/resumes] and [output/emails] themselves.  The templates, in
    particular, are left as they were. *)
Theorem main_changes_output_dirs_only
    (job_url : string) (cleanup : bool) (w w' : world) (path : string) :
  dirname path <> RESUME_OUTPUT_DIR BASE_DIR ->
  dirname path <> EMAIL_OUTPUT_DIR BASE_DIR ->
  leaves_alone subprocess_run path ->
  run job_url cleanup w = Ok w' ->
  files w' !! path = files w !! path.
Proof.
  intros Hresume Hemail Hrun. unfold run, main.
  destruct (scrape_url _ _ _ _) as [[page html_content]|]; [|intros [= <-]; reflexivity].
  destruct (String.eqb html_content ""); [intros [= <-]; reflexivity|].
  cbv zeta.
  destruct (String.eqb _ ""); [intros [= <-]; reflexivity|].
  unfold mbind, result_bind.
  destruct (typed_record _) as [extracted_data|e]; [|discriminate].
  pose proof (tailor_resume_elsewhere cleanup w extracted_data path Hresume Hrun) as Ht.
  destruct (tailor_resume _ _ _ _ _ _ _ _) as [pdf_path w1]. cbn [snd] in Ht.
  intros [= <-]. rewrite draft_email_elsewhere by exact Hemail. exact Ht.
Qed.

End OutputPaths.

(** When the resume template cannot be read, the email draft is written
    all the same, without the mention of a PDF, and it is the only file
    that changes. *)
Theorem main_drafts_email_without_resume
    (job_url : string) (cleanup : bool) (w : world) (page : soup)
    (html_content email_text : string) (extracted_data : listing) :
  scrape_url soup requests_get BeautifulSoup job_url = Some (page, html_content) ->
  html_content <> "" ->
  get_clean_text_from_html page <> "" ->
  typed_record (extract (get_clean_text_from_html page) job_url) = Ok extracted_data ->
  read_text faults w (LATEX_TEMPLATE_PATH BASE_DIR) = None ->
  generate_email faults str_format w (EMAIL_TEMPLATE_PATH BASE_DIR) extracted_data
  = Some email_text ->
  email_text <> "" ->
  is_Some (makedirs faults w
             (dirname (output_email_path BASE_DIR timestamp extracted_data))) ->
  open_for_write_fails faults (output_email_path BASE_DIR timestamp extracted_data)
  = false ->
  write_fails faults (output_email_path BASE_DIR timestamp extracted_data) = false ->
  run job_url cleanup w
  = Ok {| files := <[ output_email_path BASE_DIR timestamp extracted_data := email_text ]>
                     (files w);
          dirs := {[ dirname (output_email_path BASE_DIR timestamp extracted_data) ]}
                  ∪ dirs w |}.
Proof.
  intros Hscrape Hhtml Hclean Htyped Hread Hemail Htext [w1 Hdirs] Hopen Hwrite.
  unfold run, main. rewrite Hscrape.
  apply String.eqb_neq in Hhtml, Hclean. rewrite Hhtml, Hclean. cbv zeta.
  unfold extract in Htyped. unfold mbind, result_bind. rewrite Htyped.
  unfold tailor_resume, modify_latex_template. cbv zeta. rewrite Hread.
  unfold draft_email. rewrite Hemail.
  destruct email_text as [|x email_text]; [contradiction|].
  cbv zeta. rewrite Hdirs. unfold write_text. rewrite Hopen, Hwrite. cbn [snd].
  rewrite (makedirs_files _ _ _ _ Hdirs), (makedirs_dirs _ _ _ _ Hdirs). reflexivity.
Qed.

End PipelineProperties.

Lemma main_needs_html_page_witness :
  main string (fetch pdf_response) parse visible_text (respond object_response)
    sample_json_loads no_faults run_without_output remove_never_fails format_plain
    "/app" sample_timestamp "https://example.org/job.pdf" true app_world
  = Ok app_world.
Proof.
  apply (main_needs_html_page string (fetch pdf_response) parse visible_text
           (respond object_response) sample_json_loads no_faults run_without_output
           remove_never_fails format_plain "/app" sample_timestamp
           "https://example.org/job.pdf" true app_world).
  intros r [= <-]. right. left. reflexivity.
Defined.


Lemma output_paths_stay_in_output_dirs_witness :
  dirname (output_tex_path "/app" sample_timestamp (as_dict sample_listing))
  = RESUME_OUTPUT_DIR "/app"
  /\ basename (output_tex_path "/app" sample_timestamp (as_dict sample_listing))
     = base_filename sample_timestamp (as_dict sample_listing) +:+ ".tex"
  /\ dirname (output_email_path "/app" sample_timestamp (as_dict sample_listing))
     = EMAIL_OUTPUT_DIR "/app"
  /\ basename (output_email_path "/app" sample_timestamp (as_dict sample_listing))
     = base_filename sample_timestamp (as_dict sample_listing) +:+ "_email.txt".
Proof.
  apply (output_paths_stay_in_output_dirs "/app" sample_timestamp "p").
  - reflexivity.
  - discriminate.
  - reflexivity.
Defined.

Example output_paths_of_hostile_names :
  output_tex_path "/app" sample_timestamp
    {| job_title := Some "../../etc/passwd"; company_name := Some "A/B";
       job_description := None; required_skills := None; emails := None |}
  = "/app/output/resumes/AB_....etcpasswd_20250101_120000.tex".
Proof. vm_compute. reflexivity. Qed.

Lemma main_changes_output_dirs_only_witness :
  match
    main string (fetch html_response) parse visible_text (respond object_response)
      sample_json_loads no_faults run_without_output remove_never_fails format_plain
      "/app" sample_timestamp "https://example.org/job" true app_world
  with
  | Ok w' =>
      files w' !! "/app/templates/email/cold_email_template.txt"
      = files app_world !! "/app/templates/email/cold_email_template.txt"
  | Raise _ => False
  end.
Proof.
  destruct (main string (fetch html_response) parse visible_text (respond object_response)
              sample_json_loads no_faults run_without_output remove_never_fails
              format_plain "/app" sample_timestamp "https://example.org/job" true
              app_world) as [w'|e] eqn:E.
  - apply (main_changes_output_dirs_only string (fetch html_response) parse visible_text
             (respond object_response) sample_json_loads no_faults run_without_output
             remove_never_fails format_plain "/app" sample_timestamp "p"
             eq_refl ltac:(discriminate) eq_refl
             "https://example.org/job" true app_world w'
             "/app/templates/email/cold_email_template.txt").
    + intros H. vm_compute in H. discriminate H.
    + intros H. vm_compute in H. discriminate H.
    + intros command cwd w result after [= _ <-]. reflexivity.
    + exact E.
  - vm_compute in E. discriminate E.
Defined.

Lemma main_drafts_email_without_resume_witness :
  main string (fetch html_response) parse visible_text (respond object_response)
    sample_json_loads no_faults run_without_output remove_never_fails format_plain
    "/app" sample_timestamp "https://example.org/job" true app_world
  = Ok {| files := <[ output_email_path "/app" sample_timestamp engineer_listing
                      := "My attached resume provides details." ]> (files app_world);
          dirs := {[ dirname (output_email_path "/app" sample_timestamp engineer_listing) ]}
                  ∪ dirs app_world |}.
Proof.
  apply (main_drafts_email_without_resume string (fetch html_response) parse visible_text
           (respond object_response) sample_json_loads no_faults run_without_output
           remove_never_fails format_plain "/app" sample_timestamp
           "https://example.org/job" true app_world
           (text html_response) (text html_response)
           "My attached resume provides details." engineer_listing).
  - reflexivity.
  - discriminate.
  - discriminate.
  - vm_compute. reflexivity.
  - vm_compute. reflexivity.
  - vm_compute. reflexivity.
  - discriminate.
  - vm_compute. eauto.
  - reflexivity.
  - reflexivity.
Defined.

(** *** extract_keywords, when it returns *)

Section KeywordResults.

Variable word_tokenize : string -> list string.

(** As the module stands, a call that returns never returns a keyword:
    the list is empty, and the text was empty or had no alphabetic
    token. *)
Theorem extract_keywords_returns_no_keyword
    (text : string) (num_keywords : Z) (keywords : list string) :
  extract_keywords word_tokenize text num_keywords = Ok keywords ->
  keywords = []
  /\ (text = "" \/ existsb isalpha (word_tokenize (lower text)) = false).
Proof.
  unfold extract_keywords, extract_keywords_with, stop_words.
  destruct (String.eqb_spec text "") as [-> | Hne].
  - intros [= <-]. auto.
  - cbv zeta. rewrite filtered_tokens_unbound.
    destruct (existsb isalpha _); [discriminate|].
    unfold most_common. intros [= <-]. split; [|auto].
    destruct (Z.to_nat num_keywords); reflexivity.
Qed.

End KeywordResults.

Lemma extract_keywords_returns_no_keyword_witness :
  @nil string = []
  /\ ("2024 - 2025" = "" \/ existsb isalpha (words (lower "2024 - 2025")) = false).
Proof.
  apply (extract_keywords_returns_no_keyword words "2024 - 2025" 10 []).
  reflexivity.
Defined.

(** *** compile_latex_to_pdf on a source named [stem.tex] *)

Lemma extension_char_no_dot (c : ascii) :
  extension_char c = true -> negb (Ascii.eqb "." c) = true.
Proof.
  unfold extension_char. intros H. apply andb_true_iff in H as [H _].
  rewrite Ascii.eqb_sym. exact H.
Qed.

Lemma extension_char_not_slash (c : ascii) : extension_char c = true -> not_slash c = true.
Proof.
  unfold extension_char, not_slash. intros H. apply andb_true_iff in H as [_ H]. exact H.
Qed.

(** For a source [d/stem.tex] whose stem holds neither a dot nor a slash,
    the path that is tested is the artifact. *)
Lemma checked_path_is_artifact (d stem : string) (c : ascii) :
  last d = Some c -> c <> "/"%char ->
  stem <> "" ->
  all_chars extension_char stem = true ->
  pdf_filepath (d +:+ "/" +:+ stem +:+ ".tex") = d +:+ "/" +:+ stem +:+ ".pdf"
  /\ artifact (d +:+ "/" +:+ stem +:+ ".tex") = d +:+ "/" +:+ stem +:+ ".pdf".
Proof.
  intros Hl Hc Hstem Hchars.
  assert (Hslash : all_chars not_slash stem = true).
  { eapply all_chars_impl; [apply extension_char_not_slash | exact Hchars]. }
  assert (Hdot : all_chars (fun a => negb (Ascii.eqb "." a)) stem = true).
  { eapply all_chars_impl; [apply extension_char_no_dot | exact Hchars]. }
  assert (Htex : all_chars not_slash (stem +:+ ".tex") = true).
  { rewrite all_chars_append, Hslash. reflexivity. }
  assert (Hpdf : all_chars not_slash (stem +:+ ".pdf") = true).
  { rewrite all_chars_append, Hslash. reflexivity. }
  destruct (dirname_basename_join d (stem +:+ ".tex") c Hl Hc Htex) as (Hj & Hd & Hb).
  destruct (dirname_basename_join d (stem +:+ ".pdf") c Hl Hc Hpdf) as (Hj' & _ & _).
  unfold pdf_filepath, artifact. rewrite <- Hj, Hd, Hb. split.
  - rewrite replace_tex_suffix, replace_nonempty, replace_from_absent by exact Hdot.
    exact Hj'.
  - destruct stem as [|x stem]; [contradiction|].
    destruct (last_is_some x stem) as [z Hz].
    pose proof (all_chars_last _ _ z Hchars Hz) as Hzc.
    unfold extension_char in Hzc. apply andb_true_iff in Hzc as [Hz1 Hz2].
    apply negb_true_iff, Ascii.eqb_neq in Hz1, Hz2.
    change (String x stem +:+ ".tex") with (String x stem +:+ "." +:+ "tex").
    rewrite (splitext_stem_ext (String x stem) "tex" z Hz Hz1 Hz2 eq_refl).
    exact Hj'.
Qed.

Section CompilerOnPlainSources.

Variable subprocess_run : list string -> string -> world -> run_outcome.

(** For such a source the function does what the specification says of
    the artifact. *)
Lemma compile_plain_source_needs_artifact
    (w : world) (d stem : string) (c : ascii) :
  last d = Some c -> c <> "/"%char ->
  stem <> "" ->
  all_chars extension_char stem = true ->
  let tex_filepath := d +:+ "/" +:+ stem +:+ ".tex" in
  let outcome := compile_latex_to_pdf subprocess_run w tex_filepath in
  let run := subprocess_run (pdflatex_command tex_filepath) (dirname tex_filepath) w in
  (fst outcome = true ->
     exists result after,
       run = Completed result after
       /\ returncode result = 0%Z
       /\ path_exists after (artifact tex_filepath) = true)
  /\ (forall result after,
        run = Completed result after ->
        returncode result = 0%Z ->
        path_exists after (artifact tex_filepath) = false ->
        fst outcome = false)
  /\ (forall e, run = RunRaises e -> outcome = (false, w))
  /\ (forall result after,
        path_exists w tex_filepath = true ->
        run = Completed result after ->
        returncode result = 0%Z ->
        path_exists after (artifact tex_filepath) = true ->
        outcome = (true, after)).
Proof.
  intros Hl Hc Hstem Hchars. cbv zeta.
  destruct (checked_path_is_artifact d stem c Hl Hc Hstem Hchars) as [Hp Ha].
  rewrite Ha, <- Hp.
  apply compile_outcome_by_checked_path.
Qed.

End CompilerOnPlainSources.
